(** * Authentication and session lifecycle of the fowergram backend

    A shallow embedding of the Go sources of the authentication core:
    - [pkg/auth] (the JWT service [JWTAuth], fuller draft with the
      verification and password-reset flows, the one [cmd/server/main.go]
      wires), with its error values;
    - [internal/domain/user] (the PostgreSQL repositories, read together
      with the table constraints of [migrations/]);
    - [internal/handlers] (the HTTP handlers of [/api/auth/...]);
    - [internal/routes] (the route table);
    - [pkg/middleware] (the Redis backed rate limiter).

    Conventions of the embedding.
    - An instant ([time.Time]) and a duration ([time.Duration]) are integers
      counting nanoseconds. One service call reads the clock once: the
      instants returned by the successive [time.Now()] of one call are
      identified and passed as [now]. Timestamps are stored and compared
      exactly (the rounding of [timestamptz] to microseconds is monotone
      and is left out).
    - A table is the list of its rows in insertion order; an INSERT checks
      the constraints the migrations declare. Of [users] the columns the
      authentication flows read or write are kept.
    - PostgreSQL, Redis, SMTP and the operating system's entropy source are
      outside the program. What they answer to one request is recorded in an
      [Env]: for every driver call whether it completes, the bytes
      [rand.Read] delivers, the identifiers [uuid.New] draws. Requests are
      served one at a time.
    - [golang.org/x/crypto/bcrypt] and the MAC of
      [github.com/golang-jwt/jwt/v5] are parameters ([Bcrypt], [Hmac]); the
      parser of the token library is written out in [Jwt] after the
      library's behaviour, a compact token string being represented by its
      three decoded segments. *)

From Stdlib Require Import ZArith Lia Ascii.
From stdpp Require Import base option list strings gmap.

Local Open Scope string_scope.
Local Open Scope Z_scope.

(** ** Time *)

Definition Time := Z.
Definition Duration := Z.

Definition Second : Duration := 1000000000.
Definition Minute : Duration := 60 * Second.
Definition Hour : Duration := 60 * Minute.
Definition Millisecond : Duration := 1000000.

(** [jwt.NewNumericDate]: the instant truncated to [jwt.TimePrecision],
    one second. *)
Definition NewNumericDate (t : Time) : Time := (t / Second) * Second.

(** ** Errors *)

(** [jwt/v5] reports a failed parse through one of its sentinel errors. *)
Inductive JwtErrKind :=
| TokenMalformed
| TokenUnverifiable
| TokenSignatureInvalid
| TokenExpired
| TokenNotValidYet.

(** Go [error] values met in the authentication core: the package's
    [*AuthError] sentinels, [fmt.Errorf] with or without [%w], and the
    errors of the collaborators. *)
Inductive error :=
| AuthError (code message : string)
| Errorf (message : string)
| ErrorfW (message : string) (wrapped : error)
| JwtError (k : JwtErrKind)
| PgErrNoRows
| PgError (detail : string)
| RedisError
| SmtpError
| EntropyError
| BcryptError.

Definition ErrInvalidCredentials := AuthError "INVALID_CREDENTIALS" "Invalid email or password".
Definition ErrUserNotFound := AuthError "USER_NOT_FOUND" "User not found".
Definition ErrUserExists := AuthError "USER_EXISTS" "User already exists".
Definition ErrInvalidToken := AuthError "INVALID_TOKEN" "Invalid or expired token".
Definition ErrUnauthorized := AuthError "UNAUTHORIZED" "Unauthorized access".
Definition ErrEmailAlreadyVerified := AuthError "EMAIL_ALREADY_VERIFIED" "Email already verified".

(** The innermost error of a [%w] chain ([errors.Unwrap] iterated). *)
Fixpoint root_cause (e : error) : error :=
  match e with
  | ErrorfW _ e' => root_cause e'
  | _ => e
  end.

(** The error taxonomy of the specification (section 7). [InvalidToken]
    covers expired, malformed, signature-mismatch, used and revoked tokens:
    the [ErrInvalidToken] sentinel of the repositories and the validation
    errors of the token library. *)
Inductive ErrorClass :=
| InvalidCredentials
| UserExists
| UserNotFound
| InvalidToken
| Unauthorized
| EmailAlreadyVerified
| InternalFailure.

Definition error_class (e : error) : ErrorClass :=
  match root_cause e with
  | AuthError code _ =>
      if String.eqb code "INVALID_CREDENTIALS" then InvalidCredentials
      else if String.eqb code "USER_EXISTS" then UserExists
      else if String.eqb code "USER_NOT_FOUND" then UserNotFound
      else if String.eqb code "INVALID_TOKEN" then InvalidToken
      else if String.eqb code "UNAUTHORIZED" then Unauthorized
      else if String.eqb code "EMAIL_ALREADY_VERIFIED" then EmailAlreadyVerified
      else InternalFailure
  | JwtError _ => InvalidToken
  | _ => InternalFailure
  end.

(** [(T, error)] results. *)
Inductive result (A : Type) :=
| Ok (a : A)
| Err (e : error).
Arguments Ok {A} a.
Arguments Err {A} e.

Definition is_ok {A} (r : result A) : bool :=
  match r with Ok _ => true | Err _ => false end.

(** ** The relational store *)

(** [uuid.UUID]: an identifier, named by its text. *)
Definition UUID := string.

(** The standard form of the text of an identifier, 8-4-4-4-12 hexadecimal
    digits, which [uuid.Parse] accepts. *)
Definition is_hex_digit (c : Ascii.ascii) : bool :=
  let n := Ascii.N_of_ascii c in
  (((48 <=? n) && (n <=? 57)) || ((65 <=? n) && (n <=? 70))
   || ((97 <=? n) && (n <=? 102)))%N.

Definition uuid_standard_form (s : string) : bool :=
  let cs := String.list_ascii_of_string s in
  Nat.eqb (length cs) 36
  && forallb (fun ic => if existsb (Nat.eqb (fst ic)) [8; 13; 18; 23]%nat
                        then Ascii.eqb (snd ic) "-"
                        else is_hex_digit (snd ic))
             (combine (seq 0 36) cs).

(** [auth.User], restricted to the columns the authentication flows read
    or write (the profile columns and the counters are carried along
    unchanged by every statement below). *)
Record User := mkUser {
  ID : UUID;
  Email : string;
  Username : string;
  HashedPassword : string;
  IsActive : bool;
  IsVerified : bool;
  CreatedAt : Time;
  UpdatedAt : Time
}.

(** A row of [refresh_tokens]. *)
Record RefreshToken := mkRefreshToken {
  rt_id : UUID;
  rt_user_id : UUID;
  rt_token_hash : string;
  rt_expires_at : Time;
  rt_created_at : Time;
  rt_revoked_at : option Time
}.

(** A row of [email_verifications] or of [password_resets] (same shape). *)
Record SingleUseToken := mkSingleUseToken {
  su_user_id : UUID;
  su_token : string;
  su_expires_at : Time;
  su_used_at : option Time;
  su_created_at : Time
}.

Record DB := mkDB {
  users : list User;
  refresh_tokens : list RefreshToken;
  email_verifications : list SingleUseToken;
  password_resets : list SingleUseToken
}.

Definition empty_db : DB := mkDB [] [] [] [].

Definition set_users (f : list User -> list User) (db : DB) : DB :=
  mkDB (f (users db)) (refresh_tokens db) (email_verifications db) (password_resets db).
Definition set_refresh_tokens (f : list RefreshToken -> list RefreshToken) (db : DB) : DB :=
  mkDB (users db) (f (refresh_tokens db)) (email_verifications db) (password_resets db).
Definition set_email_verifications (f : list SingleUseToken -> list SingleUseToken) (db : DB) : DB :=
  mkDB (users db) (refresh_tokens db) (f (email_verifications db)) (password_resets db).
Definition set_password_resets (f : list SingleUseToken -> list SingleUseToken) (db : DB) : DB :=
  mkDB (users db) (refresh_tokens db) (email_verifications db) (f (password_resets db)).

Definition is_null {A} (o : option A) : bool :=
  match o with None => true | Some _ => false end.

(** [UPDATE t SET ... WHERE cond]: every row satisfying [cond] is rewritten. *)
Definition sql_update {A} (cond : A -> bool) (set : A -> A) (rows : list A) : list A :=
  map (fun r => if cond r then set r else r) rows.

(** [QueryRow]: the first row of the result, [pgx.ErrNoRows] when empty. *)
Definition QueryRow {A} (io : bool) (rows : list A) : result A :=
  if io then
    match rows with
    | r :: _ => Ok r
    | [] => Err PgErrNoRows
    end
  else Err (PgError "connection").

(** [FROM users u JOIN t ON u.id = t.user_id WHERE cond t AND ucond u]. *)
Definition join_users {A} (user_id : A -> UUID) (cond : A -> bool) (ucond : User -> bool)
    (us : list User) (rows : list A) : list User :=
  flat_map (fun r =>
    if cond r then List.filter (fun u => String.eqb (ID u) (user_id r) && ucond u) us
    else []) rows.

(** [VARCHAR(n)]: at most [n] characters, the text being UTF-8 (a byte
    of the form 10xxxxxx continues a character). *)
Fixpoint utf8_chars (s : string) : nat :=
  match s with
  | EmptyString => 0%nat
  | String c s' =>
      ((if (Ascii.N_of_ascii c / 64 =? 2)%N then 0 else 1) + utf8_chars s')%nat
  end.

Definition varchar (n : nat) (s : string) : bool := Nat.leb (utf8_chars s) n.

(** Text a server whose encoding is UTF8 takes as a value: well-formed
    UTF-8 without a zero byte. *)
Definition between (a b n : N) : bool := ((a <=? n) && (n <=? b))%N.

Fixpoint pg_text (s : string) : bool :=
  match s with
  | EmptyString => true
  | String c0 s0 =>
      let b0 := Ascii.N_of_ascii c0 in
      if (b0 <? 128)%N then (0 <? b0)%N && pg_text s0
      else
        match s0 with
        | EmptyString => false
        | String c1 s1 =>
            let b1 := Ascii.N_of_ascii c1 in
            if between 194 223 b0 then between 128 191 b1 && pg_text s1
            else
              match s1 with
              | EmptyString => false
              | String c2 s2 =>
                  let b2 := Ascii.N_of_ascii c2 in
                  if between 224 239 b0 then
                    (if (b0 =? 224)%N then between 160 191 b1
                     else if (b0 =? 237)%N then between 128 159 b1
                     else between 128 191 b1)
                    && between 128 191 b2 && pg_text s2
                  else
                    match s2 with
                    | EmptyString => false
                    | String c3 s3 =>
                        let b3 := Ascii.N_of_ascii c3 in
                        between 240 244 b0
                        && (if (b0 =? 240)%N then between 144 191 b1
                            else if (b0 =? 244)%N then between 128 143 b1
                            else between 128 191 b1)
                        && between 128 191 b2 && between 128 191 b3 && pg_text s3
                    end
              end
        end
  end.

(** Regular expressions, as far as the CHECK constraints use them:
    matching by derivatives. *)
Inductive Regex :=
| ReNone
| ReEmpty
| ReClass (member : Ascii.ascii -> bool)
| ReCat (r1 r2 : Regex)
| ReAlt (r1 r2 : Regex)
| ReStar (r : Regex).

Fixpoint nullable (r : Regex) : bool :=
  match r with
  | ReNone => false
  | ReEmpty => true
  | ReClass _ => false
  | ReCat r1 r2 => nullable r1 && nullable r2
  | ReAlt r1 r2 => nullable r1 || nullable r2
  | ReStar _ => true
  end.

Fixpoint derive (c : Ascii.ascii) (r : Regex) : Regex :=
  match r with
  | ReNone => ReNone
  | ReEmpty => ReNone
  | ReClass member => if member c then ReEmpty else ReNone
  | ReCat r1 r2 =>
      if nullable r1 then ReAlt (ReCat (derive c r1) r2) (derive c r2)
      else ReCat (derive c r1) r2
  | ReAlt r1 r2 => ReAlt (derive c r1) (derive c r2)
  | ReStar r1 => ReCat (derive c r1) (ReStar r1)
  end.

(** [^r$]: the whole text matches. *)
Fixpoint regex_match (r : Regex) (s : string) : bool :=
  match s with
  | EmptyString => nullable r
  | String c s' => regex_match (derive c r) s'
  end.

Definition RePlus (r : Regex) : Regex := ReCat r (ReStar r).

Definition is_alpha (c : Ascii.ascii) : bool :=
  let n := Ascii.N_of_ascii c in
  (((65 <=? n) && (n <=? 90)) || ((97 <=? n) && (n <=? 122)))%N.

Definition is_digit (c : Ascii.ascii) : bool :=
  let n := Ascii.N_of_ascii c in ((48 <=? n) && (n <=? 57))%N.

Definition one_of (chars : string) (c : Ascii.ascii) : bool :=
  existsb (Ascii.eqb c) (String.list_ascii_of_string chars).

(** [CHECK (char_length(username) >= 3)]. *)
Definition check_username_length (username : string) : bool :=
  Nat.leb 3 (utf8_chars username).

(** [CHECK (email ~* '^[A-Za-z0-9._%+-]+@[A-Za-z0-9.-]+\.[A-Za-z]{2,}$')];
    the classes hold both cases already. *)
Definition email_format : Regex :=
  ReCat (RePlus (ReClass (fun c => is_alpha c || is_digit c || one_of "._%+-" c)))
    (ReCat (ReClass (Ascii.eqb "@"))
       (ReCat (RePlus (ReClass (fun c => is_alpha c || is_digit c || one_of ".-" c)))
          (ReCat (ReClass (Ascii.eqb "."))
             (ReCat (ReClass is_alpha)
                (ReCat (ReClass is_alpha) (ReStar (ReClass is_alpha))))))).

Definition check_email_format (email : string) : bool :=
  regex_match email_format email.

(** Table constraints of the migrations: the PRIMARY KEY and UNIQUE
    columns, the REFERENCES clauses, the column widths and the CHECK
    constraints that an INSERT must meet. The user name must be text the
    server takes; the format asked of the email leaves it ASCII. *)
Definition users_insert_ok (u : User) (us : list User) : bool :=
  forallb (fun v => negb (String.eqb (ID v) (ID u))
                    && negb (String.eqb (Email v) (Email u))
                    && negb (String.eqb (Username v) (Username u))) us
  && (varchar 255 (Email u) && varchar 30 (Username u) && varchar 255 (HashedPassword u)
      && check_username_length (Username u) && check_email_format (Email u)
      && pg_text (Username u)).

Definition user_exists (id : UUID) (us : list User) : bool :=
  existsb (fun v => String.eqb (ID v) id) us.

Definition refresh_insert_ok (r : RefreshToken) (db : DB) : bool :=
  forallb (fun q => negb (String.eqb (rt_id q) (rt_id r))
                    && negb (String.eqb (rt_token_hash q) (rt_token_hash r)))
          (refresh_tokens db)
  && (user_exists (rt_user_id r) (users db) && varchar 255 (rt_token_hash r)).

Definition single_use_insert_ok (r : SingleUseToken) (us : list User)
    (rows : list SingleUseToken) : bool :=
  forallb (fun q => negb (String.eqb (su_token q) (su_token r))) rows
  && (user_exists (su_user_id r) us && varchar 255 (su_token r)).

(** ** The environment of one request *)

Record Env := mkEnv {
  now : Time;
  (** [pg k]: the [k]-th PostgreSQL driver call of the request completes. *)
  pg : nat -> bool;
  (** [redis_ok k]: the [k]-th Redis command of the request completes. *)
  redis_ok : nat -> bool;
  (** the SMTP delivery completes *)
  smtp_ok : bool;
  (** the 32 bytes read from [crypto/rand], [None] when the read fails *)
  entropy : option string;
  (** the salt bcrypt draws *)
  salt : string;
  (** the identifiers drawn by [uuid.New], in call order *)
  uuid_new : nat -> UUID
}.

(** ** Library parameters *)

(** [bcrypt.GenerateFromPassword] at [bcrypt.DefaultCost] and
    [bcrypt.CompareHashAndPassword] ([true] for a [nil] error). *)
Class Bcrypt := {
  GenerateFromPassword : string -> string -> option string;
  CompareHashAndPassword : string -> string -> bool
}.

(** [hex.EncodeToString]. *)
Definition hex_digit (n : N) : Ascii.ascii :=
  match n with
  | 0%N => "0" | 1%N => "1" | 2%N => "2" | 3%N => "3" | 4%N => "4"
  | 5%N => "5" | 6%N => "6" | 7%N => "7" | 8%N => "8" | 9%N => "9"
  | 10%N => "a" | 11%N => "b" | 12%N => "c" | 13%N => "d" | 14%N => "e"
  | _ => "f"
  end%char.

Fixpoint hex_EncodeToString (s : string) : string :=
  match s with
  | EmptyString => EmptyString
  | String c s' =>
      let n := Ascii.N_of_ascii c in
      String (hex_digit (n / 16)) (String (hex_digit (n mod 16)) (hex_EncodeToString s'))
  end.

(** ** [internal/domain/user]: the PostgreSQL user repository *)

Module UserRepo.

(** An [Exec] that the driver or a table constraint refuses. *)
Definition exec_error (io : bool) : error :=
  if io then PgError "constraint" else PgError "connection".

Definition CreateUser (io : bool) (user : User) (db : DB) : result unit * DB :=
  if io && users_insert_ok user (users db)
  then (Ok tt, set_users (fun us => (us ++ [user])%list) db)
  else (Err (ErrorfW "failed to create user" (exec_error io)), db).

Definition GetUserByEmail (io : bool) (email : string) (db : DB) : result User :=
  match QueryRow io (List.filter (fun u => String.eqb (Email u) email && IsActive u) (users db)) with
  | Ok u => Ok u
  | Err PgErrNoRows => Err ErrUserNotFound
  | Err e => Err (ErrorfW "failed to get user by email" e)
  end.

Definition GetUserByUsername (io : bool) (username : string) (db : DB) : result User :=
  match QueryRow io (List.filter (fun u => String.eqb (Username u) username && IsActive u) (users db)) with
  | Ok u => Ok u
  | Err PgErrNoRows => Err ErrUserNotFound
  | Err e => Err (ErrorfW "failed to get user by username" e)
  end.

Definition GetUserByID (io : bool) (id : UUID) (db : DB) : result User :=
  match QueryRow io (List.filter (fun u => String.eqb (ID u) id) (users db)) with
  | Ok u => Ok u
  | Err PgErrNoRows => Err ErrUserNotFound
  | Err e => Err (ErrorfW "failed to get user by ID" e)
  end.

(** What an [UPDATE users SET email, username ...] of an existing row
    must meet: the UNIQUE columns stay distinct from those of the other
    rows, and the new values have the width and pass the CHECK constraints
    of their columns. *)
Definition users_update_ok (user : User) (us : list User) : bool :=
  negb (user_exists (ID user) us)
  || (forallb (fun v => String.eqb (ID v) (ID user)
                        || (negb (String.eqb (Email v) (Email user))
                            && negb (String.eqb (Username v) (Username user)))) us
      && varchar 255 (Email user) && varchar 30 (Username user)
      && check_username_length (Username user) && check_email_format (Email user)
      && pg_text (Username user)).

Definition UpdateUser (io : bool) (now : Time) (user : User) (db : DB) : result unit * DB :=
  if io && users_update_ok user (users db)
  then (Ok tt,
        set_users (sql_update (fun v => String.eqb (ID v) (ID user))
                     (fun v => mkUser (ID v) (Email user) (Username user) (HashedPassword v)
                                      (IsActive user) (IsVerified user) (CreatedAt v) now)) db)
  else (Err (ErrorfW "failed to update user" (exec_error io)), db).

Definition UpdatePassword (io : bool) (now : Time) (userID : UUID) (hashedPassword : string)
    (db : DB) : result unit * DB :=
  if io && (negb (user_exists userID (users db)) || varchar 255 hashedPassword)
  then (Ok tt,
        set_users (sql_update (fun v => String.eqb (ID v) userID)
                     (fun v => mkUser (ID v) (Email v) (Username v) hashedPassword
                                      (IsActive v) (IsVerified v) (CreatedAt v) now)) db)
  else (Err (ErrorfW "failed to update password" (exec_error io)), db).

Definition StoreRefreshToken (io : bool) (id : UUID) (now : Time) (userID : UUID)
    (tokenHash : string) (expiresAt : Time) (db : DB) : result unit * DB :=
  let row := mkRefreshToken id userID tokenHash expiresAt now None in
  if io && refresh_insert_ok row db
  then (Ok tt, set_refresh_tokens (fun rs => (rs ++ [row])%list) db)
  else (Err (ErrorfW "failed to store refresh token" (exec_error io)), db).

Definition ValidateRefreshToken (io : bool) (now : Time) (tokenHash : string) (db : DB)
    : result User :=
  match QueryRow io
          (join_users rt_user_id
             (fun rt => String.eqb (rt_token_hash rt) tokenHash
                        && (now <? rt_expires_at rt)
                        && is_null (rt_revoked_at rt))
             IsActive (users db) (refresh_tokens db)) with
  | Ok u => Ok u
  | Err PgErrNoRows => Err ErrInvalidToken
  | Err e => Err (ErrorfW "failed to validate refresh token" e)
  end.

Definition RevokeRefreshToken (io : bool) (now : Time) (tokenHash : string) (db : DB)
    : result unit * DB :=
  if io
  then (Ok tt,
        set_refresh_tokens
          (sql_update (fun rt => String.eqb (rt_token_hash rt) tokenHash && is_null (rt_revoked_at rt))
             (fun rt => mkRefreshToken (rt_id rt) (rt_user_id rt) (rt_token_hash rt)
                          (rt_expires_at rt) (rt_created_at rt) (Some now))) db)
  else (Err (ErrorfW "failed to revoke refresh token" (exec_error io)), db).

(** [last_login_at] is not among the modelled columns. *)
Definition UpdateLastLogin (io : bool) (now : Time) (userID : UUID) (db : DB)
    : result unit * DB :=
  if io then (Ok tt, db)
  else (Err (ErrorfW "failed to update last login" (exec_error io)), db).

End UserRepo.

(** ** [internal/domain/user]: the verification repository *)

Module VerificationRepo.

Import UserRepo.

Definition mark_used (now : Time) (r : SingleUseToken) : SingleUseToken :=
  mkSingleUseToken (su_user_id r) (su_token r) (su_expires_at r) (Some now) (su_created_at r).

(** The WHERE clause shared by the two validation queries. *)
Definition token_live (now : Time) (token : string) (r : SingleUseToken) : bool :=
  String.eqb (su_token r) token && (now <? su_expires_at r) && is_null (su_used_at r).

Definition StoreVerificationToken (io : bool) (now : Time) (userID : UUID) (token : string)
    (expiresAt : Time) (db : DB) : result unit * DB :=
  let row := mkSingleUseToken userID token expiresAt None now in
  if io && single_use_insert_ok row (users db) (email_verifications db)
  then (Ok tt, set_email_verifications (fun rs => (rs ++ [row])%list) db)
  else (Err (ErrorfW "failed to store verification token" (exec_error io)), db).

Definition ValidateVerificationToken (io : bool) (now : Time) (token : string) (db : DB)
    : result User :=
  match QueryRow io
          (join_users su_user_id (token_live now token) (fun _ => true)
             (users db) (email_verifications db)) with
  | Ok u => Ok u
  | Err PgErrNoRows => Err ErrInvalidToken
  | Err e => Err (ErrorfW "failed to validate verification token" e)
  end.

(** *** Transactions ([pgx.Tx]) *)

(** A connection holds the committed tables and, while a transaction is
    open, its working copy. *)
Record Conn := mkConn {
  committed : DB;
  pending : option DB
}.

Definition Begin (io : bool) (db : DB) : result Conn :=
  if io then Ok (mkConn db (Some db)) else Err (PgError "connection").

Definition tx_Exec (io : bool) (stmt : DB -> DB) (c : Conn) : result unit * Conn :=
  match pending c with
  | Some work =>
      if io then (Ok tt, mkConn (committed c) (Some (stmt work)))
      else (Err (PgError "connection"), c)
  | None => (Err (PgError "tx is closed"), c)
  end.

Definition tx_Commit (io : bool) (c : Conn) : result unit * Conn :=
  match pending c with
  | Some work =>
      if io then (Ok tt, mkConn work None)
      else (Err (PgError "connection"), mkConn (committed c) None)
  | None => (Err (PgError "tx is closed"), c)
  end.

(** [tx.Rollback]: drops the working copy; nothing to do once the
    transaction is closed. *)
Definition tx_Rollback (c : Conn) : Conn := mkConn (committed c) None.

(** [defer tx.Rollback(ctx)]: runs when the function returns. *)
Definition defer_Rollback {A} (body : result A * Conn) : result A * DB :=
  (fst body, committed (tx_Rollback (snd body))).

Definition updateUserQuery (now : Time) (userID : UUID) : DB -> DB :=
  set_users (sql_update (fun v => String.eqb (ID v) userID)
               (fun v => mkUser (ID v) (Email v) (Username v) (HashedPassword v)
                                (IsActive v) true (CreatedAt v) now)).

Definition updateTokenQuery (now : Time) (userID : UUID) : DB -> DB :=
  set_email_verifications
    (sql_update (fun r => String.eqb (su_user_id r) userID && is_null (su_used_at r))
                (mark_used now)).

(** The four driver calls of [MarkEmailVerified]: Begin, the two Exec,
    Commit. *)
Record TxIO := mkTxIO { io_begin : bool; io_user : bool; io_token : bool; io_commit : bool }.

Definition MarkEmailVerified (io : TxIO) (now : Time) (userID : UUID) (db : DB)
    : result unit * DB :=
  match Begin (io_begin io) db with
  | Err e => (Err (ErrorfW "failed to begin transaction" e), db)
  | Ok tx =>
      defer_Rollback
        match tx_Exec (io_user io) (updateUserQuery now userID) tx with
        | (Err e, tx) => (Err (ErrorfW "failed to update user verification status" e), tx)
        | (Ok _, tx) =>
            match tx_Exec (io_token io) (updateTokenQuery now userID) tx with
            | (Err e, tx) => (Err (ErrorfW "failed to mark verification token as used" e), tx)
            | (Ok _, tx) =>
                match tx_Commit (io_commit io) tx with
                | (Err e, tx) => (Err (ErrorfW "failed to commit transaction" e), tx)
                | (Ok _, tx) => (Ok tt, tx)
                end
            end
        end
  end.

Definition StorePasswordResetToken (io : bool) (now : Time) (userID : UUID) (token : string)
    (expiresAt : Time) (db : DB) : result unit * DB :=
  let row := mkSingleUseToken userID token expiresAt None now in
  if io && single_use_insert_ok row (users db) (password_resets db)
  then (Ok tt, set_password_resets (fun rs => (rs ++ [row])%list) db)
  else (Err (ErrorfW "failed to store password reset token" (exec_error io)), db).

Definition ValidatePasswordResetToken (io : bool) (now : Time) (token : string) (db : DB)
    : result User :=
  match QueryRow io
          (join_users su_user_id (token_live now token) (fun _ => true)
             (users db) (password_resets db)) with
  | Ok u => Ok u
  | Err PgErrNoRows => Err ErrInvalidToken
  | Err e => Err (ErrorfW "failed to validate password reset token" e)
  end.

Definition RevokePasswordResetToken (io : bool) (now : Time) (token : string) (db : DB)
    : result unit * DB :=
  if io
  then (Ok tt,
        set_password_resets
          (sql_update (fun r => String.eqb (su_token r) token && is_null (su_used_at r))
                      (mark_used now)) db)
  else (Err (ErrorfW "failed to revoke password reset token" (exec_error io)), db).

End VerificationRepo.

(** ** [github.com/golang-jwt/jwt/v5], as far as the service uses it *)

Module Jwt.

Inductive HmacHash := SHA256 | SHA384 | SHA512.

(** The registered signing methods: the three of [*SigningMethodHMAC]
    and the others (RSA, RSA-PSS, ECDSA, EdDSA, none), of other Go types. *)
Inductive SigningMethod :=
| SigningMethodHMAC (h : HmacHash)
| SigningMethodOther (alg : string).

Definition other_algs : list string :=
  ["RS256"; "RS384"; "RS512"; "PS256"; "PS384"; "PS512";
   "ES256"; "ES384"; "ES512"; "EdDSA"; "none"].

Definition GetSigningMethod (alg : string) : option SigningMethod :=
  if String.eqb alg "HS256" then Some (SigningMethodHMAC SHA256)
  else if String.eqb alg "HS384" then Some (SigningMethodHMAC SHA384)
  else if String.eqb alg "HS512" then Some (SigningMethodHMAC SHA512)
  else if existsb (String.eqb alg) other_algs then Some (SigningMethodOther alg)
  else None.

Definition SigningMethodHS256 : SigningMethod := SigningMethodHMAC SHA256.

Definition Alg (m : SigningMethod) : string :=
  match m with
  | SigningMethodHMAC SHA256 => "HS256"
  | SigningMethodHMAC SHA384 => "HS384"
  | SigningMethodHMAC SHA512 => "HS512"
  | SigningMethodOther alg => alg
  end.

(** The claims segment as the two claim structs of the service decode
    it: the members they declare, each present or absent, [user_id] an
    identifier and the dates instants. *)
Record Payload := mkPayload {
  p_user_id : option UUID;
  p_email : option string;
  p_username : option string;
  p_token_hash : option string;
  p_exp : option Time;
  p_nbf : option Time;
  p_iat : option Time;
  p_sub : option string
}.

(** A token string: [Compact] when it has the compact form and its three
    segments decode (the [alg] of the header, the claims, the signature);
    [Garbage] otherwise, which is also the case of a claims segment that
    does not fit the claim structs (a [user_id] that is not the text of an
    identifier, a member of another JSON type). *)
Inductive TokenString :=
| Garbage (raw : string)
| Compact (alg : string) (payload : Payload) (signature : string).

(** The MAC of the signing input (header and claims segments) under a
    key. *)
Class Hmac := {
  hmac_sum : HmacHash -> string -> string -> Payload -> string
}.

(** The parsed [*jwt.Token]. *)
Record Token := mkToken {
  Method : SigningMethod;
  Claims : Payload;
  Valid : bool
}.

Section WithHmac.
Context {hm : Hmac}.

(** [token.SignedString(key)] for an HMAC method and a [[]byte] key. *)
Definition SignedString (m : HmacHash) (key : string) (claims : Payload) : TokenString :=
  let alg := Alg (SigningMethodHMAC m) in
  Compact alg claims (hmac_sum m key alg claims).

(** [Method.Verify]: the other methods refuse a [[]byte] key. *)
Definition Verify (m : SigningMethod) (key : string) (alg : string) (claims : Payload)
    (signature : string) : bool :=
  match m with
  | SigningMethodHMAC h => String.eqb signature (hmac_sum h key alg claims)
  | SigningMethodOther _ => false
  end.

(** The default validator: [exp] and [nbf] when present, no leeway;
    [iat], [aud], [iss] and [sub] are not checked without options. A date
    read from a token is a [NumericDate]: decoding keeps its whole second
    ([NumericDate.UnmarshalJSON] ends in [NewNumericDate]). *)
Definition verifyExpiresAt (now : Time) (claims : Payload) : bool :=
  match p_exp claims with
  | Some exp => now <? NewNumericDate exp
  | None => true
  end.

Definition verifyNotBefore (now : Time) (claims : Payload) : bool :=
  match p_nbf claims with
  | Some nbf => NewNumericDate nbf <=? now
  | None => true
  end.

Definition validate_claims (now : Time) (claims : Payload) : result unit :=
  if negb (verifyExpiresAt now claims) then Err (JwtError TokenExpired)
  else if negb (verifyNotBefore now claims) then Err (JwtError TokenNotValidYet)
  else Ok tt.

(** [jwt.ParseWithClaims] without parser options: split and decode,
    look the method up, ask [keyfunc] for the key, verify the
    signature, validate the claims. *)
Definition ParseWithClaims (keyfunc : SigningMethod -> result string) (now : Time)
    (tokenString : TokenString) : result Token :=
  match tokenString with
  | Garbage _ => Err (JwtError TokenMalformed)
  | Compact alg claims signature =>
      match GetSigningMethod alg with
      | None => Err (JwtError TokenUnverifiable)
      | Some m =>
          match keyfunc m with
          | Err _ => Err (JwtError TokenUnverifiable)
          | Ok key =>
              if Verify m key alg claims signature then
                match validate_claims now claims with
                | Ok _ => Ok (mkToken m claims true)
                | Err e => Err e
                end
              else Err (JwtError TokenSignatureInvalid)
          end
      end
  end.
End WithHmac.

End Jwt.

(** [base64.URLEncoding.EncodeToString] (padded, URL alphabet). *)
Definition base64_alphabet : string :=
  "ABCDEFGHIJKLMNOPQRSTUVWXYZabcdefghijklmnopqrstuvwxyz0123456789-_".

Definition base64_char (i : N) : Ascii.ascii :=
  match String.get (N.to_nat i) base64_alphabet with
  | Some c => c
  | None => "="%char
  end.

Fixpoint base64_groups (l : list N) : string :=
  match l with
  | [] => EmptyString
  | [a] =>
      String (base64_char (a / 4)) (String (base64_char ((a mod 4) * 16)) "==")
  | [a; b] =>
      String (base64_char (a / 4))
        (String (base64_char ((a mod 4) * 16 + b / 16))
           (String (base64_char ((b mod 16) * 4)) "="))
  | a :: b :: c :: rest =>
      String (base64_char (a / 4))
        (String (base64_char ((a mod 4) * 16 + b / 16))
           (String (base64_char ((b mod 16) * 4 + c / 64))
              (String (base64_char (c mod 64)) (base64_groups rest))))
  end%N.

Definition base64_URLEncoding (s : string) : string :=
  base64_groups (map Ascii.N_of_ascii (String.list_ascii_of_string s)).

(** ** [pkg/auth]: the JWT authentication service *)

Module Auth.

Import Jwt.

(** [JWTAuth]: the signing secret and the lifetimes; the repositories
    are the PostgreSQL ones, the email service is SMTP. *)
Record JWTAuth := mkJWTAuth {
  secretKey : string;
  accessTokenTTL : Duration;
  refreshTokenTTL : Duration
}.

(** [Claims] and [RefreshClaims]: a member absent from the JSON leaves
    the field at its zero value. *)
Record Claims := mkClaims {
  c_UserID : UUID;
  c_Email : string;
  c_Username : string;
  c_ExpiresAt : option Time;
  c_IssuedAt : option Time;
  c_Subject : string
}.

Record RefreshClaims := mkRefreshClaims {
  r_UserID : UUID;
  r_TokenHash : string;
  r_ExpiresAt : option Time;
  r_IssuedAt : option Time;
  r_Subject : string
}.

Definition uuid_Nil : UUID := "00000000-0000-0000-0000-000000000000".

Definition claims_of_payload (p : Payload) : Claims :=
  mkClaims (default uuid_Nil (p_user_id p)) (default "" (p_email p))
           (default "" (p_username p)) (p_exp p) (p_iat p) (default "" (p_sub p)).

Definition refresh_claims_of_payload (p : Payload) : RefreshClaims :=
  mkRefreshClaims (default uuid_Nil (p_user_id p)) (default "" (p_token_hash p))
                  (p_exp p) (p_iat p) (default "" (p_sub p)).

Definition payload_of_claims (c : Claims) : Payload :=
  mkPayload (Some (c_UserID c)) (Some (c_Email c)) (Some (c_Username c)) None
            (c_ExpiresAt c) None (c_IssuedAt c) (Some (c_Subject c)).

Definition payload_of_refresh_claims (c : RefreshClaims) : Payload :=
  mkPayload (Some (r_UserID c)) None None (Some (r_TokenHash c))
            (r_ExpiresAt c) None (r_IssuedAt c) (Some (r_Subject c)).

(** A sent message: recipient and token. *)
Inductive Mail :=
| VerificationMail (to token : string)
| PasswordResetMail (to token : string).

Definition clear_password (u : User) : User :=
  mkUser (ID u) (Email u) (Username u) "" (IsActive u) (IsVerified u)
         (CreatedAt u) (UpdatedAt u).

Section Service.
Context {bc : Bcrypt} {hm : Hmac}.

(** The key function of both parsers: any [*SigningMethodHMAC]. *)
Definition keyfunc (j : JWTAuth) (m : SigningMethod) : result string :=
  match m with
  | SigningMethodHMAC _ => Ok (secretKey j)
  | SigningMethodOther _ => Err (Errorf "unexpected signing method")
  end.

Definition generateAccessToken (j : JWTAuth) (now : Time) (user : User) : result TokenString :=
  let expirationTime := now + accessTokenTTL j in
  let claims := mkClaims (ID user) (Email user) (Username user)
                  (Some (NewNumericDate expirationTime))
                  (Some (NewNumericDate now)) (ID user) in
  Ok (SignedString SHA256 (secretKey j) (payload_of_claims claims)).

Definition generateRefreshToken (j : JWTAuth) (env : Env) (user : User) : result (TokenString * string) :=
  match entropy env with
  | None => Err EntropyError
  | Some randomBytes =>
      let tokenHash := hex_EncodeToString randomBytes in
      let expirationTime := now env + refreshTokenTTL j in
      let claims := mkRefreshClaims (ID user) tokenHash
                      (Some (NewNumericDate expirationTime))
                      (Some (NewNumericDate (now env))) (ID user) in
      Ok (SignedString SHA256 (secretKey j) (payload_of_refresh_claims claims), tokenHash)
  end.

Definition parseAccessToken (j : JWTAuth) (now : Time) (tokenString : TokenString) : result Claims :=
  match ParseWithClaims (keyfunc j) now tokenString with
  | Err e => Err (ErrorfW "invalid token" e)
  | Ok token =>
      if negb (Valid token) then Err (Errorf "invalid token")
      else Ok (claims_of_payload (Jwt.Claims token))
  end.

Definition parseRefreshToken (j : JWTAuth) (now : Time) (tokenString : TokenString) : result RefreshClaims :=
  match ParseWithClaims (keyfunc j) now tokenString with
  | Err e => Err (ErrorfW "invalid refresh token" e)
  | Ok token =>
      if negb (Valid token) then Err (Errorf "invalid refresh token")
      else Ok (refresh_claims_of_payload (Jwt.Claims token))
  end.

Definition CreateUser (j : JWTAuth) (env : Env) (email password username : string) (db : DB)
    : result User * DB :=
  match UserRepo.GetUserByEmail (pg env 0) email db with
  | Ok _ => (Err ErrUserExists, db)
  | Err _ =>
      match GenerateFromPassword password (salt env) with
      | None => (Err (ErrorfW "failed to hash password" BcryptError), db)
      | Some hashedPassword =>
          let user := mkUser (uuid_new env 0) email username hashedPassword
                             true false (now env) (now env) in
          match UserRepo.CreateUser (pg env 1) user db with
          | (Err e, db') => (Err (ErrorfW "failed to create user" e), db')
          | (Ok _, db') => (Ok (clear_password user), db')
          end
      end
  end.

Definition SignIn (j : JWTAuth) (env : Env) (email password : string) (db : DB)
    : result (User * TokenString) * DB :=
  match UserRepo.GetUserByEmail (pg env 0) email db with
  | Err _ => (Err ErrInvalidCredentials, db)
  | Ok user =>
      if negb (IsActive user) then (Err (Errorf "account is deactivated"), db)
      else if negb (CompareHashAndPassword (HashedPassword user) password)
      then (Err ErrInvalidCredentials, db)
      else
        match generateAccessToken j (now env) user with
        | Err e => (Err (ErrorfW "failed to generate access token" e), db)
        | Ok accessToken =>
            match generateRefreshToken j env user with
            | Err e => (Err (ErrorfW "failed to generate refresh token" e), db)
            | Ok (_, tokenHash) =>
                let expiresAt := now env + refreshTokenTTL j in
                match UserRepo.StoreRefreshToken (pg env 1) (uuid_new env 0) (now env)
                        (ID user) tokenHash expiresAt db with
                | (Err e, db') => (Err (ErrorfW "failed to store refresh token" e), db')
                | (Ok _, db') => (Ok (clear_password user, accessToken), db')
                end
            end
        end
  end.

Definition SignOut (j : JWTAuth) (env : Env) (sessionHandle : TokenString) (db : DB) : result unit * DB :=
  match parseRefreshToken j (now env) sessionHandle with
  | Err e => (Err e, db)
  | Ok claims => UserRepo.RevokeRefreshToken (pg env 0) (now env) (r_TokenHash claims) db
  end.

Definition RefreshSession (j : JWTAuth) (env : Env) (refreshToken : TokenString) (db : DB)
    : result (User * TokenString) * DB :=
  match parseRefreshToken j (now env) refreshToken with
  | Err e => (Err e, db)
  | Ok claims =>
      match UserRepo.ValidateRefreshToken (pg env 0) (now env) (r_TokenHash claims) db with
      | Err e => (Err (ErrorfW "invalid refresh token" e), db)
      | Ok user =>
          match generateAccessToken j (now env) user with
          | Err e => (Err (ErrorfW "failed to generate access token" e), db)
          | Ok accessToken => (Ok (clear_password user, accessToken), db)
          end
      end
  end.

Definition ValidateSession (j : JWTAuth) (env : Env) (accessToken : TokenString) (db : DB) : result User :=
  match parseAccessToken j (now env) accessToken with
  | Err e => Err e
  | Ok claims =>
      match UserRepo.GetUserByID (pg env 0) (c_UserID claims) db with
      | Err _ => Err ErrUnauthorized
      | Ok user =>
          if negb (IsActive user) then Err (Errorf "account is deactivated")
          else Ok (clear_password user)
      end
  end.

Definition DeleteUser (j : JWTAuth) (env : Env) (userID : UUID) (db : DB) : result unit * DB :=
  match UserRepo.GetUserByID (pg env 0) userID db with
  | Err e => (Err e, db)
  | Ok user =>
      let user := mkUser (ID user) (Email user) (Username user) (HashedPassword user)
                         false (IsVerified user) (CreatedAt user) (now env) in
      UserRepo.UpdateUser (pg env 1) (now env) user db
  end.

(** [GetUserFromContext]: the value the context holds under "user". *)
Definition GetUserFromContext (j : JWTAuth) (ctx_user : option User) : result User :=
  match ctx_user with
  | Some user => Ok user
  | None => Err ErrUnauthorized
  end.

(** [UpdatePassword], of the first version of the service: the change of
    password by its owner. *)
Definition UpdatePassword (j : JWTAuth) (env : Env) (userID : UUID)
    (oldPassword newPassword : string) (db : DB) : result unit * DB :=
  match UserRepo.GetUserByID (pg env 0) userID db with
  | Err e => (Err e, db)
  | Ok user =>
      if negb (CompareHashAndPassword (HashedPassword user) oldPassword)
      then (Err ErrInvalidCredentials, db)
      else
        match GenerateFromPassword newPassword (salt env) with
        | None => (Err (ErrorfW "failed to hash password" BcryptError), db)
        | Some hashedPassword =>
            UserRepo.UpdatePassword (pg env 1) (now env) userID hashedPassword db
        end
  end.

Definition VerifyEmail (j : JWTAuth) (env : Env) (token : string) (db : DB) : result unit * DB :=
  match VerificationRepo.ValidateVerificationToken (pg env 0) (now env) token db with
  | Err e => (Err (ErrorfW "failed to validate verification token" e), db)
  | Ok user =>
      if IsVerified user then (Err ErrEmailAlreadyVerified, db)
      else
        let io := VerificationRepo.mkTxIO (pg env 1) (pg env 2) (pg env 3) (pg env 4) in
        match VerificationRepo.MarkEmailVerified io (now env) (ID user) db with
        | (Err e, db') => (Err (ErrorfW "failed to mark email as verified" e), db')
        | (Ok _, db') => (Ok tt, db')
        end
  end.

Definition SendVerificationEmail (j : JWTAuth) (env : Env) (email : string) (db : DB)
    : result unit * DB * list Mail :=
  match UserRepo.GetUserByEmail (pg env 0) email db with
  | Err e => (Err (ErrorfW "failed to get user" e), db, [])
  | Ok user =>
      if IsVerified user then (Err ErrEmailAlreadyVerified, db, [])
      else
        match entropy env with
        | None => (Err (ErrorfW "failed to generate token" EntropyError), db, [])
        | Some token =>
            let tokenStr := base64_URLEncoding token in
            let expiresAt := now env + 24 * Hour in
            match VerificationRepo.StoreVerificationToken (pg env 1) (now env)
                    (ID user) tokenStr expiresAt db with
            | (Err e, db') => (Err (ErrorfW "failed to store verification token" e), db', [])
            | (Ok _, db') =>
                if smtp_ok env then (Ok tt, db', [VerificationMail (Email user) tokenStr])
                else (Err (ErrorfW "failed to send verification email" SmtpError), db', [])
            end
        end
  end.

Definition RequestPasswordReset (j : JWTAuth) (env : Env) (email : string) (db : DB)
    : result unit * DB * list Mail :=
  match UserRepo.GetUserByEmail (pg env 0) email db with
  | Err _ => (Ok tt, db, [])
  | Ok user =>
      match entropy env with
      | None => (Err (ErrorfW "failed to generate token" EntropyError), db, [])
      | Some token =>
          let tokenStr := base64_URLEncoding token in
          let expiresAt := now env + 1 * Hour in
          match VerificationRepo.StorePasswordResetToken (pg env 1) (now env)
                  (ID user) tokenStr expiresAt db with
          | (Err e, db') => (Err (ErrorfW "failed to store password reset token" e), db', [])
          | (Ok _, db') =>
              if smtp_ok env then (Ok tt, db', [PasswordResetMail (Email user) tokenStr])
              else (Err (ErrorfW "failed to send password reset email" SmtpError), db', [])
          end
      end
  end.

Definition ResetPassword (j : JWTAuth) (env : Env) (token newPassword : string) (db : DB)
    : result unit * DB :=
  match VerificationRepo.ValidatePasswordResetToken (pg env 0) (now env) token db with
  | Err e => (Err (ErrorfW "failed to validate password reset token" e), db)
  | Ok user =>
      match GenerateFromPassword newPassword (salt env) with
      | None => (Err (ErrorfW "failed to hash password" BcryptError), db)
      | Some hashedPassword =>
          match UserRepo.UpdatePassword (pg env 1) (now env) (ID user) hashedPassword db with
          | (Err e, db') => (Err (ErrorfW "failed to update password" e), db')
          | (Ok _, db') =>
              match VerificationRepo.RevokePasswordResetToken (pg env 2) (now env) token db' with
              | (Err e, db'') => (Err (ErrorfW "failed to revoke password reset token" e), db'')
              | (Ok _, db'') => (Ok tt, db'')
              end
          end
      end
  end.

End Service.

End Auth.

(** ** HTTP: requests, responses and the state handlers run on *)

(** [err.Error()]. *)
Fixpoint error_message (e : error) : string :=
  match e with
  | AuthError _ message => message
  | Errorf message => message
  | ErrorfW message e' => message +:+ ": " +:+ error_message e'
  | JwtError TokenMalformed => "token is malformed"
  | JwtError TokenUnverifiable => "token is unverifiable"
  | JwtError TokenSignatureInvalid => "token signature is invalid"
  | JwtError TokenExpired => "token has invalid claims: token is expired"
  | JwtError TokenNotValidYet => "token has invalid claims: token is not valid yet"
  | PgErrNoRows => "no rows in result set"
  | PgError detail => detail
  | RedisError => "redis"
  | SmtpError => "smtp"
  | EntropyError => "entropy"
  | BcryptError => "bcrypt"
  end.

(** A Redis key: its integer value and, when it has one, the instant its
    time to live ends, in milliseconds since the epoch as Redis keeps it. *)
Record RedisEntry := mkRedisEntry {
  value : Z;
  expire_at : option Z
}.

Record World := mkWorld {
  db : DB;
  redis : gmap string RedisEntry;
  outbox : list Auth.Mail;
  logs : list string
}.

Definition set_db (d : DB) (w : World) : World :=
  mkWorld d (redis w) (outbox w) (logs w).
Definition set_redis (r : gmap string RedisEntry) (w : World) : World :=
  mkWorld (db w) r (outbox w) (logs w).
Definition send_mail (ms : list Auth.Mail) (w : World) : World :=
  mkWorld (db w) (redis w) (outbox w ++ ms)%list (logs w).
Definition log_Error (msg : string) (e : error) (w : World) : World :=
  mkWorld (db w) (redis w) (outbox w) (logs w ++ [msg +:+ ": " +:+ error_message e])%list.

(** The [Authorization] header. *)
Inductive AuthHeader :=
| NoAuthHeader
| Bearer (token : Jwt.TokenString)
| OtherScheme (raw : string).

Record Request := mkRequest {
  method : string;
  path : string;
  IP : string;
  authorization : AuthHeader;
  (** the JSON object of the body: its members with a string value, in
      the order of the text (a null member sets nothing and is left out);
      [None] when [BodyParser] rejects the body *)
  body : option (list (string * string))
}.

(** [encoding/json] matches a member to a struct field by name without
    regard to case: [foldName] puts the ASCII letters in upper case and
    the two other runes that fold to an ASCII letter, the long s (U+017F,
    bytes 197 191) and the Kelvin sign (U+212A, bytes 226 132 170), to S
    and K. *)
Definition fold_ascii (c : Ascii.ascii) : Ascii.ascii :=
  let n := Ascii.N_of_ascii c in
  if ((97 <=? n) && (n <=? 122))%N then Ascii.ascii_of_N (n - 32) else c.

Fixpoint foldName (s : string) : string :=
  match s with
  | EmptyString => EmptyString
  | String "197" (String "191" s') => String "S" (foldName s')
  | String "226" (String "132" (String "170" s')) => String "K" (foldName s')
  | String c s' => String (fold_ascii c) (foldName s')
  end%char.

(** A field of the decoded body: every member whose name matches sets it,
    so the last one stays; the zero value when none does. *)
Definition field (k : string) (obj : list (string * string)) : string :=
  fold_left (fun acc member =>
               if String.eqb (foldName (fst member)) (foldName k) then snd member else acc)
            obj "".

Inductive JValue :=
| JStr (s : string)
| JInt (z : Z)
| JSeconds (d : Duration)
| JToken (t : Jwt.TokenString)
| JUserResponse (id email username : string).

Record Response := mkResponse {
  status : Z;
  json : list (string * JValue)
}.

(** The request context [*fiber.Ctx]: the request, the locals and the
    response headers set so far. *)
Record Ctx := mkCtx {
  request : Request;
  locals_user : option User;
  headers : list (string * JValue)
}.

(** A handler answers, or hands over with [c.Next()]. *)
Inductive Outcome :=
| Respond (r : Response)
| Next (c : Ctx).

Definition Handler := Env -> Ctx -> World -> Outcome * World.

Definition ErrorResponse (code : Z) (msg : string) : Outcome :=
  Respond (mkResponse code [("error", JStr msg)]).

(** ** [pkg/middleware]: the rate limiter *)

Module Middleware.

Record RateLimiterConfig := mkRateLimiterConfig {
  MaxRequests : Z;
  Window : Duration
}.

(** The clock of the Redis server, in milliseconds; it is taken to be
    the clock of the request. *)
Definition redis_time (now : Time) : Z := now / Millisecond.

(** A key is gone once the clock is past the end of its time to live. *)
Definition redis_live (now : Time) (e : RedisEntry) : bool :=
  match expire_at e with
  | None => true
  | Some t => redis_time now <=? t
  end.

(** [formatSec] of go-redis: the whole seconds sent with [EXPIRE]; a
    fraction is cut and a positive duration under one second is raised to
    one second. *)
Definition formatSec (dur : Duration) : Z :=
  if (0 <? dur) && (dur <? Second) then 1 else Z.quot dur Second.

(** [GET key]: the value of a key that exists and has not expired;
    [None] is [redis.Nil]. *)
Definition redis_Get (now : Time) (key : string) (m : gmap string RedisEntry) : option Z :=
  match m !! key with
  | Some e => if redis_live now e then Some (value e) else None
  | None => None
  end.

(** [INCR key]: a missing or expired key counts from zero and has no
    time to live. *)
Definition redis_Incr (now : Time) (key : string) (m : gmap string RedisEntry)
    : Z * gmap string RedisEntry :=
  match m !! key with
  | Some e =>
      if redis_live now e
      then (value e + 1, <[key := mkRedisEntry (value e + 1) (expire_at e)]> m)
      else (1, <[key := mkRedisEntry 1 None]> m)
  | None => (1, <[key := mkRedisEntry 1 None]> m)
  end.

(** [Expire(ctx, key, ttl)]: [EXPIRE key seconds]; a non-positive number
    of seconds deletes the key. *)
Definition redis_Expire (now : Time) (key : string) (ttl : Duration)
    (m : gmap string RedisEntry) : gmap string RedisEntry :=
  match m !! key with
  | Some e =>
      if redis_live now e
      then if formatSec ttl <=? 0 then delete key m
           else <[key := mkRedisEntry (value e)
                           (Some (redis_time now + formatSec ttl * 1000))]> m
      else m
  | None => m
  end.

(** The time to live the limiter gives its key, in milliseconds. *)
Definition key_ttl (config : RateLimiterConfig) : Z := formatSec (Window config) * 1000.

Definition rate_limit_key (ip : string) : string :=
  "rate_limit:" +:+ (if String.eqb ip "" then "unknown" else ip).

Definition Middleware (config : RateLimiterConfig) : Handler := fun env c w =>
  let key := rate_limit_key (IP (request c)) in
  if negb (redis_ok env 0) then (ErrorResponse 500 "Internal server error", w)
  else
    let count := default 0 (redis_Get (now env) key (redis w)) in
    if MaxRequests config <=? count then
      (Respond (mkResponse 429 [("error", JStr "Too many requests");
                                ("retry_after", JSeconds (Window config))]), w)
    else
      (* the pipeline: INCR then EXPIRE, each applied when it completes *)
      let '(incr, m) :=
        if redis_ok env 1 then redis_Incr (now env) key (redis w) else (0, redis w) in
      let m := if redis_ok env 2 then redis_Expire (now env) key (Window config) m else m in
      if negb (redis_ok env 1 && redis_ok env 2)
      then (ErrorResponse 500 "Internal server error", set_redis m w)
      else
        (Next (mkCtx (request c) (locals_user c)
                 (headers c ++
                    [("X-RateLimit-Limit", JInt (MaxRequests config));
                     ("X-RateLimit-Remaining", JInt (MaxRequests config - incr));
                     ("X-RateLimit-Reset", JInt ((now env + Window config) / Second))])%list),
         set_redis m w).

(** The limiter seen from one client: the environment of a request at an
    instant at which Redis answers, the request, and the outcomes of a
    series of requests arriving at the given instants. *)
Definition healthy (now : Time) : Env :=
  mkEnv now (fun _ => true) (fun _ => true) true None "" (fun _ => "").

Definition request_from (ip : string) : Ctx :=
  mkCtx (mkRequest "POST" "/api/auth/signin" ip NoAuthHeader None) None [].

Definition status_of (o : Outcome) : option Z :=
  match o with
  | Respond r => Some (status r)
  | Next _ => None
  end.

Fixpoint arrivals (config : RateLimiterConfig) (ip : string) (times : list Time) (w : World)
    : list (option Z) * World :=
  match times with
  | [] => ([], w)
  | t :: rest =>
      let '(o, w') := Middleware config (healthy t) (request_from ip) w in
      let '(os, w'') := arrivals config ip rest w' in
      (status_of o :: os, w'')
  end.

End Middleware.

(** ** [pkg/auth]: the bearer-token middleware *)

Module Gate.

Import Auth.

Definition public_paths : list string :=
  ["/health"; "/metrics"; "/playground";
   "/api/auth/signup"; "/api/auth/signin";
   "/api/auth/verify-email"; "/api/auth/request-password-reset";
   "/api/auth/reset-password"].

Section WithService.
Context {bc : Bcrypt} {hm : Jwt.Hmac}.

Definition Middleware (j : JWTAuth) : Handler := fun env c w =>
  if existsb (String.eqb (path (request c))) public_paths then (Next c, w)
  else
    match authorization (request c) with
    | NoAuthHeader => (ErrorResponse 401 "Authorization header required", w)
    | OtherScheme _ => (ErrorResponse 401 "Invalid authorization format", w)
    | Bearer tokenString =>
        match ValidateSession j env tokenString (db w) with
        | Err _ => (ErrorResponse 401 "Invalid token", w)
        | Ok user => (Next (mkCtx (request c) (Some user) (headers c)), w)
        end
    end.
End WithService.

End Gate.

(** ** [internal/handlers]: the authentication handlers *)

Module AuthHandler.

Import Auth.

Definition Message (msg : string) : Outcome :=
  Respond (mkResponse 200 [("message", JStr msg)]).

Section WithService.
Context {bc : Bcrypt} {hm : Jwt.Hmac}.

Definition Signup (j : JWTAuth) : Handler := fun env c w =>
  match body (request c) with
  | None => (ErrorResponse 400 "Invalid request body", w)
  | Some req =>
      if String.eqb (field "email" req) "" || String.eqb (field "password" req) ""
         || String.eqb (field "username" req) ""
      then (ErrorResponse 400 "Email, password, and username are required", w)
      else
        match CreateUser j env (field "email" req) (field "password" req)
                (field "username" req) (db w) with
        | (Err err, d) =>
            (ErrorResponse 400 (error_message err),
             log_Error "Failed to create user" err (set_db d w))
        | (Ok user, d) =>
            (Respond (mkResponse 200
               [("user", JUserResponse (ID user) (Email user) (field "username" req));
                ("message", JStr "User created successfully")]),
             set_db d w)
        end
  end.

Definition Signin (j : JWTAuth) : Handler := fun env c w =>
  match body (request c) with
  | None => (ErrorResponse 400 "Invalid request body", w)
  | Some req =>
      if String.eqb (field "email" req) "" || String.eqb (field "password" req) ""
      then (ErrorResponse 400 "Email and password are required", w)
      else
        match SignIn j env (field "email" req) (field "password" req) (db w) with
        | (Err err, d) =>
            (ErrorResponse 401 (error_message err),
             log_Error "Failed to sign in" err (set_db d w))
        | (Ok (user, token), d) =>
            (Respond (mkResponse 200
               [("user", JUserResponse (ID user) (Email user) "");
                ("accessToken", JToken token);
                ("message", JStr "Signed in successfully")]),
             set_db d w)
        end
  end.

Definition Signout (j : JWTAuth) : Handler := fun env c w =>
  (Message "Signed out successfully", w).

Definition Me (j : JWTAuth) : Handler := fun env c w =>
  match locals_user c with
  | None => (ErrorResponse 401 "Not authenticated", w)
  | Some user =>
      (Respond (mkResponse 200
         [("user", JUserResponse (ID user) (Email user) (Username user))]), w)
  end.

Definition VerifyEmail (j : JWTAuth) : Handler := fun env c w =>
  match body (request c) with
  | None => (ErrorResponse 400 "Invalid request body", w)
  | Some req =>
      match Auth.VerifyEmail j env (field "token" req) (db w) with
      | (Err err, d) =>
          (ErrorResponse 400 (error_message err),
           log_Error "Failed to verify email" err (set_db d w))
      | (Ok _, d) => (Message "Email verified successfully", set_db d w)
      end
  end.

Definition RequestPasswordReset (j : JWTAuth) : Handler := fun env c w =>
  match body (request c) with
  | None => (ErrorResponse 400 "Invalid request body", w)
  | Some req =>
      match Auth.RequestPasswordReset j env (field "email" req) (db w) with
      | (Err err, d, ms) =>
          (Message "If your email is registered, you will receive a password reset link",
           log_Error "Failed to request password reset" err (send_mail ms (set_db d w)))
      | (Ok _, d, ms) =>
          (Message "If your email is registered, you will receive a password reset link",
           send_mail ms (set_db d w))
      end
  end.

Definition ResetPassword (j : JWTAuth) : Handler := fun env c w =>
  match body (request c) with
  | None => (ErrorResponse 400 "Invalid request body", w)
  | Some req =>
      match Auth.ResetPassword j env (field "token" req) (field "password" req) (db w) with
      | (Err err, d) =>
          (ErrorResponse 400 (error_message err),
           log_Error "Failed to reset password" err (set_db d w))
      | (Ok _, d) => (Message "Password reset successfully", set_db d w)
      end
  end.
End WithService.

End AuthHandler.

(** ** [internal/routes]: the route table and its dispatch *)

Module Routes.

(** How a registered path matches: a route matches its path (with or
    without the trailing slash, routing is not strict), a middleware
    mounted with [Use] and a static mount match a prefix, [:id] matches
    one segment. *)
Inductive Pattern :=
| Exact (p : string)
| Prefix (p : string)
| Param (p : string).

Record Route := mkRoute {
  r_method : option string;  (** [None]: every method ([Use]) *)
  r_pattern : Pattern;
  r_handlers : list Handler
}.

Fixpoint has_slash (s : string) : bool :=
  match s with
  | EmptyString => false
  | String c s' => Ascii.eqb c "/" || has_slash s'
  end.

Fixpoint drop_prefix (p s : string) : option string :=
  match p, s with
  | EmptyString, _ => Some s
  | String a p', String b s' => if Ascii.eqb a b then drop_prefix p' s' else None
  | String _ _, EmptyString => None
  end.

Definition trim_slash (s : string) : string :=
  match drop_prefix "/" (String.rev s) with
  | Some r => if String.eqb r "" then s else String.rev r
  | None => s
  end.

Definition pattern_matches (pat : Pattern) (p : string) : bool :=
  match pat with
  | Exact q => String.eqb (trim_slash p) (trim_slash q)
  | Prefix q => bool_decide (is_Some (drop_prefix q p))
  | Param q =>
      match drop_prefix q (trim_slash p) with
      | Some seg => negb (String.eqb seg "") && negb (has_slash seg)
      | None => false
      end
  end.

(** A [Get] route answers HEAD requests too. *)
Definition method_matches (m : option string) (req : string) : bool :=
  match m with
  | None => true
  | Some m => String.eqb m req || (String.eqb m "GET" && String.eqb req "HEAD")
  end.

Definition route_matches (r : Route) (req : Request) : bool :=
  method_matches (r_method r) (method req) && pattern_matches (r_pattern r) (path req).

(** The handlers of one route, each reached by the [c.Next()] of the
    previous one. *)
Fixpoint run_chain (hs : list Handler) (env : Env) (c : Ctx) (w : World) : Outcome * World :=
  match hs with
  | [] => (Next c, w)
  | h :: hs' =>
      match h env c w with
      | (Respond r, w') => (Respond r, w')
      | (Next c', w') => run_chain hs' env c' w'
      end
  end.

(** The stack in registration order; [c.Next()] of the last handler of
    a route goes on to the next matching route; 404 when none answers. *)
Fixpoint dispatch (stack : list Route) (env : Env) (c : Ctx) (w : World) : Response * World :=
  match stack with
  | [] => (mkResponse 404 [("error", JStr ("Cannot " +:+ method (request c) +:+ " " +:+ path (request c)))], w)
  | r :: rest =>
      if route_matches r (request c) then
        match run_chain (r_handlers r) env c w with
        | (Respond resp, w') => (resp, w')
        | (Next c', w') => dispatch rest env c' w'
        end
      else dispatch rest env c w
  end.

(** [recover.New()] hands over; [cors.New] answers the preflight and
    hands every other request over. *)
Definition recover_New : Handler := fun env c w => (Next c, w).

Definition cors_New : Handler := fun env c w =>
  if String.eqb (method (request c)) "OPTIONS"
  then (Respond (mkResponse 204 []), w)
  else (Next c, w).

Record PostHandler := mkPostHandler {
  CreatePost : Handler;
  GetPosts : Handler;
  GetPost : Handler;
  UpdatePost : Handler;
  DeletePost : Handler
}.

(** [routes.Config]: the handlers outside the authentication core are
    taken as given. *)
Record Config := mkConfig {
  AuthService : Auth.JWTAuth;
  RateLimiter : Middleware.RateLimiterConfig;
  HealthHandler : Handler;
  StaticDocs : Handler;
  RootRedirect : Handler;
  PostHandlers : option PostHandler;
  GQLHandler : option Handler;
  MetricsHandler : option Handler
}.

Section WithService.
Context {bc : Bcrypt} {hm : Jwt.Hmac}.

Definition SetupRoutes (cfg : Config) : list Route :=
  let j := AuthService cfg in
  let limiter := Middleware.Middleware (RateLimiter cfg) in
  [ mkRoute None (Prefix "/") [recover_New];
    mkRoute None (Prefix "/") [cors_New];
    mkRoute (Some "GET") (Exact "/health") [HealthHandler cfg];
    mkRoute (Some "GET") (Prefix "/docs") [StaticDocs cfg];
    mkRoute (Some "GET") (Exact "/") [RootRedirect cfg];
    mkRoute (Some "POST") (Exact "/api/auth/signup") [limiter; AuthHandler.Signup j];
    mkRoute (Some "POST") (Exact "/api/auth/signin") [limiter; AuthHandler.Signin j];
    mkRoute (Some "POST") (Exact "/api/auth/signout") [AuthHandler.Signout j];
    mkRoute (Some "POST") (Exact "/api/auth/verify-email") [limiter; AuthHandler.VerifyEmail j];
    mkRoute (Some "POST") (Exact "/api/auth/request-password-reset")
            [limiter; AuthHandler.RequestPasswordReset j];
    mkRoute (Some "POST") (Exact "/api/auth/reset-password")
            [limiter; AuthHandler.ResetPassword j];
    mkRoute None (Prefix "/api/auth") [Gate.Middleware j];
    mkRoute (Some "GET") (Exact "/api/auth/me") [AuthHandler.Me j] ]%list
  ++ match PostHandlers cfg with
     | Some ph =>
         [ mkRoute None (Prefix "/api/posts") [Gate.Middleware j];
           mkRoute (Some "POST") (Exact "/api/posts/") [CreatePost ph];
           mkRoute (Some "GET") (Exact "/api/posts/") [GetPosts ph];
           mkRoute (Some "GET") (Param "/api/posts/") [GetPost ph];
           mkRoute (Some "PUT") (Param "/api/posts/") [UpdatePost ph];
           mkRoute (Some "DELETE") (Param "/api/posts/") [DeletePost ph] ]
     | None => []
     end
  ++ match GQLHandler cfg with
     | Some h => [mkRoute (Some "POST") (Exact "/graphql") [h]]
     | None => []
     end
  ++ match MetricsHandler cfg with
     | Some h => [mkRoute (Some "GET") (Exact "/metrics") [h]]
     | None => []
     end.

(** The application: one request through the stack. *)
Definition serve (cfg : Config) (env : Env) (req : Request) (w : World) : Response * World :=
  dispatch (SetupRoutes cfg) env (mkCtx req None []) w.
End WithService.

End Routes.

(** ** [internal/graphql]: the resolver *)

Module Resolver.

Import Auth.

(** [strings.TrimSpace] is a parameter. *)
Class Strings := {
  TrimSpace : string -> string
}.

(** [strings.Contains]. *)
Fixpoint Contains (s substr : string) : bool :=
  String.prefix substr s
  || match s with
     | EmptyString => false
     | String _ s' => Contains s' substr
     end.

(** [GraphQLRequest]: the query and the variables. A variable read with
    the type assertion [.(string)] is the zero value when it is absent;
    the refresh token among them is held as the token string it is. *)
Record GraphQLRequest := mkGraphQLRequest {
  Query : string;
  Variables : gmap string string;
  RefreshTokenVariable : Jwt.TokenString
}.

Definition variable (k : string) (variables : gmap string string) : string :=
  default "" (variables !! k).

Inductive GraphQLData :=
| AuthResponse (id email username : string) (accessToken : Jwt.TokenString)
    (refreshToken : string)
| MessageResponse (message : string) (success : bool)
| MeResponse (id email : string)
| SchemaResponse (types : list string).

(** [GraphQLResponse]: the data under its member name, or one error. *)
Inductive GraphQLResponse :=
| Data (member : string) (data : GraphQLData)
| Errors (message : string).

Section WithService.
Context {bc : Bcrypt} {hm : Jwt.Hmac} {st : Strings}.

Definition handleSignUp (j : JWTAuth) (env : Env) (variables : gmap string string) (w : World)
    : GraphQLResponse * World :=
  let email := variable "email" variables in
  let password := variable "password" variables in
  let username := variable "username" variables in
  if String.eqb email "" || String.eqb password "" || String.eqb username ""
  then (Errors "Email, password, and username are required", w)
  else
    match CreateUser j env email password username (db w) with
    | (Err err, d) =>
        (Errors (error_message err), log_Error "Failed to create user" err (set_db d w))
    | (Ok user, d) =>
        (Data "signUp" (AuthResponse (ID user) (Email user) username
                          (Jwt.Garbage "token-placeholder") "refresh-placeholder"),
         set_db d w)
    end.

Definition handleSignIn (j : JWTAuth) (env : Env) (variables : gmap string string) (w : World)
    : GraphQLResponse * World :=
  let email := variable "email" variables in
  let password := variable "password" variables in
  if String.eqb email "" || String.eqb password ""
  then (Errors "Email and password are required", w)
  else
    match SignIn j env email password (db w) with
    | (Err err, d) =>
        (Errors (error_message err), log_Error "Failed to sign in" err (set_db d w))
    | (Ok (user, token), d) =>
        (Data "signIn" (AuthResponse (ID user) (Email user) "" token "refresh-placeholder"),
         set_db d w)
    end.

Definition handleSignOut (w : World) : GraphQLResponse * World :=
  (Data "signOut" (MessageResponse "Successfully signed out" true), w).

Definition handleRefreshToken (j : JWTAuth) (env : Env) (refreshToken : Jwt.TokenString)
    (w : World) : GraphQLResponse * World :=
  match refreshToken with
  | Jwt.Garbage "" => (Errors "Refresh token is required", w)
  | _ =>
      match RefreshSession j env refreshToken (db w) with
      | (Err err, d) =>
          (Errors (error_message err), log_Error "Failed to refresh token" err (set_db d w))
      | (Ok (user, newToken), d) =>
          (Data "refreshToken"
             (AuthResponse (ID user) (Email user) "" newToken "new-refresh-placeholder"),
           set_db d w)
      end
  end.

Definition handleMe (j : JWTAuth) (ctx_user : option User) (w : World)
    : GraphQLResponse * World :=
  match GetUserFromContext j ctx_user with
  | Err _ => (Errors "Not authenticated", w)
  | Ok user => (Data "me" (MeResponse (ID user) (Email user)), w)
  end.

Definition handleGraphQL (j : JWTAuth) (env : Env) (ctx_user : option User)
    (req : GraphQLRequest) (w : World) : GraphQLResponse * World :=
  let query := TrimSpace (Query req) in
  if Contains query "signUp" then handleSignUp j env (Variables req) w
  else if Contains query "signIn" then handleSignIn j env (Variables req) w
  else if Contains query "signOut" then handleSignOut w
  else if Contains query "refreshToken" then handleRefreshToken j env (RefreshTokenVariable req) w
  else if Contains query "me" then handleMe j ctx_user w
  else if Contains query "__schema" || Contains query "__type"
  then (Data "__schema" (SchemaResponse ["Query"; "Mutation"; "User"; "AuthResponse"]), w)
  else (Errors "Query not supported", w).

(** The handler of [NewServer]: the status, the response and the world. *)
Definition NewServer (j : JWTAuth) (env : Env) (ctx_user : option User) (method : string)
    (body : option GraphQLRequest) (w : World) : Z * GraphQLResponse * World :=
  if negb (String.eqb method "POST")
  then (405, Errors "Only POST method is allowed", w)
  else
    match body with
    | None => (400, Errors "Invalid JSON", w)
    | Some req =>
        let '(response, w') := handleGraphQL j env ctx_user req w in
        (200, response, w')
    end.
End WithService.

End Resolver.

(** ** Predicates on the tables *)

(** A valid sign-up triple: the email and the user name have the width
    and pass the CHECK constraint of their columns, the user name is text
    the server takes (the format of the email makes it so), and bcrypt
    hashes the password, with the given salt, into [hash], which fits its
    column and verifies the password. *)
Definition valid_triple {bc : Bcrypt} (salt email password username hash : string) : Prop :=
  varchar 255 email = true /\ check_email_format email = true
  /\ varchar 30 username = true /\ check_username_length username = true
  /\ pg_text username = true
  /\ GenerateFromPassword password salt = Some hash
  /\ varchar 255 hash = true
  /\ CompareHashAndPassword hash password = true.

(** The three conditions under which a sign-in is refused. *)
Definition account_not_found (db : DB) (email : string) : Prop :=
  forall u, In u (users db) -> Email u <> email.

Definition account_inactive (db : DB) (email : string) : Prop :=
  (exists u, In u (users db) /\ Email u = email) /\
  forall u, In u (users db) -> Email u = email -> IsActive u = false.

Definition password_mismatch {bc : Bcrypt} (db : DB) (email password : string) : Prop :=
  (exists u, In u (users db) /\ Email u = email) /\
  forall u, In u (users db) -> Email u = email ->
            CompareHashAndPassword (HashedPassword u) password = false.

(** A single-use token is consumed once it is on record and every row
    carrying it has its [used_at] set. *)
Definition consumed (rows : list SingleUseToken) (token : string) : Prop :=
  (exists r, In r rows /\ su_token r = token) /\
  forall r, In r rows -> su_token r = token -> su_used_at r <> None.

(** The UNIQUE constraint on the token column. *)
Definition tokens_unique (rows : list SingleUseToken) : Prop :=
  forall r1 r2, In r1 rows -> In r2 rows -> su_token r1 = su_token r2 -> r1 = r2.

(** The hash a refresh secret carries in its claims. *)
Definition secret_hash (secret : Jwt.TokenString) : string :=
  match secret with
  | Jwt.Compact _ claims _ => default "" (Jwt.p_token_hash claims)
  | Jwt.Garbage _ => ""
  end.

Definition refresh_known (d : DB) (tokenHash : string) : Prop :=
  exists r, In r (refresh_tokens d) /\ rt_token_hash r = tokenHash.

(** Every row carrying a hash that is on record satisfies [P]. *)
Definition refresh_rows_satisfy (d : DB) (tokenHash : string) (P : RefreshToken -> Prop) : Prop :=
  refresh_known d tokenHash /\
  forall r, In r (refresh_tokens d) -> rt_token_hash r = tokenHash -> P r.

(** A refresh record is revoked when its [revoked_at] is set; it is dead
    from the instant [t] on when it is revoked or expires by [t]. *)
Definition refresh_revoked (d : DB) (tokenHash : string) : Prop :=
  refresh_rows_satisfy d tokenHash (fun r => rt_revoked_at r <> None).

Definition refresh_dead (d : DB) (tokenHash : string) (t : Time) : Prop :=
  refresh_rows_satisfy d tokenHash
    (fun r => rt_revoked_at r <> None \/ rt_expires_at r <= t).

(** One call of a writing method of the two repositories; every
    statement the service issues against the tables is one of these. *)
Inductive repo_step (d : DB) : DB -> Prop :=
| step_CreateUser io user :
    repo_step d (snd (UserRepo.CreateUser io user d))
| step_UpdateUser io now user :
    repo_step d (snd (UserRepo.UpdateUser io now user d))
| step_UpdatePassword io now userID hashedPassword :
    repo_step d (snd (UserRepo.UpdatePassword io now userID hashedPassword d))
| step_StoreRefreshToken io id now userID tokenHash expiresAt :
    repo_step d (snd (UserRepo.StoreRefreshToken io id now userID tokenHash expiresAt d))
| step_RevokeRefreshToken io now tokenHash :
    repo_step d (snd (UserRepo.RevokeRefreshToken io now tokenHash d))
| step_UpdateLastLogin io now userID :
    repo_step d (snd (UserRepo.UpdateLastLogin io now userID d))
| step_StoreVerificationToken io now userID token expiresAt :
    repo_step d (snd (VerificationRepo.StoreVerificationToken io now userID token expiresAt d))
| step_MarkEmailVerified io now userID :
    repo_step d (snd (VerificationRepo.MarkEmailVerified io now userID d))
| step_StorePasswordResetToken io now userID token expiresAt :
    repo_step d (snd (VerificationRepo.StorePasswordResetToken io now userID token expiresAt d))
| step_RevokePasswordResetToken io now token :
    repo_step d (snd (VerificationRepo.RevokePasswordResetToken io now token d)).

(** Any number of such calls, in any order. *)
Inductive repo_steps (d : DB) : DB -> Prop :=
| steps_refl : repo_steps d d
| steps_then d1 d2 : repo_steps d d1 -> repo_step d1 d2 -> repo_steps d d2.

(** A refresh attempt is refused: it returns an error, of the class
    [InvalidToken] when the store answers, and leaves the tables alone. *)
Definition refresh_refused {hm : Jwt.Hmac} (j : Auth.JWTAuth) (env : Env)
    (secret : Jwt.TokenString) (d : DB) : Prop :=
  exists e, Auth.RefreshSession j env secret d = (Err e, d)
            /\ (pg env 0 = true -> error_class e = InvalidToken).

(** The HMAC method an [alg] header names, if it names one. *)
Definition hmac_method (alg : string) : option Jwt.HmacHash :=
  match Jwt.GetSigningMethod alg with
  | Some (Jwt.SigningMethodHMAC h) => Some h
  | _ => None
  end.

(** The signature of a compact token is the MAC of its first two segments
    under the service's secret, for the method its header names. *)
Definition signature_verifies {hm : Jwt.Hmac} (j : Auth.JWTAuth) (alg : string)
    (claims : Jwt.Payload) (signature : string) : bool :=
  match hmac_method alg with
  | Some h => String.eqb signature (Jwt.hmac_sum h (Auth.secretKey j) alg claims)
  | None => false
  end.

(** The grounds on which an access token is refused: it is not a compact
    token, its method is not an HMAC one, its signature does not verify,
    or its expiry has passed. *)
Definition access_token_refusable {hm : Jwt.Hmac} (j : Auth.JWTAuth) (now : Time)
    (tokenString : Jwt.TokenString) : Prop :=
  match tokenString with
  | Jwt.Garbage _ => True
  | Jwt.Compact alg claims signature =>
      hmac_method alg = None
      \/ signature_verifies j alg claims signature = false
      \/ (exists exp, Jwt.p_exp claims = Some exp /\ exp <= now)
  end.

(** The token strings a response carries. *)
Definition response_tokens (r : Response) : list Jwt.TokenString :=
  flat_map (fun kv => match snd kv with JToken t => [t] | _ => [] end) (json r).

Definition outcome_tokens (o : Outcome) : list Jwt.TokenString :=
  match o with
  | Respond r => response_tokens r
  | Next _ => []
  end.

(** The constraints the migrations put on the tables: the PRIMARY KEY and
    UNIQUE columns hold distinct values, and every token row REFERENCES
    an account. *)
Record db_wf (d : DB) : Prop := mk_db_wf {
  wf_user_ids : NoDup (map ID (users d));
  wf_user_emails : NoDup (map Email (users d));
  wf_user_names : NoDup (map Username (users d));
  wf_refresh_ids : NoDup (map rt_id (refresh_tokens d));
  wf_refresh_hashes : NoDup (map rt_token_hash (refresh_tokens d));
  wf_verification_tokens : NoDup (map su_token (email_verifications d));
  wf_reset_tokens : NoDup (map su_token (password_resets d));
  wf_refresh_fk : forall r, In r (refresh_tokens d) -> user_exists (rt_user_id r) (users d) = true;
  wf_verification_fk :
    forall r, In r (email_verifications d) -> user_exists (su_user_id r) (users d) = true;
  wf_reset_fk :
    forall r, In r (password_resets d) -> user_exists (su_user_id r) (users d) = true
}.

(** ** Instances for running the model *)

(** A stand-in for bcrypt: the hash is the password behind a version and
    cost tag. *)
Definition demo_bcrypt : Bcrypt := {|
  GenerateFromPassword := fun password salt => Some ("$2a$10$" +:+ password);
  CompareHashAndPassword := fun hash password => String.eqb hash ("$2a$10$" +:+ password)
|}.

(** A stand-in for HMAC: the key, the algorithm and the identifying claims
    joined. *)
Definition demo_hmac : Jwt.Hmac := {|
  Jwt.hmac_sum := fun h key alg claims =>
    key +:+ "." +:+ alg +:+ "." +:+ default "" (Jwt.p_user_id claims)
        +:+ "." +:+ default "" (Jwt.p_token_hash claims)
|}.

Definition demo_auth : Auth.JWTAuth :=
  Auth.mkJWTAuth "secret" (1 * Hour) (24 * 30 * Hour).

Definition demo_env (t : Time) : Env :=
  mkEnv t (fun _ => true) (fun _ => true) true (Some "0123456789abcdef0123456789abcdef")
        "salt" (fun k => if Nat.eqb k 0 then "00000000-0000-4000-8000-0000000000a0" else "00000000-0000-4000-8000-0000000000a1").

Definition alice : User :=
  mkUser "a11ce000-0000-4000-8000-000000000001" "alice@example.com" "alice" "$2a$10$secret1234" true false 0 0.

Definition bob_inactive : User :=
  mkUser "b0b00000-0000-4000-8000-000000000002" "bob@example.com" "bob" "$2a$10$hunter22" false true 0 0.

Definition demo_db : DB :=
  mkDB [alice; bob_inactive] []
       [mkSingleUseToken "a11ce000-0000-4000-8000-000000000001" "verify-me" (24 * Hour) None 0]
       [mkSingleUseToken "a11ce000-0000-4000-8000-000000000001" "reset-me" (1 * Hour) None 0].

Definition demo_world (d : DB) : World := mkWorld d ∅ [] [].

(** Alice signed in at instant 0: the tables afterwards and the refresh
    secret that sign-in generated. *)
Definition demo_session_db : DB :=
  snd (Auth.SignIn (bc := demo_bcrypt) (hm := demo_hmac) demo_auth (demo_env 0)
         "alice@example.com" "secret1234" demo_db).

Definition demo_refresh_secret : Jwt.TokenString :=
  match Auth.generateRefreshToken (hm := demo_hmac) demo_auth (demo_env 0) alice with
  | Ok (secret, _) => secret
  | Err _ => Jwt.Garbage ""
  end.

(** Carol's address is verified and a verification token of hers is still
    unused. *)
Definition carol_verified : User :=
  mkUser "ca201000-0000-4000-8000-000000000003" "carol@example.com" "carol" "$2a$10$opensesame" true true 0 0.

Definition demo_verified_db : DB :=
  mkDB [carol_verified] []
       [mkSingleUseToken "ca201000-0000-4000-8000-000000000003" "verify-carol" (24 * Hour) None 0] [].

(** The store answers every call of the request but the third. *)
Definition demo_env_third_call_fails (t : Time) : Env :=
  mkEnv t (fun k => negb (Nat.eqb k 2)) (fun _ => true) true
        (Some "0123456789abcdef0123456789abcdef") "salt" (fun _ => "00000000-0000-4000-8000-0000000000a0").

(** The configuration of [cmd/server]: five requests a minute; the
    handlers outside the authentication core answer 200. *)
Definition demo_config : Routes.Config :=
  let answer := fun (_ : Env) (_ : Ctx) (w : World) => (Respond (mkResponse 200 []), w) in
  Routes.mkConfig demo_auth (Middleware.mkRateLimiterConfig 5 Minute)
    answer answer answer
    (Some (Routes.mkPostHandler answer answer answer answer answer))
    (Some answer) (Some answer).

(** A stand-in for [strings.TrimSpace]: leading blanks are dropped. *)
Fixpoint drop_blanks (s : string) : string :=
  match s with
  | String " " s' => drop_blanks s'
  | _ => s
  end.

Definition demo_strings : Resolver.Strings := {|
  Resolver.TrimSpace := drop_blanks
|}.

(** An introspection query that selects the names of the types. *)
Definition demo_introspection : Resolver.GraphQLRequest :=
  Resolver.mkGraphQLRequest "  { __schema { types { name } } }" ∅ (Jwt.Garbage "").


(** An access token for Alice signed with HMAC-SHA384 under the service's
    secret, valid for an hour from instant 0. *)
Definition demo_hs384_token : Jwt.TokenString :=
  Jwt.SignedString (hm := demo_hmac) Jwt.SHA384 "secret"
    (Jwt.mkPayload (Some "a11ce000-0000-4000-8000-000000000001")
                   (Some "alice@example.com") (Some "alice") None
                   (Some (1 * Hour)) None (Some 0)
                   (Some "a11ce000-0000-4000-8000-000000000001")).

(** * Properties *)

Lemma NewNumericDate_bounds t : t - Second < NewNumericDate t <= t.
Proof.
  unfold NewNumericDate, Second.
  pose proof (Z.div_mod t 1000000000). pose proof (Z.mod_pos_bound t 1000000000). lia.
Qed.

Lemma NewNumericDate_idem t : NewNumericDate (NewNumericDate t) = NewNumericDate t.
Proof. unfold NewNumericDate. rewrite Z.div_mul by discriminate. reflexivity. Qed.

(** The decoding of a body, the CHECK constraints and the seconds of a
    time to live on known values. *)
Example field_known_values :
  field "email" [("email", "first@example.com"); ("email", "last@example.com")]
  = "last@example.com"
  /\ field "email" [("Email", "a@example.com")] = "a@example.com"
  /\ field "email" [("email", "a@example.com"); ("EMAIL", "")] = ""
  /\ field "password" [("email", "a@example.com")] = "".
Proof. repeat split; reflexivity. Qed.

Example check_constraints_known_values :
  check_email_format "x" = false
  /\ check_email_format "dave@example" = false
  /\ check_email_format "dave@example.c" = false
  /\ check_email_format "Dave.O+tag@mail.example.org" = true
  /\ check_username_length "ab" = false
  /\ check_username_length "abc" = true
  /\ pg_text "carol" = true
  /\ pg_text (String "099" (String "000" "x")) = false
  /\ pg_text (String "099" (String "255" "x")) = false
  /\ uuid_standard_form "a11ce000-0000-4000-8000-000000000001" = true
  /\ uuid_standard_form "u-alice" = false.
Proof. repeat split; vm_compute; reflexivity. Qed.

Example formatSec_known_values :
  Middleware.formatSec (3 * Second / 2) = 1
  /\ Middleware.formatSec (Second / 2) = 1
  /\ Middleware.formatSec Minute = 60
  /\ Middleware.formatSec 0 = 0
  /\ fst (Middleware.arrivals (Middleware.mkRateLimiterConfig 1 (3 * Second / 2))
            "10.0.0.1" [0; 12 * Second / 10] (mkWorld empty_db ∅ [] []))
     = [None; None]
  /\ fst (Middleware.arrivals (Middleware.mkRateLimiterConfig 1 (Second / 2))
            "10.0.0.1" [0; 7 * Second / 10] (mkWorld empty_db ∅ [] []))
     = [None; Some 429].
Proof. repeat split; vm_compute; reflexivity. Qed.

(** The two encoders on known values. *)
Example encoders_known_values :
  hex_EncodeToString "Az" = "417a"
  /\ base64_URLEncoding "foobar" = "Zm9vYmFy"
  /\ base64_URLEncoding "fo" = "Zm8="
  /\ base64_URLEncoding "~~~" = "fn5-".
Proof. repeat split; reflexivity. Qed.

(** ** Sign-in refusals *)

Section SignIn.
Context {bc : Bcrypt} {hm : Jwt.Hmac}.
Variable j : Auth.JWTAuth.

(** The lookup by email returns active accounts only: the service's own
    check of the active flag is never the one that refuses. *)
Lemma GetUserByEmail_active io email db u :
  UserRepo.GetUserByEmail io email db = Ok u ->
  In u (users db) /\ Email u = email /\ IsActive u = true.
Proof.
  unfold UserRepo.GetUserByEmail, QueryRow.
  destruct io; [|discriminate].
  destruct (List.filter _ (users db)) as [|v rest] eqn:Hf; [discriminate|].
  intros [= ->].
  assert (Hin : In u (List.filter (fun u => String.eqb (Email u) email && IsActive u) (users db)))
    by (rewrite Hf; left; reflexivity).
  apply List.filter_In in Hin as [Hin Hc].
  apply andb_prop in Hc as [He Ha].
  apply String.eqb_eq in He. auto.
Qed.

Lemma SignIn_refused env db email password :
  (forall u, In u (users db) -> Email u = email ->
             IsActive u = false \/ CompareHashAndPassword (HashedPassword u) password = false) ->
  Auth.SignIn j env email password db = (Err ErrInvalidCredentials, db).
Proof.
  intros Hall. unfold Auth.SignIn.
  destruct (UserRepo.GetUserByEmail (pg env 0) email db) as [u|e] eqn:Hget; [|reflexivity].
  apply GetUserByEmail_active in Hget as (Hin & He & Ha).
  destruct (Hall u Hin He) as [Hi|Hp]; [congruence|].
  rewrite Ha, Hp. reflexivity.
Qed.

(** C1. A sign-in is refused with [ErrInvalidCredentials], the tables
    unchanged, when no account carries the email, when the account is
    inactive, and when the password does not match the stored hash: the
    same error value in the three cases. *)
Theorem SignIn_invalid_credentials env db email password :
  account_not_found db email \/ account_inactive db email
    \/ password_mismatch db email password ->
  Auth.SignIn j env email password db = (Err ErrInvalidCredentials, db)
  /\ error_class ErrInvalidCredentials = InvalidCredentials.
Proof.
  intros Hcase. split; [|reflexivity].
  apply SignIn_refused. intros u Hin He.
  destruct Hcase as [Hnf | [[_ Hi] | [_ Hm]]].
  - exfalso. exact (Hnf u Hin He).
  - left. auto.
  - right. auto.
Qed.
End SignIn.

Lemma SignIn_invalid_credentials_witness :
  (account_not_found demo_db "bob@example.com"
   \/ account_inactive demo_db "bob@example.com"
   \/ password_mismatch (bc := demo_bcrypt) demo_db "bob@example.com" "hunter22")
  /\ Auth.SignIn (bc := demo_bcrypt) (hm := demo_hmac) demo_auth (demo_env 5)
       "bob@example.com" "hunter22" demo_db = (Err ErrInvalidCredentials, demo_db).
Proof.
  assert (Hc : account_inactive demo_db "bob@example.com").
  { split.
    - exists bob_inactive. simpl. auto.
    - intros u [<-|[<-|[]]]; simpl; intros; [discriminate|reflexivity]. }
  split; [right; left; exact Hc|].
  apply (SignIn_invalid_credentials (bc := demo_bcrypt) (hm := demo_hmac) demo_auth
           (demo_env 5) demo_db "bob@example.com" "hunter22").
  right; left; exact Hc.
Defined.

(** ** The sign-out endpoint *)

Section Signout.
Context {bc : Bcrypt} {hm : Jwt.Hmac}.

(** C10. POST /api/auth/signout reaches the [Signout] handler directly
    (no limiter, no bearer check stands before it in the stack), the
    handler answers 200 with its message and touches nothing: the world
    after the request is the world before it, so a refresh secret is
    validated and refreshed after the request exactly as before it. *)
Theorem signout_route_leaves_state cfg env ip auth body w :
  let req := mkRequest "POST" "/api/auth/signout" ip auth body in
  Routes.serve cfg env req w
    = (mkResponse 200 [("message", JStr "Signed out successfully")], w)
  /\ (forall env' secret,
        Auth.RefreshSession (Routes.AuthService cfg) env' secret (db (snd (Routes.serve cfg env req w)))
        = Auth.RefreshSession (Routes.AuthService cfg) env' secret (db w)).
Proof.
  intros req.
  assert (Hs : Routes.serve cfg env req w
               = (mkResponse 200 [("message", JStr "Signed out successfully")], w))
    by reflexivity.
  split; [exact Hs|].
  intros env' secret. rewrite Hs. reflexivity.
Qed.
End Signout.

(** ** The password-reset request *)

Section RequestPasswordReset.
Context {bc : Bcrypt} {hm : Jwt.Hmac}.
Variable j : Auth.JWTAuth.

Lemma RequestPasswordReset_handler_answer env c w req :
  body (request c) = Some req ->
  fst (AuthHandler.RequestPasswordReset j env c w)
  = AuthHandler.Message "If your email is registered, you will receive a password reset link".
Proof.
  intros Hb. unfold AuthHandler.RequestPasswordReset. rewrite Hb.
  destruct (Auth.RequestPasswordReset j env (field "email" req) (db w)) as [[[?|?] ?] ?];
    reflexivity.
Qed.

(** The service itself answers [nil] for an email no active account
    carries, and then neither writes nor sends anything. *)
Lemma RequestPasswordReset_unknown_email env email d :
  (forall u, In u (users d) -> Email u = email -> IsActive u = false) ->
  Auth.RequestPasswordReset j env email d = (Ok tt, d, []).
Proof.
  intros Hnone. unfold Auth.RequestPasswordReset.
  destruct (UserRepo.GetUserByEmail (pg env 0) email d) as [u|e] eqn:Hget; [|reflexivity].
  apply GetUserByEmail_active in Hget as (Hin & He & Ha).
  rewrite (Hnone u Hin He) in Ha. discriminate.
Qed.

(** C4. Whatever the email of a parsed request, whatever the tables, the
    mail transport and the entropy source do, the handler answers 200 with
    one fixed body; two runs, one for a registered and one for an
    unregistered email, give the same response. *)
Theorem RequestPasswordReset_same_response env1 env2 c1 c2 w1 w2 req1 req2 :
  body (request c1) = Some req1 ->
  body (request c2) = Some req2 ->
  fst (AuthHandler.RequestPasswordReset j env1 c1 w1)
    = Respond (mkResponse 200
        [("message", JStr "If your email is registered, you will receive a password reset link")])
  /\ fst (AuthHandler.RequestPasswordReset j env1 c1 w1)
     = fst (AuthHandler.RequestPasswordReset j env2 c2 w2).
Proof.
  intros H1 H2.
  rewrite (RequestPasswordReset_handler_answer env1 c1 w1 req1 H1).
  rewrite (RequestPasswordReset_handler_answer env2 c2 w2 req2 H2).
  split; reflexivity.
Qed.

(** The same at the route: behind the rate limiter, the response to
    POST /api/auth/request-password-reset depends on the client address
    and the limiter's counters, not on the email nor on the tables. *)
Lemma limiter_outcome_independent config env c1 c2 w1 w2 :
  IP (request c1) = IP (request c2) -> redis w1 = redis w2 ->
  match fst (Middleware.Middleware config env c1 w1),
        fst (Middleware.Middleware config env c2 w2) with
  | Respond r1, Respond r2 => r1 = r2
  | Next c1', Next c2' => request c1' = request c1 /\ request c2' = request c2
  | _, _ => False
  end.
Proof.
  intros Hip Hr. unfold Middleware.Middleware. rewrite Hip, Hr.
  destruct (negb (redis_ok env 0)); [reflexivity|].
  destruct (Middleware.MaxRequests config <=? _); [reflexivity|].
  destruct (redis_ok env 1); destruct (redis_ok env 2);
    try destruct (Middleware.redis_Incr _ _ _); cbn; auto.
Qed.

Lemma dispatch_skip r rest env c w :
  Routes.route_matches r (request c) = false ->
  Routes.dispatch (r :: rest) env c w = Routes.dispatch rest env c w.
Proof. intros Hm. cbn [Routes.dispatch]. rewrite Hm. reflexivity. Qed.

Lemma dispatch_hit r rest env c w :
  Routes.route_matches r (request c) = true ->
  Routes.dispatch (r :: rest) env c w
  = match Routes.run_chain (Routes.r_handlers r) env c w with
    | (Respond resp, w') => (resp, w')
    | (Next c', w') => Routes.dispatch rest env c' w'
    end.
Proof. intros Hm. cbn [Routes.dispatch]. rewrite Hm. reflexivity. Qed.

Lemma serve_request_password_reset cfg env req w :
  method req = "POST" -> path req = "/api/auth/request-password-reset" ->
  exists rest,
    Routes.serve cfg env req w
    = match Middleware.Middleware (Routes.RateLimiter cfg) env (mkCtx req None []) w with
      | (Respond r, w1) => (r, w1)
      | (Next c1, w1) =>
          match AuthHandler.RequestPasswordReset (Routes.AuthService cfg) env c1 w1 with
          | (Respond r, w2) => (r, w2)
          | (Next c2, w2) => Routes.dispatch rest env c2 w2
          end
      end.
Proof.
  destruct req as [m p ip auth b]. cbn [method path]. intros -> ->.
  eexists. unfold Routes.serve, Routes.SetupRoutes. cbn [app].
  rewrite dispatch_hit by reflexivity.
  cbn [Routes.run_chain Routes.r_handlers Routes.recover_New].
  rewrite dispatch_hit by reflexivity.
  cbn [Routes.run_chain Routes.r_handlers]. unfold Routes.cors_New at 1.
  cbn [request method]. change (String.eqb "POST" "OPTIONS") with false. cbn iota.
  do 7 (rewrite dispatch_skip by reflexivity).
  rewrite dispatch_hit by reflexivity.
  cbn [Routes.run_chain Routes.r_handlers].
  destruct (Middleware.Middleware _ _ _ _) as [[r|c1] w1]; [reflexivity|].
  destruct (AuthHandler.RequestPasswordReset _ _ _ _) as [[r|c2] w2]; reflexivity.
Qed.

Lemma request_password_reset_route_same_response cfg env ip auth1 auth2 obj1 obj2 w1 w2 :
  redis w1 = redis w2 ->
  fst (Routes.serve cfg env
         (mkRequest "POST" "/api/auth/request-password-reset" ip auth1 (Some obj1)) w1)
  = fst (Routes.serve cfg env
           (mkRequest "POST" "/api/auth/request-password-reset" ip auth2 (Some obj2)) w2).
Proof.
  intros Hr.
  set (req1 := mkRequest "POST" "/api/auth/request-password-reset" ip auth1 (Some obj1)).
  set (req2 := mkRequest "POST" "/api/auth/request-password-reset" ip auth2 (Some obj2)).
  destruct (serve_request_password_reset cfg env req1 w1 eq_refl eq_refl) as [rest1 ->].
  destruct (serve_request_password_reset cfg env req2 w2 eq_refl eq_refl) as [rest2 ->].
  set (c1 := mkCtx req1 None []). set (c2 := mkCtx req2 None []).
  pose proof (limiter_outcome_independent (Routes.RateLimiter cfg) env c1 c2 w1 w2
                eq_refl Hr) as Hind.
  destruct (Middleware.Middleware (Routes.RateLimiter cfg) env c1 w1) as [[r1|c1'] w1'];
    destruct (Middleware.Middleware (Routes.RateLimiter cfg) env c2 w2) as [[r2|c2'] w2'];
    cbn [fst] in Hind; try contradiction; [exact Hind|].
  destruct Hind as [H1 H2].
  pose proof (RequestPasswordReset_handler_answer env c1' w1' obj1) as A1.
  pose proof (RequestPasswordReset_handler_answer env c2' w2' obj2) as A2.
  rewrite H1 in A1. rewrite H2 in A2. specialize (A1 eq_refl). specialize (A2 eq_refl).
  destruct (AuthHandler.RequestPasswordReset _ env c1' w1') as [o1 ?].
  destruct (AuthHandler.RequestPasswordReset _ env c2' w2') as [o2 ?].
  cbn [fst] in A1, A2. subst o1 o2. reflexivity.
Qed.
End RequestPasswordReset.

Lemma RequestPasswordReset_same_response_witness :
  let registered := mkCtx (mkRequest "POST" "/api/auth/request-password-reset" "10.0.0.1"
                             NoAuthHeader (Some [("email", "alice@example.com")])) None [] in
  let unregistered := mkCtx (mkRequest "POST" "/api/auth/request-password-reset" "10.0.0.2"
                               NoAuthHeader (Some [("email", "nobody@example.com")])) None [] in
  body (request registered) = Some [("email", "alice@example.com")]
  /\ body (request unregistered) = Some [("email", "nobody@example.com")]
  /\ fst (AuthHandler.RequestPasswordReset demo_auth (demo_env 5)
            registered (demo_world demo_db))
     = fst (AuthHandler.RequestPasswordReset demo_auth (demo_env 7)
              unregistered (demo_world demo_db)).
Proof.
  intros registered unregistered.
  split; [reflexivity|]. split; [reflexivity|].
  apply (RequestPasswordReset_same_response demo_auth
           (demo_env 5) (demo_env 7) registered unregistered
           (demo_world demo_db) (demo_world demo_db)
           [("email", "alice@example.com")] [("email", "nobody@example.com")]);
    reflexivity.
Defined.

(** ** Email verification: the transaction *)

Section MarkEmailVerified.
Import VerificationRepo.

Lemma sql_update_In {A} (cond : A -> bool) (set : A -> A) rows r :
  In r (sql_update cond set rows) ->
  exists r0, In r0 rows /\ r = (if cond r0 then set r0 else r0).
Proof.
  unfold sql_update. intros Hin. apply List.in_map_iff in Hin as (r0 & Heq & Hin).
  exists r0. auto.
Qed.

Lemma user_exists_sql_update cond set id us :
  (forall v, ID (set v) = ID v) ->
  user_exists id (sql_update cond set us) = user_exists id us.
Proof.
  intros Hid. unfold user_exists, sql_update.
  induction us as [|v us IH]; [reflexivity|].
  simpl. rewrite IH. destruct (cond v); [rewrite Hid|]; reflexivity.
Qed.

(** What [MarkEmailVerified] returns, by the outcome of its four driver
    calls: it succeeds exactly when all four complete, and then the
    tables are those of the two updates applied in order; otherwise the
    tables are the ones it started from. *)
Lemma MarkEmailVerified_cases io now userID d :
  (io_begin io && io_user io && io_token io && io_commit io = true
   /\ MarkEmailVerified io now userID d
      = (Ok tt, updateTokenQuery now userID (updateUserQuery now userID d)))
  \/ (io_begin io && io_user io && io_token io && io_commit io = false
      /\ exists e, MarkEmailVerified io now userID d = (Err e, d)).
Proof.
  destruct io as [[] [] [] []]; cbn; eauto.
Qed.

(** C7. [MarkEmailVerified] is all or nothing. When it returns [nil] the
    account's verified flag is set and every verification token of the
    account is marked used; when it returns an error the tables are
    exactly those before the call. *)
Theorem MarkEmailVerified_atomic io now userID d :
  match MarkEmailVerified io now userID d with
  | (Ok _, d') =>
      user_exists userID (users d') = user_exists userID (users d)
      /\ (forall u, In u (users d') -> ID u = userID -> IsVerified u = true)
      /\ (forall r, In r (email_verifications d') -> su_user_id r = userID ->
                    su_used_at r <> None)
  | (Err _, d') => d' = d
  end.
Proof.
  destruct (MarkEmailVerified_cases io now userID d) as [[_ ->] | [_ [e ->]]];
    [|reflexivity].
  split; [|split].
  - apply user_exists_sql_update. reflexivity.
  - cbn. intros u Hin Hid.
    apply sql_update_In in Hin as (u0 & _ & ->).
    destruct (String.eqb (ID u0) userID) eqn:E; [reflexivity|].
    apply String.eqb_neq in E. contradiction.
  - cbn. intros r Hin Hid.
    apply sql_update_In in Hin as (r0 & _ & ->).
    destruct (String.eqb (su_user_id r0) userID) eqn:E; cbn.
    + destruct (su_used_at r0) eqn:Eu; cbn; [rewrite Eu|]; discriminate.
    + apply String.eqb_neq in E. intros _. apply E.
      revert Hid. destruct (su_used_at r0); cbn; auto.
Qed.
End MarkEmailVerified.

(** ** The rate limiter *)

Section RateLimiter.
Import Middleware.
Variable config : RateLimiterConfig.
Variable ip : string.

Lemma Middleware_reject t w :
  MaxRequests config <= default 0 (redis_Get t (rate_limit_key ip) (redis w)) ->
  Middleware config (healthy t) (request_from ip) w
  = (Respond (mkResponse 429 [("error", JStr "Too many requests");
                             ("retry_after", JSeconds (Window config))]), w).
Proof.
  intros Hle. unfold Middleware. cbn -[rate_limit_key redis_Get].
  apply Z.leb_le in Hle. rewrite Hle. reflexivity.
Qed.

Lemma formatSec_pos dur : 0 < dur -> 1 <= formatSec dur.
Proof.
  intros Hd. unfold formatSec.
  destruct ((0 <? dur) && (dur <? Second)) eqn:E; [lia|].
  apply andb_false_iff in E as [E|E]; [apply Z.ltb_ge in E; lia|].
  apply Z.ltb_ge in E. rewrite Z.quot_div_nonneg by (unfold Second in *; lia).
  apply Z.div_le_lower_bound; unfold Second in *; lia.
Qed.

Lemma Incr_Expire_lookup t key (m : gmap string RedisEntry) :
  0 < Window config ->
  fst (redis_Incr t key m) = default 0 (redis_Get t key m) + 1
  /\ redis_Expire t key (Window config) (snd (redis_Incr t key m)) !! key
     = Some (mkRedisEntry (default 0 (redis_Get t key m) + 1)
                          (Some (redis_time t + key_ttl config))).
Proof.
  intros HW. unfold key_ttl.
  assert (Httl : (formatSec (Window config) <=? 0) = false)
    by (apply Z.leb_gt; pose proof (formatSec_pos _ HW); lia).
  unfold redis_Get, redis_Incr.
  destruct (m !! key) as [e|] eqn:E; [destruct (redis_live t e) eqn:L|];
    cbn [fst snd default]; (split; [reflexivity|]);
    unfold redis_Expire; rewrite lookup_insert_eq;
    unfold redis_live in *; cbn [expire_at value]; rewrite ?L, Httl;
    rewrite lookup_insert_eq; reflexivity.
Qed.

Lemma Middleware_accept t w :
  default 0 (redis_Get t (rate_limit_key ip) (redis w)) < MaxRequests config ->
  0 < Window config ->
  exists c' w',
    Middleware config (healthy t) (request_from ip) w = (Next c', w')
    /\ redis w' !! rate_limit_key ip
       = Some (mkRedisEntry (default 0 (redis_Get t (rate_limit_key ip) (redis w)) + 1)
                            (Some (redis_time t + key_ttl config)))
    /\ db w' = db w.
Proof.
  intros Hlt HW. unfold Middleware.
  cbn -[rate_limit_key redis_Get redis_Incr redis_Expire].
  apply Z.leb_gt in Hlt. rewrite Hlt.
  destruct (Incr_Expire_lookup t (rate_limit_key ip) (redis w) HW) as [_ Hl].
  destruct (redis_Incr t (rate_limit_key ip) (redis w)) as [incr m1].
  eexists _, _. split; [reflexivity|].
  unfold set_redis. cbn [redis db snd] in *. auto.
Qed.

Lemma redis_Get_live t (m : gmap string RedisEntry) key v e :
  m !! key = Some (mkRedisEntry v (Some e)) -> redis_time t <= e ->
  redis_Get t key m = Some v.
Proof.
  intros Hm Hle. unfold redis_Get, redis_live. rewrite Hm. cbn.
  apply Z.leb_le in Hle. rewrite Hle. reflexivity.
Qed.

(** Once the count has reached the threshold, every request that arrives
    while the key lives is refused and leaves the counter as it is. *)
Lemma arrivals_saturated times : forall w v e,
  redis w !! rate_limit_key ip = Some (mkRedisEntry v (Some e)) ->
  MaxRequests config <= v ->
  (forall t, In t times -> redis_time t <= e) ->
  arrivals config ip times w = (replicate (length times) (Some 429), w).
Proof.
  induction times as [|t rest IH]; intros w v e Hm Hv Hin; [reflexivity|].
  cbn [arrivals length replicate].
  rewrite Middleware_reject.
  2:{ rewrite (redis_Get_live t _ _ v e Hm); [exact Hv|]. apply Hin. left. reflexivity. }
  rewrite (IH w v e Hm Hv); [reflexivity|].
  intros x Hx. apply Hin. right. exact Hx.
Qed.

(** Below the threshold, requests arriving while the key lives are let
    through, each adding one to the count and re-arming the time to live. *)
Lemma arrivals_accepting times : forall w v e T,
  redis w !! rate_limit_key ip = Some (mkRedisEntry v (Some e)) ->
  0 < Window config ->
  0 <= v ->
  v + Z.of_nat (length times) <= MaxRequests config ->
  T <= e ->
  (forall t, In t times -> T - key_ttl config <= redis_time t <= T) ->
  exists w' e',
    arrivals config ip times w = (replicate (length times) None, w')
    /\ redis w' !! rate_limit_key ip
       = Some (mkRedisEntry (v + Z.of_nat (length times)) (Some e'))
    /\ T <= e'.
Proof.
  induction times as [|t rest IH]; intros w v e T Hm HW Hv Hlen HT Hin.
  - exists w, e. cbn. rewrite Z.add_0_r. auto.
  - cbn [length] in Hlen. rewrite Nat2Z.inj_succ in Hlen.
    assert (Ht : T - key_ttl config <= redis_time t <= T) by (apply Hin; left; reflexivity).
    assert (Hget : redis_Get t (rate_limit_key ip) (redis w) = Some v)
      by (apply (redis_Get_live t _ _ v e Hm); lia).
    destruct (Middleware_accept t w) as (c' & w1 & Hmw & Hm1 & _); [rewrite Hget; cbn; lia|exact HW|].
    rewrite Hget in Hm1. cbn [default] in Hm1.
    destruct (IH w1 (v + 1) (redis_time t + key_ttl config) T Hm1 HW)
      as (w' & e' & Harr & Hm' & He');
      [lia|lia|lia|intros x Hx; apply Hin; right; exact Hx|].
    exists w', e'. cbn [arrivals length replicate]. rewrite Hmw, Harr. cbn.
    split; [reflexivity|]. split; [|exact He'].
    rewrite Hm'. do 2 f_equal. lia.
Qed.

Lemma arrivals_app xs ys w :
  arrivals config ip (xs ++ ys) w
  = let '(os, w') := arrivals config ip xs w in
    let '(os', w'') := arrivals config ip ys w' in
    ((os ++ os')%list, w'').
Proof.
  revert w. induction xs as [|x xs IH]; intros w; cbn [arrivals app].
  - destruct (arrivals config ip ys w). reflexivity.
  - destruct (Middleware config (healthy x) (request_from ip) w) as [o w1].
    rewrite IH. destruct (arrivals config ip xs w1) as [os w2].
    destruct (arrivals config ip ys w2). reflexivity.
Qed.
Lemma Middleware_accept_inv t w c1 w1 :
  0 < Window config ->
  Middleware config (healthy t) (request_from ip) w = (Next c1, w1) ->
  exists v, redis w1 !! rate_limit_key ip
            = Some (mkRedisEntry v (Some (redis_time t + key_ttl config))).
Proof.
  intros HW Hmw.
  destruct (Z_lt_le_dec (default 0 (redis_Get t (rate_limit_key ip) (redis w)))
                        (MaxRequests config)) as [Hlt|Hle].
  - destruct (Middleware_accept t w Hlt HW) as (c' & w' & Hmw' & Hl & _).
    rewrite Hmw in Hmw'. injection Hmw' as _ <-. eauto.
  - rewrite (Middleware_reject t w Hle) in Hmw. discriminate.
Qed.

(** C8 (amended). With a positive window, the key of a client lives for
    the window cut to whole seconds (one second for a shorter window),
    counted on the millisecond clock of Redis from the last request let
    through. The first [n] requests of a client in a fresh window are let
    through and the next one arriving while the key lives is refused with
    429, [n] being the threshold; and a request arriving after the key
    of the last request let through has gone is let through again and
    starts a new count at one, with a full time to live. *)
Theorem rate_limiter_threshold_and_reset :
  0 < Window config ->
  (forall (n : nat) t0 more w,
      MaxRequests config = Z.of_nat n ->
      length more = n ->
      redis_Get t0 (rate_limit_key ip) (redis w) = None ->
      (forall t, In t more ->
                 redis_time t0 <= redis_time t <= redis_time t0 + key_ttl config) ->
      fst (arrivals config ip (t0 :: more) w) = (replicate n None ++ [Some 429])%list)
  /\ (forall ta t w c1 w1,
        0 < MaxRequests config ->
        Middleware config (healthy ta) (request_from ip) w = (Next c1, w1) ->
        redis_time ta + key_ttl config < redis_time t ->
        exists c2 w2,
          Middleware config (healthy t) (request_from ip) w1 = (Next c2, w2)
          /\ redis w2 !! rate_limit_key ip
             = Some (mkRedisEntry 1 (Some (redis_time t + key_ttl config)))).
Proof.
  intros HW.
  assert (Httl : 1000 <= key_ttl config)
    by (unfold key_ttl; pose proof (formatSec_pos _ HW); lia).
  split.
  - intros n t0 more w HN Hlen Hdead Hin.
    destruct n as [|n].
    + destruct more; [|discriminate]. cbn [arrivals].
      rewrite Middleware_reject; [reflexivity|]. rewrite Hdead, HN. cbn. lia.
    + assert (Hne : more <> []) by (intros ->; discriminate).
      destruct (List.exists_last Hne) as (mid & tl & ->).
      rewrite length_app in Hlen. cbn in Hlen.
      assert (Hmid : length mid = n) by lia.
      cbn [arrivals].
      destruct (Middleware_accept t0 w) as (c1 & w1 & Hmw & Hm1 & _);
        [rewrite Hdead, HN; cbn; lia|exact HW|].
      rewrite Hmw. rewrite Hdead in Hm1. cbn [default] in Hm1.
      rewrite arrivals_app.
      destruct (arrivals_accepting mid w1 (0 + 1) (redis_time t0 + key_ttl config)
                  (redis_time t0 + key_ttl config))
        as (w2 & e2 & Harr & Hm2 & He2);
        [exact Hm1|exact HW|lia|rewrite Hmid, HN; lia|lia| |].
      { intros x Hx. specialize (Hin x). rewrite List.in_app_iff in Hin.
        specialize (Hin (or_introl Hx)). lia. }
      rewrite Harr.
      rewrite (arrivals_saturated [tl] w2 _ e2 Hm2).
      * cbn. rewrite Hmid. reflexivity.
      * rewrite Hmid, HN. lia.
      * intros x [<-|[]]. specialize (Hin tl). rewrite List.in_app_iff in Hin.
        specialize (Hin (or_intror (or_introl eq_refl))). lia.
  - intros ta t w c1 w1 HN Hmw Hlate.
    destruct (Middleware_accept_inv ta w c1 w1 HW Hmw) as [v Hm1].
    assert (Hdead : redis_Get t (rate_limit_key ip) (redis w1) = None).
    { unfold redis_Get, redis_live. rewrite Hm1. cbn [expire_at value].
      assert (Hf : (redis_time t <=? redis_time ta + key_ttl config) = false)
        by (apply Z.leb_gt; lia).
      rewrite Hf. reflexivity. }
    destruct (Middleware_accept t w1) as (c2 & w2 & Hmw2 & Hm2 & _);
      [rewrite Hdead; cbn; lia|exact HW|].
    rewrite Hdead in Hm2. exists c2, w2. auto.
Qed.
End RateLimiter.

(** C8, as stated, fails: with threshold 2 and a window of one minute,
    requests at 0 s and 50 s are let through and the request at 70 s,
    the first one later than one window after the window began, is
    refused, because the request at 50 s re-armed the time to live. *)
Lemma rate_limiter_window_start_counterexample :
  let config := Middleware.mkRateLimiterConfig 2 Minute in
  let w := demo_world empty_db in
  Middleware.redis_Get 0 (Middleware.rate_limit_key "10.0.0.1") (redis w) = None
  /\ 0 + Middleware.Window config < 70 * Second
  /\ fst (Middleware.arrivals config "10.0.0.1" [0; 50 * Second; 70 * Second] w)
     = [None; None; Some 429].
Proof. vm_compute. repeat split; reflexivity. Qed.

Lemma rate_limiter_threshold_and_reset_witness :
  let config := Middleware.mkRateLimiterConfig 2 Minute in
  0 < Middleware.Window config
  /\ fst (Middleware.arrivals config "10.0.0.1" [0; 10 * Second; 20 * Second]
            (demo_world empty_db))
     = [None; None; Some 429].
Proof.
  intros config.
  assert (HW : 0 < Middleware.Window config) by reflexivity.
  split; [exact HW|].
  apply (proj1 (rate_limiter_threshold_and_reset config "10.0.0.1" HW)
               2%nat 0 [10 * Second; 20 * Second] (demo_world empty_db)).
  - reflexivity.
  - reflexivity.
  - reflexivity.
  - intros t [<-|[<-|[]]]; (vm_compute; split; discriminate).
Defined.

(** ** The service writes through the repositories *)

Section ServiceSteps.
Context {bc : Bcrypt} {hm : Jwt.Hmac}.
Variable j : Auth.JWTAuth.

Lemma one_step d d' : repo_step d d' -> repo_steps d d'.
Proof. intros Hs. eapply steps_then; [apply steps_refl|exact Hs]. Qed.

Lemma repo_steps_trans d1 d2 d3 : repo_steps d1 d2 -> repo_steps d2 d3 -> repo_steps d1 d3.
Proof.
  intros H12 H23. induction H23 as [|d3 d4 _ IH Hs]; [exact H12|].
  eapply steps_then; eassumption.
Qed.

Ltac step_of call :=
  let H := fresh "Hcall" in
  destruct call as [[?|?] ?] eqn:H; cbn [snd fst];
  match type of H with
  | ?c = (_, ?d') => replace d' with (snd c) by (rewrite H; reflexivity)
  end.

(** The tables after a service call are reached from the tables before
    it by repository calls. *)
Lemma service_calls_are_repo_steps env d :
  (forall email password username,
      repo_steps d (snd (Auth.CreateUser j env email password username d)))
  /\ (forall email password, repo_steps d (snd (Auth.SignIn j env email password d)))
  /\ (forall secret, repo_steps d (snd (Auth.SignOut j env secret d)))
  /\ (forall secret, repo_steps d (snd (Auth.RefreshSession j env secret d)))
  /\ (forall userID, repo_steps d (snd (Auth.DeleteUser j env userID d)))
  /\ (forall token, repo_steps d (snd (Auth.VerifyEmail j env token d)))
  /\ (forall email, repo_steps d (snd (fst (Auth.SendVerificationEmail j env email d))))
  /\ (forall email, repo_steps d (snd (fst (Auth.RequestPasswordReset j env email d))))
  /\ (forall token newPassword,
        repo_steps d (snd (Auth.ResetPassword j env token newPassword d))).
Proof.
  repeat split; intros.
  - unfold Auth.CreateUser.
    destruct (UserRepo.GetUserByEmail _ _ _); [apply steps_refl|].
    destruct (GenerateFromPassword _ _); [|apply steps_refl].
    step_of (UserRepo.CreateUser (pg env 1)
               (mkUser (uuid_new env 0) email username s true false (now env) (now env)) d);
      apply one_step; constructor.
  - unfold Auth.SignIn.
    destruct (UserRepo.GetUserByEmail _ _ _) as [user|]; [|apply steps_refl].
    destruct (negb (IsActive user)); [apply steps_refl|].
    destruct (negb (CompareHashAndPassword _ _)); [apply steps_refl|].
    cbn [Auth.generateAccessToken].
    destruct (Auth.generateRefreshToken j env user) as [[bearer tokenHash]|]; [|apply steps_refl].
    step_of (UserRepo.StoreRefreshToken (pg env 1) (uuid_new env 0) (now env) (ID user)
               tokenHash (now env + Auth.refreshTokenTTL j) d);
      apply one_step; constructor.
  - unfold Auth.SignOut.
    destruct (Auth.parseRefreshToken _ _ _); [|apply steps_refl].
    apply one_step. constructor.
  - unfold Auth.RefreshSession.
    destruct (Auth.parseRefreshToken _ _ _); [|apply steps_refl].
    destruct (UserRepo.ValidateRefreshToken _ _ _ _); apply steps_refl.
  - unfold Auth.DeleteUser.
    destruct (UserRepo.GetUserByID _ _ _); [|apply steps_refl].
    apply one_step. constructor.
  - unfold Auth.VerifyEmail.
    destruct (VerificationRepo.ValidateVerificationToken _ _ _ _) as [user|]; [|apply steps_refl].
    destruct (IsVerified user); [apply steps_refl|].
    step_of (VerificationRepo.MarkEmailVerified
               (VerificationRepo.mkTxIO (pg env 1) (pg env 2) (pg env 3) (pg env 4))
               (now env) (ID user) d);
      apply one_step; constructor.
  - unfold Auth.SendVerificationEmail.
    destruct (UserRepo.GetUserByEmail _ _ _) as [user|]; [|apply steps_refl].
    destruct (IsVerified user); [apply steps_refl|].
    destruct (entropy env) as [token|]; [|apply steps_refl].
    step_of (VerificationRepo.StoreVerificationToken (pg env 1) (now env) (ID user)
               (base64_URLEncoding token) (now env + 24 * Hour) d);
      try destruct (smtp_ok env); cbn [fst snd]; apply one_step; constructor.
  - unfold Auth.RequestPasswordReset.
    destruct (UserRepo.GetUserByEmail _ _ _) as [user|]; [|apply steps_refl].
    destruct (entropy env) as [token|]; [|apply steps_refl].
    step_of (VerificationRepo.StorePasswordResetToken (pg env 1) (now env) (ID user)
               (base64_URLEncoding token) (now env + 1 * Hour) d);
      try destruct (smtp_ok env); cbn [fst snd]; apply one_step; constructor.
  - unfold Auth.ResetPassword.
    destruct (VerificationRepo.ValidatePasswordResetToken _ _ _ _) as [user|]; [|apply steps_refl].
    destruct (GenerateFromPassword _ _) as [hashedPassword|]; [|apply steps_refl].
    step_of (UserRepo.UpdatePassword (pg env 1) (now env) (ID user) hashedPassword d).
    + set (d1 := snd (UserRepo.UpdatePassword (pg env 1) (now env) (ID user) hashedPassword d)).
      apply (repo_steps_trans d d1); [apply one_step; constructor|].
      step_of (VerificationRepo.RevokePasswordResetToken (pg env 2) (now env) token d1);
        apply one_step; constructor.
    + apply one_step. constructor.
Qed.
End ServiceSteps.

(** ** Single-use tokens *)

Section SingleUse.
Import VerificationRepo.

Lemma join_users_In {A} (uid : A -> UUID) cond ucond us (rows : list A) u :
  In u (join_users uid cond ucond us rows) ->
  exists r, In r rows /\ cond r = true /\ In u us /\ ID u = uid r /\ ucond u = true.
Proof.
  unfold join_users. intros Hin.
  apply List.in_flat_map in Hin as (r & Hr & Hu).
  destruct (cond r) eqn:Hc; [|destruct Hu].
  apply List.filter_In in Hu as [Hu Hb].
  apply andb_prop in Hb as [Hid Huc].
  apply String.eqb_eq in Hid. exists r. auto.
Qed.

Lemma join_users_nil {A} (uid : A -> UUID) cond ucond us (rows : list A) :
  (forall r, In r rows -> cond r = false) ->
  join_users uid cond ucond us rows = [].
Proof.
  intros Hall. destruct (join_users uid cond ucond us rows) as [|u rest] eqn:Hj; [reflexivity|].
  assert (Hin : In u (join_users uid cond ucond us rows)) by (rewrite Hj; left; reflexivity).
  apply join_users_In in Hin as (r & Hr & Hc & _).
  rewrite (Hall r Hr) in Hc. discriminate.
Qed.

Lemma sql_update_intro {A} (cond : A -> bool) (set : A -> A) rows r :
  In r rows -> In (if cond r then set r else r) (sql_update cond set rows).
Proof.
  intros Hin. unfold sql_update. apply List.in_map_iff. exists r. auto.
Qed.

Lemma sql_update_id {A} (cond : A -> bool) (set : A -> A) rows :
  (forall r, In r rows -> cond r = false) -> sql_update cond set rows = rows.
Proof.
  unfold sql_update. induction rows as [|r rows IH]; intros Hall; [reflexivity|].
  cbn. rewrite (Hall r (or_introl eq_refl)), IH; [reflexivity|].
  intros x Hx. apply Hall. right. exact Hx.
Qed.

Lemma consumed_sql_update rows token cond now :
  consumed rows token -> consumed (sql_update cond (mark_used now) rows) token.
Proof.
  intros [[r0 [Hin0 Ht0]] Hall]. split.
  - exists (if cond r0 then mark_used now r0 else r0). split.
    + apply sql_update_intro. exact Hin0.
    + destruct (cond r0); exact Ht0.
  - intros r Hin Ht. apply sql_update_In in Hin as (r1 & Hin1 & ->).
    destruct (cond r1); [discriminate|]. apply Hall; assumption.
Qed.

Lemma consumed_insert rows token row us :
  consumed rows token ->
  single_use_insert_ok row us rows = true ->
  consumed (rows ++ [row]) token.
Proof.
  intros [[r0 [Hin0 Ht0]] Hall] Hok. split.
  - exists r0. split; [apply List.in_or_app; left; exact Hin0|exact Ht0].
  - intros r Hin Ht. apply List.in_app_or in Hin as [Hin|[<-|[]]].
    + apply Hall; assumption.
    + exfalso. unfold single_use_insert_ok in Hok.
      apply andb_prop in Hok as [Hu _].
      rewrite List.forallb_forall in Hu. specialize (Hu r0 Hin0).
      apply negb_true_iff, String.eqb_neq in Hu. congruence.
Qed.

(** A consumed verification token stays consumed through every repository
    call; so does a consumed password-reset token. *)
Lemma consumed_step_verification d d' token :
  consumed (email_verifications d) token -> repo_step d d' ->
  consumed (email_verifications d') token.
Proof.
  intros Hc Hstep. destruct Hstep;
    try (unfold UserRepo.CreateUser, UserRepo.UpdateUser, UserRepo.UpdatePassword,
           UserRepo.StoreRefreshToken, UserRepo.RevokeRefreshToken, UserRepo.UpdateLastLogin,
           StorePasswordResetToken, RevokePasswordResetToken;
         match goal with |- context [if ?b then _ else _] => destruct b end; exact Hc).
  - unfold StoreVerificationToken.
    destruct io; cbn [andb]; [|exact Hc].
    destruct (single_use_insert_ok _ _ _) eqn:Hok; [|exact Hc].
    cbn. eapply consumed_insert; eassumption.
  - match goal with |- context [MarkEmailVerified ?i ?n ?u ?x] =>
      destruct (MarkEmailVerified_cases i n u x) as [[_ ->] | [_ [e ->]]] end; [|exact Hc].
    cbn. apply consumed_sql_update. exact Hc.
Qed.

Lemma consumed_step_reset d d' token :
  consumed (password_resets d) token -> repo_step d d' ->
  consumed (password_resets d') token.
Proof.
  intros Hc Hstep. destruct Hstep;
    try (unfold UserRepo.CreateUser, UserRepo.UpdateUser, UserRepo.UpdatePassword,
           UserRepo.StoreRefreshToken, UserRepo.RevokeRefreshToken, UserRepo.UpdateLastLogin,
           StoreVerificationToken;
         match goal with |- context [if ?b then _ else _] => destruct b end; exact Hc).
  - match goal with |- context [MarkEmailVerified ?i ?n ?u ?x] =>
      destruct (MarkEmailVerified_cases i n u x) as [[_ ->] | [_ [e ->]]] end; exact Hc.
  - unfold StorePasswordResetToken.
    destruct io; cbn [andb]; [|exact Hc].
    destruct (single_use_insert_ok _ _ _) eqn:Hok; [|exact Hc].
    cbn. eapply consumed_insert; eassumption.
  - unfold RevokePasswordResetToken. destruct io; [|exact Hc].
    cbn. apply consumed_sql_update. exact Hc.
Qed.

Lemma consumed_steps d d' token :
  repo_steps d d' ->
  (consumed (email_verifications d) token -> consumed (email_verifications d') token)
  /\ (consumed (password_resets d) token -> consumed (password_resets d') token).
Proof.
  induction 1 as [|d1 d2 _ [IHv IHr] Hstep]; [auto|].
  split; intros Hc.
  - eapply consumed_step_verification; [apply IHv; exact Hc|exact Hstep].
  - eapply consumed_step_reset; [apply IHr; exact Hc|exact Hstep].
Qed.

Lemma token_live_consumed rows token now :
  consumed rows token -> forall r, In r rows -> token_live now token r = false.
Proof.
  intros [_ Hall] r Hin. unfold token_live.
  destruct (String.eqb (su_token r) token) eqn:Ht; [|reflexivity].
  apply String.eqb_eq in Ht. specialize (Hall r Hin Ht).
  destruct (su_used_at r); [|contradiction].
  cbn. apply andb_false_r.
Qed.

Lemma ValidateVerificationToken_consumed io now token d :
  consumed (email_verifications d) token ->
  ValidateVerificationToken io now token d
  = Err (if io then ErrInvalidToken
         else ErrorfW "failed to validate verification token" (PgError "connection")).
Proof.
  intros Hc. unfold ValidateVerificationToken.
  rewrite join_users_nil by (apply token_live_consumed; exact Hc).
  destruct io; reflexivity.
Qed.

Lemma ValidatePasswordResetToken_consumed io now token d :
  consumed (password_resets d) token ->
  ValidatePasswordResetToken io now token d
  = Err (if io then ErrInvalidToken
         else ErrorfW "failed to validate password reset token" (PgError "connection")).
Proof.
  intros Hc. unfold ValidatePasswordResetToken.
  rewrite join_users_nil by (apply token_live_consumed; exact Hc).
  destruct io; reflexivity.
Qed.
Lemma QueryRow_Ok {A} io (rows : list A) r :
  QueryRow io rows = Ok r -> io = true /\ In r rows.
Proof.
  unfold QueryRow. destruct io; [|discriminate].
  destruct rows as [|x rest]; [discriminate|].
  intros [= ->]. split; [reflexivity|left; reflexivity].
Qed.

Lemma ValidateVerificationToken_Ok io now token d u :
  ValidateVerificationToken io now token d = Ok u ->
  exists r, In r (email_verifications d) /\ token_live now token r = true
            /\ In u (users d) /\ ID u = su_user_id r.
Proof.
  unfold ValidateVerificationToken.
  destruct (QueryRow io _) as [v|e] eqn:Hq; [|destruct e; discriminate].
  intros [= ->]. apply QueryRow_Ok in Hq as [_ Hin].
  apply join_users_In in Hin as (r & Hr & Hc & Hu & Hid & _). eauto.
Qed.

Lemma ValidatePasswordResetToken_Ok io now token d u :
  ValidatePasswordResetToken io now token d = Ok u ->
  exists r, In r (password_resets d) /\ token_live now token r = true
            /\ In u (users d) /\ ID u = su_user_id r.
Proof.
  unfold ValidatePasswordResetToken.
  destruct (QueryRow io _) as [v|e] eqn:Hq; [|destruct e; discriminate].
  intros [= ->]. apply QueryRow_Ok in Hq as [_ Hin].
  apply join_users_In in Hin as (r & Hr & Hc & Hu & Hid & _). eauto.
Qed.

Lemma token_live_true now token r :
  token_live now token r = true ->
  su_token r = token /\ now < su_expires_at r /\ su_used_at r = None.
Proof.
  unfold token_live. intros Hl.
  apply andb_prop in Hl as [Hl Hn]. apply andb_prop in Hl as [Ht He].
  apply String.eqb_eq in Ht. apply Z.ltb_lt in He.
  destruct (su_used_at r); [discriminate|]. auto.
Qed.

Lemma su_token_update (b : bool) now r :
  su_token (if b then mark_used now r else r) = su_token r.
Proof. destruct b; reflexivity. Qed.

(** A successful [VerifyEmail] consumes the token it was given. *)
Lemma VerifyEmail_consumes j env token d d1 :
  tokens_unique (email_verifications d) ->
  Auth.VerifyEmail j env token d = (Ok tt, d1) ->
  consumed (email_verifications d1) token.
Proof.
  intros Huniq. unfold Auth.VerifyEmail.
  destruct (ValidateVerificationToken (pg env 0) (now env) token d) as [user|e] eqn:Hv;
    [|discriminate].
  destruct (IsVerified user); [discriminate|].
  match goal with |- context [MarkEmailVerified ?i ?n ?u ?x] =>
    destruct (MarkEmailVerified_cases i n u x) as [[_ ->] | [_ [e ->]]] end; [|discriminate].
  intros [= <-].
  apply ValidateVerificationToken_Ok in Hv as (r0 & Hr0 & Hl & _ & Hid).
  apply token_live_true in Hl as (Ht0 & _ & Hn0).
  assert (Hc0 : String.eqb (su_user_id r0) (ID user) && is_null (su_used_at r0) = true).
  { rewrite Hid, String.eqb_refl, Hn0. reflexivity. }
  cbn. split.
  - exists (mark_used (now env) r0). split; [|exact Ht0].
    generalize (sql_update_intro
                  (fun r => String.eqb (su_user_id r) (ID user) && is_null (su_used_at r))
                  (mark_used (now env)) _ r0 Hr0).
    cbn beta. rewrite Hc0. auto.
  - intros r Hin Ht. apply sql_update_In in Hin as (r1 & Hr1 & ->).
    rewrite su_token_update in Ht.
    assert (r1 = r0) as -> by (apply Huniq; congruence).
    rewrite Hc0. discriminate.
Qed.

(** A successful [ResetPassword] consumes the token it was given. *)
Lemma ResetPassword_consumes {bc : Bcrypt} j env token newPassword d d1 :
  Auth.ResetPassword j env token newPassword d = (Ok tt, d1) ->
  consumed (password_resets d1) token.
Proof.
  unfold Auth.ResetPassword.
  destruct (ValidatePasswordResetToken (pg env 0) (now env) token d) as [user|e] eqn:Hv;
    [|discriminate].
  destruct (GenerateFromPassword newPassword (salt env)); [|discriminate].
  unfold UserRepo.UpdatePassword. destruct (pg env 1 && _); [|discriminate].
  unfold RevokePasswordResetToken. destruct (pg env 2); [|discriminate].
  intros [= <-].
  apply ValidatePasswordResetToken_Ok in Hv as (r0 & Hr0 & Hl & _).
  apply token_live_true in Hl as (Ht0 & _ & Hn0).
  cbn. split.
  - eexists. split; [apply sql_update_intro; exact Hr0|].
    rewrite su_token_update. exact Ht0.
  - intros r Hin Ht. apply sql_update_In in Hin as (r1 & Hr1 & ->).
    rewrite su_token_update in Ht. rewrite Ht, String.eqb_refl.
    destruct (su_used_at r1) eqn:Hu; cbn; [rewrite Hu|]; discriminate.
Qed.

(** C2. A verification token that [VerifyEmail] has consumed, and a
    password-reset token that [ResetPassword] has consumed, is refused by
    every later validation, whatever the repositories were asked to do in
    between and whatever the instant (so also before the token's expiry):
    the validation never succeeds again, and it fails with
    [ErrInvalidToken] whenever the store answers. *)
Theorem single_use_token_validates_once {bc : Bcrypt} j env token :
  (forall d d1,
      tokens_unique (email_verifications d) ->
      Auth.VerifyEmail j env token d = (Ok tt, d1) ->
      forall d2, repo_steps d1 d2 ->
      forall io now',
        is_ok (ValidateVerificationToken io now' token d2) = false
        /\ ValidateVerificationToken true now' token d2 = Err ErrInvalidToken)
  /\ (forall newPassword d d1,
        Auth.ResetPassword j env token newPassword d = (Ok tt, d1) ->
        forall d2, repo_steps d1 d2 ->
        forall io now',
          is_ok (ValidatePasswordResetToken io now' token d2) = false
          /\ ValidatePasswordResetToken true now' token d2 = Err ErrInvalidToken).
Proof.
  split.
  - intros d d1 Huniq Hok d2 Hsteps io now'.
    assert (Hc : consumed (email_verifications d2) token).
    { apply (proj1 (consumed_steps d1 d2 token Hsteps)).
      eapply VerifyEmail_consumes; eassumption. }
    rewrite !ValidateVerificationToken_consumed by exact Hc. auto.
  - intros newPassword d d1 Hok d2 Hsteps io now'.
    assert (Hc : consumed (password_resets d2) token).
    { apply (proj2 (consumed_steps d1 d2 token Hsteps)).
      eapply ResetPassword_consumes; eassumption. }
    rewrite !ValidatePasswordResetToken_consumed by exact Hc. auto.
Qed.

(** The UNIQUE constraint on the token column is kept by every repository
    call. *)
Lemma tokens_unique_insert rows row us :
  tokens_unique rows -> single_use_insert_ok row us rows = true ->
  tokens_unique (rows ++ [row]).
Proof.
  intros Hu Hok. unfold single_use_insert_ok in Hok.
  apply andb_prop in Hok as [Hf _]. rewrite List.forallb_forall in Hf.
  assert (Hne : forall r, In r rows -> su_token r <> su_token row).
  { intros r Hr. specialize (Hf r Hr). apply negb_true_iff, String.eqb_neq in Hf. exact Hf. }
  intros r1 r2 H1 H2 Ht.
  apply List.in_app_or in H1 as [H1|[<-|[]]]; apply List.in_app_or in H2 as [H2|[<-|[]]].
  - apply Hu; assumption.
  - exfalso. exact (Hne r1 H1 Ht).
  - exfalso. apply (Hne r2 H2). symmetry. exact Ht.
  - reflexivity.
Qed.

Lemma tokens_unique_sql_update rows cond now :
  tokens_unique rows -> tokens_unique (sql_update cond (mark_used now) rows).
Proof.
  intros Hu r1 r2 H1 H2 Ht.
  apply sql_update_In in H1 as (a & Ha & ->). apply sql_update_In in H2 as (b & Hb & ->).
  rewrite !su_token_update in Ht. rewrite (Hu a b Ha Hb Ht). reflexivity.
Qed.

Lemma tokens_unique_step d d' :
  tokens_unique (email_verifications d) -> repo_step d d' ->
  tokens_unique (email_verifications d').
Proof.
  intros Hc Hstep. destruct Hstep;
    try (unfold UserRepo.CreateUser, UserRepo.UpdateUser, UserRepo.UpdatePassword,
           UserRepo.StoreRefreshToken, UserRepo.RevokeRefreshToken, UserRepo.UpdateLastLogin,
           StorePasswordResetToken, RevokePasswordResetToken;
         match goal with |- context [if ?b then _ else _] => destruct b end; exact Hc).
  - unfold StoreVerificationToken.
    destruct io; cbn [andb]; [|exact Hc].
    destruct (single_use_insert_ok _ _ _) eqn:Hok; [|exact Hc].
    cbn. eapply tokens_unique_insert; eassumption.
  - match goal with |- context [MarkEmailVerified ?i ?n ?u ?x] =>
      destruct (MarkEmailVerified_cases i n u x) as [[_ ->] | [_ [e ->]]] end; [|exact Hc].
    cbn. apply tokens_unique_sql_update. exact Hc.
Qed.
End SingleUse.

Lemma single_use_token_validates_once_witness :
  let d1 := snd (Auth.VerifyEmail demo_auth (demo_env 5) "verify-me" demo_db) in
  tokens_unique (email_verifications demo_db)
  /\ Auth.VerifyEmail demo_auth (demo_env 5) "verify-me" demo_db = (Ok tt, d1)
  /\ VerificationRepo.ValidateVerificationToken true 6 "verify-me" d1 = Err ErrInvalidToken.
Proof.
  intros d1.
  assert (Hu : tokens_unique (email_verifications demo_db)).
  { intros r1 r2 [<-|[]] [<-|[]] _. reflexivity. }
  assert (Hv : Auth.VerifyEmail demo_auth (demo_env 5) "verify-me" demo_db = (Ok tt, d1))
    by reflexivity.
  split; [exact Hu|]. split; [exact Hv|].
  apply (proj1 (single_use_token_validates_once (bc := demo_bcrypt) demo_auth (demo_env 5)
                  "verify-me") demo_db d1 Hu Hv d1 (steps_refl d1) true 6).
Defined.

(** ** Refresh secrets *)

Section Refresh.
Context {hm : Jwt.Hmac}.
Variable j : Auth.JWTAuth.

Lemma ParseWithClaims_Ok keyfunc now s token :
  Jwt.ParseWithClaims keyfunc now s = Ok token ->
  Jwt.Valid token = true
  /\ exists alg signature, s = Jwt.Compact alg (Jwt.Claims token) signature.
Proof.
  unfold Jwt.ParseWithClaims. destruct s as [raw|alg claims signature]; [discriminate|].
  destruct (Jwt.GetSigningMethod alg) as [m|]; [|discriminate].
  destruct (keyfunc m) as [key|e]; [|discriminate].
  destruct (Jwt.Verify m key alg claims signature); [|discriminate].
  destruct (Jwt.validate_claims now claims); [|discriminate].
  intros [= <-]. cbn. eauto.
Qed.

Lemma parseRefreshToken_hash now secret claims :
  Auth.parseRefreshToken j now secret = Ok claims ->
  Auth.r_TokenHash claims = secret_hash secret.
Proof.
  unfold Auth.parseRefreshToken.
  destruct (Jwt.ParseWithClaims (Auth.keyfunc j) now secret) as [token|e] eqn:Hp; [|discriminate].
  apply ParseWithClaims_Ok in Hp as (Hv & alg & signature & ->).
  rewrite Hv. cbn. intros [= <-]. reflexivity.
Qed.

Lemma parseRefreshToken_Err now secret e :
  Auth.parseRefreshToken j now secret = Err e -> error_class e = InvalidToken.
Proof.
  unfold Auth.parseRefreshToken.
  destruct (Jwt.ParseWithClaims (Auth.keyfunc j) now secret) as [token|e'] eqn:Hp.
  - apply ParseWithClaims_Ok in Hp as (Hv & _). rewrite Hv. discriminate.
  - intros [= <-]. revert Hp. unfold Jwt.ParseWithClaims.
    destruct secret as [raw|alg claims signature]; [intros [= <-]; reflexivity|].
    destruct (Jwt.GetSigningMethod alg) as [m|]; [|intros [= <-]; reflexivity].
    destruct (Auth.keyfunc j m) as [key|e0]; [|intros [= <-]; reflexivity].
    destruct (Jwt.Verify m key alg claims signature); [|intros [= <-]; reflexivity].
    unfold Jwt.validate_claims.
    destruct (negb (Jwt.verifyExpiresAt now claims)); [intros [= <-]; reflexivity|].
    destruct (negb (Jwt.verifyNotBefore now claims)); [intros [= <-]; reflexivity|].
    discriminate.
Qed.

Lemma refresh_rows_satisfy_step d d' h (P : RefreshToken -> Prop) :
  (forall r, rt_revoked_at r <> None -> P r) ->
  refresh_rows_satisfy d h P -> repo_step d d' -> refresh_rows_satisfy d' h P.
Proof.
  intros HP Hc Hstep. destruct Hstep;
    try (unfold UserRepo.CreateUser, UserRepo.UpdateUser, UserRepo.UpdatePassword,
           UserRepo.UpdateLastLogin, VerificationRepo.StoreVerificationToken,
           VerificationRepo.StorePasswordResetToken, VerificationRepo.RevokePasswordResetToken;
         match goal with |- context [if ?b then _ else _] => destruct b end; exact Hc).
  - unfold UserRepo.StoreRefreshToken.
    destruct io; cbn [andb]; [|exact Hc].
    destruct (refresh_insert_ok _ _) eqn:Hok; [|exact Hc].
    destruct Hc as [[r0 [Hr0 Hh0]] Hall]. cbn. split.
    + exists r0. split; [apply List.in_or_app; left; exact Hr0|exact Hh0].
    + intros r Hin Hh. apply List.in_app_or in Hin as [Hin|[<-|[]]]; [apply Hall; assumption|].
      exfalso. unfold refresh_insert_ok in Hok.
      apply andb_prop in Hok as [Hf _]. rewrite List.forallb_forall in Hf.
      specialize (Hf r0 Hr0). apply andb_prop in Hf as [_ Hf].
      apply negb_true_iff, String.eqb_neq in Hf. cbn in Hf, Hh. congruence.
  - unfold UserRepo.RevokeRefreshToken. destruct io; [|exact Hc].
    destruct Hc as [[r0 [Hr0 Hh0]] Hall]. cbn. split.
    + eexists. split; [apply sql_update_intro; exact Hr0|].
      match goal with |- context [if ?b then _ else _] => destruct b end; exact Hh0.
    + intros r Hin Hh. apply sql_update_In in Hin as (r1 & Hr1 & ->).
      revert Hh. match goal with |- context [if ?b then _ else _] => destruct b end; cbn.
      * intros _. apply HP. cbn. discriminate.
      * intros Hh. apply Hall; assumption.
  - match goal with |- context [VerificationRepo.MarkEmailVerified ?i ?n ?u ?x] =>
      destruct (MarkEmailVerified_cases i n u x) as [[_ ->] | [_ [e ->]]] end; exact Hc.
Qed.

Lemma refresh_rows_satisfy_steps d d' h (P : RefreshToken -> Prop) :
  (forall r, rt_revoked_at r <> None -> P r) ->
  refresh_rows_satisfy d h P -> repo_steps d d' -> refresh_rows_satisfy d' h P.
Proof.
  intros HP Hc Hsteps. induction Hsteps as [|d1 d2 _ IH Hstep]; [exact Hc|].
  eapply refresh_rows_satisfy_step; eassumption.
Qed.

Lemma ValidateRefreshToken_dead io now h d t :
  refresh_dead d h t -> t <= now ->
  UserRepo.ValidateRefreshToken io now h d
  = Err (if io then ErrInvalidToken
         else ErrorfW "failed to validate refresh token" (PgError "connection")).
Proof.
  intros [_ Hall] Hle. unfold UserRepo.ValidateRefreshToken.
  rewrite join_users_nil; [destruct io; reflexivity|].
  intros r Hin. destruct (String.eqb (rt_token_hash r) h) eqn:Hh; [|reflexivity].
  apply String.eqb_eq in Hh. destruct (Hall r Hin Hh) as [Hr|He].
  - destruct (rt_revoked_at r); [|contradiction]. cbn. apply andb_false_r.
  - assert (Hf : (now <? rt_expires_at r) = false) by (apply Z.ltb_ge; lia).
    rewrite Hf. reflexivity.
Qed.

Lemma RefreshSession_dead env secret d t :
  refresh_dead d (secret_hash secret) t -> t <= now env ->
  refresh_refused j env secret d.
Proof.
  intros Hd Hle. unfold refresh_refused, Auth.RefreshSession.
  destruct (Auth.parseRefreshToken j (now env) secret) as [claims|e] eqn:Hp.
  - rewrite (parseRefreshToken_hash _ _ _ Hp).
    rewrite (ValidateRefreshToken_dead _ _ _ _ t Hd Hle).
    eexists. split; [reflexivity|]. intros ->. reflexivity.
  - exists e. split; [reflexivity|]. intros _. eapply parseRefreshToken_Err. exact Hp.
Qed.

Lemma SignOut_revokes env secret d d1 :
  refresh_known d (secret_hash secret) ->
  Auth.SignOut j env secret d = (Ok tt, d1) ->
  refresh_revoked d1 (secret_hash secret).
Proof.
  intros [r0 [Hr0 Hh0]]. unfold Auth.SignOut.
  destruct (Auth.parseRefreshToken j (now env) secret) as [claims|e] eqn:Hp; [|discriminate].
  rewrite (parseRefreshToken_hash _ _ _ Hp).
  unfold UserRepo.RevokeRefreshToken. destruct (pg env 0); [|discriminate].
  intros [= <-]. cbn. split.
  - eexists. split; [apply sql_update_intro; exact Hr0|].
    match goal with |- context [if ?b then _ else _] => destruct b end; exact Hh0.
  - intros r Hin. apply sql_update_In in Hin as (r1 & Hr1 & ->).
    destruct (String.eqb (rt_token_hash r1) (secret_hash secret)) eqn:Hh; cbn.
    + destruct (rt_revoked_at r1) eqn:Hrv; cbn; [rewrite Hrv|]; discriminate.
    + apply String.eqb_neq in Hh. intros Hh'. contradiction.
Qed.

Lemma SignOut_revoked env secret d :
  refresh_revoked d (secret_hash secret) ->
  pg env 0 = true ->
  is_ok (Auth.parseRefreshToken j (now env) secret) = true ->
  Auth.SignOut j env secret d = (Ok tt, d).
Proof.
  intros [_ Hall] Hio. unfold Auth.SignOut.
  destruct (Auth.parseRefreshToken j (now env) secret) as [claims|e] eqn:Hp; [|discriminate].
  intros _. rewrite (parseRefreshToken_hash _ _ _ Hp).
  unfold UserRepo.RevokeRefreshToken. rewrite Hio. f_equal.
  unfold set_refresh_tokens. rewrite sql_update_id; [destruct d; reflexivity|].
  intros r Hin. destruct (String.eqb (rt_token_hash r) (secret_hash secret)) eqn:Hh; [|reflexivity].
  apply String.eqb_eq in Hh. specialize (Hall r Hin Hh).
  destruct (rt_revoked_at r); [reflexivity|contradiction].
Qed.

(** C3 (amended). A refresh secret on record that [SignOut] has revoked
    is refused by every later [RefreshSession], whatever the repositories
    were asked to do in between: with [ErrInvalidToken] wrapped when the
    secret still parses and the store answers, with the parser's error
    when it does not parse any more. A further [SignOut] with it is not an
    error and changes nothing as long as the secret parses and the store
    answers; when the secret does not parse any more, its own expiry
    having passed, [SignOut] returns the parser's error. A refresh secret
    whose record has expired, or whose own expiry claim has passed, is
    refused likewise. The refusal is of the class [InvalidToken] whenever
    the store answers. *)
Theorem refresh_secret_revoked_or_expired secret :
  (forall env0 d d1,
      refresh_known d (secret_hash secret) ->
      Auth.SignOut j env0 secret d = (Ok tt, d1) ->
      forall d2, repo_steps d1 d2 ->
      forall env,
        refresh_refused j env secret d2
        /\ (is_ok (Auth.parseRefreshToken j (now env) secret) = true ->
            (pg env 0 = true ->
             Auth.RefreshSession j env secret d2
             = (Err (ErrorfW "invalid refresh token" ErrInvalidToken), d2)
             /\ Auth.SignOut j env secret d2 = (Ok tt, d2))
            /\ (pg env 0 = false ->
                exists e, Auth.SignOut j env secret d2 = (Err e, d2)
                          /\ error_class e = InternalFailure))
        /\ (forall e, Auth.parseRefreshToken j (now env) secret = Err e ->
              Auth.RefreshSession j env secret d2 = (Err e, d2)
              /\ Auth.SignOut j env secret d2 = (Err e, d2)))
  /\ (forall d t,
        refresh_dead d (secret_hash secret) t ->
        forall d2, repo_steps d d2 ->
        forall env, t <= now env -> refresh_refused j env secret d2)
  /\ (forall alg claims signature exp d env,
        secret = Jwt.Compact alg claims signature ->
        Jwt.p_exp claims = Some exp -> exp <= now env ->
        refresh_refused j env secret d
        /\ exists e, Auth.SignOut j env secret d = (Err e, d)).
Proof.
  assert (Hexpired : forall alg claims signature exp env,
             Jwt.p_exp claims = Some exp -> exp <= now env ->
             exists e, Auth.parseRefreshToken j (now env) (Jwt.Compact alg claims signature)
                       = Err e).
  { intros alg claims signature exp env Hexp Hle.
    destruct (Auth.parseRefreshToken j (now env) (Jwt.Compact alg claims signature))
      as [c|e] eqn:Hp; [|eauto].
    exfalso. revert Hp. unfold Auth.parseRefreshToken, Jwt.ParseWithClaims.
    destruct (Jwt.GetSigningMethod alg) as [m|]; [|discriminate].
    destruct (Auth.keyfunc j m) as [key|e0]; [|discriminate].
    destruct (Jwt.Verify m key alg claims signature); [|discriminate].
    unfold Jwt.validate_claims, Jwt.verifyExpiresAt. rewrite Hexp.
    assert (Hf : (now env <? NewNumericDate exp) = false)
      by (apply Z.ltb_ge; pose proof (NewNumericDate_bounds exp); lia).
    rewrite Hf. discriminate. }
  split; [|split].
  - intros env0 d d1 Hk Hout d2 Hsteps env.
    assert (Hrev : refresh_revoked d2 (secret_hash secret)).
    { eapply refresh_rows_satisfy_steps; [auto| |exact Hsteps].
      eapply SignOut_revokes; eassumption. }
    assert (Hdead : refresh_dead d2 (secret_hash secret) (now env)).
    { destruct Hrev as [Hk2 Hall]. split; [exact Hk2|]. intros r Hin Hh. left. auto. }
    split; [apply (RefreshSession_dead env secret d2 (now env) Hdead); lia|].
    split.
    + intros Hp. split.
      * intros Hio. split; [|apply SignOut_revoked; assumption].
        unfold Auth.RefreshSession.
        destruct (Auth.parseRefreshToken j (now env) secret) as [claims|] eqn:Hparse;
          [|discriminate].
        rewrite (parseRefreshToken_hash _ _ _ Hparse).
        rewrite (ValidateRefreshToken_dead _ _ _ _ (now env) Hdead (Z.le_refl _)), Hio.
        reflexivity.
      * intros Hio. unfold Auth.SignOut.
        destruct (Auth.parseRefreshToken j (now env) secret) as [claims|]; [|discriminate].
        unfold UserRepo.RevokeRefreshToken. rewrite Hio. eexists. split; reflexivity.
    + intros e Hp. unfold Auth.RefreshSession, Auth.SignOut. rewrite Hp. split; reflexivity.
  - intros d t Hd d2 Hsteps env Hle.
    apply (RefreshSession_dead env secret d2 t); [|exact Hle].
    eapply refresh_rows_satisfy_steps; [|exact Hd|exact Hsteps].
    intros r Hr. left. exact Hr.
  - intros alg claims signature exp d env -> Hexp Hle.
    destruct (Hexpired alg claims signature exp env Hexp Hle) as [e Hp].
    split.
    + exists e. unfold Auth.RefreshSession. rewrite Hp. split; [reflexivity|].
      intros _. eapply parseRefreshToken_Err. exact Hp.
    + exists e. unfold Auth.SignOut. rewrite Hp. reflexivity.
Qed.
End Refresh.

(** C3, as stated, fails: Alice's refresh secret, on record and revoked
    by a sign-out on day 0, expires on day 30; a further sign-out with it
    on day 31 is an error, although the store answers. *)
Lemma SignOut_after_expiry_counterexample :
  let d1 := snd (Auth.SignOut (hm := demo_hmac) demo_auth (demo_env 5)
                   demo_refresh_secret demo_session_db) in
  refresh_known demo_session_db (secret_hash demo_refresh_secret)
  /\ Auth.SignOut (hm := demo_hmac) demo_auth (demo_env 5) demo_refresh_secret demo_session_db
     = (Ok tt, d1)
  /\ pg (demo_env (31 * 24 * Hour)) 0 = true
  /\ Auth.SignOut (hm := demo_hmac) demo_auth (demo_env (31 * 24 * Hour))
       demo_refresh_secret d1
     = (Err (ErrorfW "invalid refresh token" (JwtError TokenExpired)), d1).
Proof.
  intros d1. split.
  - eexists. split; [left; reflexivity|reflexivity].
  - repeat split; reflexivity.
Qed.

Lemma refresh_secret_revoked_or_expired_witness :
  let d1 := snd (Auth.SignOut (hm := demo_hmac) demo_auth (demo_env 5)
                   demo_refresh_secret demo_session_db) in
  refresh_known demo_session_db (secret_hash demo_refresh_secret)
  /\ Auth.SignOut (hm := demo_hmac) demo_auth (demo_env 5) demo_refresh_secret demo_session_db
     = (Ok tt, d1)
  /\ refresh_refused (hm := demo_hmac) demo_auth (demo_env 6) demo_refresh_secret d1
  /\ Auth.SignOut (hm := demo_hmac) demo_auth (demo_env 6) demo_refresh_secret d1 = (Ok tt, d1).
Proof.
  intros d1.
  assert (Hk : refresh_known demo_session_db (secret_hash demo_refresh_secret)).
  { eexists. split; [left; reflexivity|reflexivity]. }
  assert (Hs : Auth.SignOut (hm := demo_hmac) demo_auth (demo_env 5) demo_refresh_secret
                 demo_session_db = (Ok tt, d1)) by reflexivity.
  split; [exact Hk|]. split; [exact Hs|].
  destruct (proj1 (refresh_secret_revoked_or_expired (hm := demo_hmac) demo_auth
                     demo_refresh_secret)
                  (demo_env 5) demo_session_db d1 Hk Hs d1 (steps_refl d1) (demo_env 6))
    as (Href & Hout & _).
  split; [exact Href|]. apply (proj1 (Hout eq_refl) eq_refl).
Defined.

(** ** Access tokens *)

Section AccessToken.
Context {hm : Jwt.Hmac}.
Variable j : Auth.JWTAuth.

Lemma keyfunc_hmac_method alg m :
  Jwt.GetSigningMethod alg = Some m ->
  match hmac_method alg with
  | Some h => m = Jwt.SigningMethodHMAC h /\ Auth.keyfunc j m = Ok (Auth.secretKey j)
  | None => exists e, Auth.keyfunc j m = Err e
  end.
Proof.
  unfold hmac_method. intros ->. destruct m as [h|other]; cbn; eauto.
Qed.

Lemma validate_claims_expired now claims exp :
  Jwt.p_exp claims = Some exp -> exp <= now ->
  Jwt.validate_claims now claims = Err (JwtError TokenExpired).
Proof.
  intros He Hle. unfold Jwt.validate_claims, Jwt.verifyExpiresAt. rewrite He.
  assert (Hf : (now <? NewNumericDate exp) = false)
    by (apply Z.ltb_ge; pose proof (NewNumericDate_bounds exp); lia).
  rewrite Hf. reflexivity.
Qed.

Lemma ParseWithClaims_refused now tokenString :
  access_token_refusable j now tokenString ->
  exists k, Jwt.ParseWithClaims (Auth.keyfunc j) now tokenString = Err (JwtError k).
Proof.
  destruct tokenString as [raw|alg claims signature]; cbn [access_token_refusable].
  - intros _. eexists. reflexivity.
  - intros Hcase. unfold Jwt.ParseWithClaims.
    destruct (Jwt.GetSigningMethod alg) as [m|] eqn:Hm; [|eexists; reflexivity].
    pose proof (keyfunc_hmac_method alg m Hm) as Hk.
    unfold signature_verifies in Hcase.
    destruct (hmac_method alg) as [h|].
    + destruct Hk as [-> ->]. cbn [Jwt.Verify].
      destruct Hcase as [Hn|[Hs|[exp [He Hle]]]]; [discriminate| |].
      * rewrite Hs. eexists. reflexivity.
      * destruct (String.eqb signature _); [|eexists; reflexivity].
        rewrite (validate_claims_expired now claims exp He Hle). eexists. reflexivity.
    + destruct Hk as [e ->]. eexists. reflexivity.
Qed.

(** Conversely, a token signed under the service's secret with any of
    the three HMAC methods, the whole second of its expiry ahead and no
    [nbf], is accepted. *)
Lemma parseAccessToken_accepts_hmac_family h now claims exp :
  Jwt.p_exp claims = Some exp -> now < NewNumericDate exp -> Jwt.p_nbf claims = None ->
  Auth.parseAccessToken j now (Jwt.SignedString h (Auth.secretKey j) claims)
  = Ok (Auth.claims_of_payload claims).
Proof.
  intros He Hlt Hn. unfold Auth.parseAccessToken, Jwt.SignedString, Jwt.ParseWithClaims.
  assert (Hm : Jwt.GetSigningMethod (Jwt.Alg (Jwt.SigningMethodHMAC h))
               = Some (Jwt.SigningMethodHMAC h)) by (destruct h; reflexivity).
  rewrite Hm. cbn [Auth.keyfunc Jwt.Verify]. rewrite String.eqb_refl.
  unfold Jwt.validate_claims, Jwt.verifyExpiresAt, Jwt.verifyNotBefore. rewrite He, Hn.
  apply Z.ltb_lt in Hlt. rewrite Hlt. reflexivity.
Qed.

(** C6 (amended). [parseAccessToken] refuses, with the token library's
    error wrapped as "invalid token" (class [InvalidToken]), every string
    that is not a compact token, whose method is not one of the HMAC
    methods (HS256, HS384, HS512), whose signature does not verify under
    the service's secret, or whose expiry has passed; hence
    [ValidateSession] refuses every access token whose expiry has passed,
    whatever its signature. *)
Theorem parseAccessToken_refuses :
  (forall now tokenString,
      access_token_refusable j now tokenString ->
      exists k, Auth.parseAccessToken j now tokenString
                = Err (ErrorfW "invalid token" (JwtError k)))
  /\ (forall env alg claims signature exp d,
        Jwt.p_exp claims = Some exp -> exp <= now env ->
        exists e, Auth.ValidateSession j env (Jwt.Compact alg claims signature) d = Err e
                  /\ error_class e = InvalidToken).
Proof.
  assert (H1 : forall now tokenString,
             access_token_refusable j now tokenString ->
             exists k, Auth.parseAccessToken j now tokenString
                       = Err (ErrorfW "invalid token" (JwtError k))).
  { intros now tokenString Href.
    destruct (ParseWithClaims_refused now tokenString Href) as [k Hk].
    exists k. unfold Auth.parseAccessToken. rewrite Hk. reflexivity. }
  split; [exact H1|].
  intros env alg claims signature exp d He Hle.
  destruct (H1 (now env) (Jwt.Compact alg claims signature)) as [k Hk].
  { cbn. right. right. eauto. }
  unfold Auth.ValidateSession. rewrite Hk. eexists. split; reflexivity.
Qed.
End AccessToken.

(** C6, as stated, fails: a token that carries Alice's identifier, in
    the standard form, whose header names HS384, not the HS256 the service
    signs with, and that is signed under the service's secret, is accepted
    by [parseAccessToken] and by [ValidateSession]. *)
Lemma parseAccessToken_accepts_HS384_counterexample :
  (exists claims signature id,
      demo_hs384_token = Jwt.Compact "HS384" claims signature
      /\ Jwt.p_user_id claims = Some id /\ uuid_standard_form id = true)
  /\ "HS384" <> Jwt.Alg Jwt.SigningMethodHS256
  /\ is_ok (Auth.parseAccessToken (hm := demo_hmac) demo_auth 5 demo_hs384_token) = true
  /\ is_ok (Auth.ValidateSession (hm := demo_hmac) demo_auth (demo_env 5) demo_hs384_token
              demo_db) = true.
Proof.
  split; [eexists _, _, _; repeat split; reflexivity|].
  split; [discriminate|]. split; reflexivity.
Qed.

Lemma parseAccessToken_refuses_witness :
  let forged := Jwt.Compact "HS256"
                  (Jwt.mkPayload (Some "a11ce000-0000-4000-8000-000000000001") (Some "alice@example.com") (Some "alice")
                                 None (Some (1 * Hour)) None (Some 0) (Some "a11ce000-0000-4000-8000-000000000001"))
                  "forged" in
  access_token_refusable (hm := demo_hmac) demo_auth 5 forged
  /\ exists k, Auth.parseAccessToken (hm := demo_hmac) demo_auth 5 forged
               = Err (ErrorfW "invalid token" (JwtError k)).
Proof.
  intros forged.
  assert (Hr : access_token_refusable (hm := demo_hmac) demo_auth 5 forged)
    by (right; left; reflexivity).
  split; [exact Hr|].
  exact (proj1 (parseAccessToken_refuses (hm := demo_hmac) demo_auth) 5 forged Hr).
Defined.

(** ** The refresh credential of a sign-in *)

Section RefreshCredential.
Context {bc : Bcrypt} {hm : Jwt.Hmac}.
Variable j : Auth.JWTAuth.

(** C5 (amended). A successful sign-in persists exactly one new row of
    [refresh_tokens], whose [token_hash] is the hexadecimal form of the
    32 random bytes drawn: a value generated before the bearer and
    carried by the bearer in its [token_hash] claim, not a hash of it.
    The signed bearer itself is not persisted, and it is not returned:
    the caller receives the account and the access token, a different
    string. *)
Theorem SignIn_refresh_record env email password d u tok d1 :
  Auth.SignIn j env email password d = (Ok (u, tok), d1) ->
  exists user randomBytes bearer,
    entropy env = Some randomBytes
    /\ Auth.generateRefreshToken j env user = Ok (bearer, hex_EncodeToString randomBytes)
    /\ secret_hash bearer = hex_EncodeToString randomBytes
    /\ d1 = set_refresh_tokens
              (fun rs => (rs ++ [mkRefreshToken (uuid_new env 0) (ID user)
                                   (hex_EncodeToString randomBytes)
                                   (now env + Auth.refreshTokenTTL j) (now env) None])%list) d
    /\ Auth.generateAccessToken j (now env) user = Ok tok
    /\ u = Auth.clear_password user
    /\ tok <> bearer.
Proof.
  unfold Auth.SignIn.
  destruct (UserRepo.GetUserByEmail (pg env 0) email d) as [user|e]; [|discriminate].
  destruct (negb (IsActive user)); [discriminate|].
  destruct (negb (CompareHashAndPassword (HashedPassword user) password)); [discriminate|].
  cbn [Auth.generateAccessToken].
  unfold Auth.generateRefreshToken.
  destruct (entropy env) as [randomBytes|] eqn:Hent; [|discriminate].
  unfold UserRepo.StoreRefreshToken.
  destruct (pg env 1 && refresh_insert_ok _ d); [|discriminate].
  intros [= <- <- <-].
  exists user, randomBytes. eexists.
  repeat split; discriminate.
Qed.
End RefreshCredential.

(** C5, as stated, fails: Alice signs in through the handler; the
    response carries one token, the access token, and the refresh bearer
    generated during that sign-in is not in it, while its [token_hash]
    claim is the value the new row stores. *)
Lemma SignIn_bearer_not_returned_counterexample :
  let c := mkCtx (mkRequest "POST" "/api/auth/signin" "10.0.0.1" NoAuthHeader
                    (Some [("email", "alice@example.com"); ("password", "secret1234")]))
                 None [] in
  let '(o, w) := AuthHandler.Signin (bc := demo_bcrypt) (hm := demo_hmac) demo_auth
                   (demo_env 0) c (demo_world demo_db) in
  db w = demo_session_db
  /\ length (outcome_tokens o) = 1%nat
  /\ ~ In demo_refresh_secret (outcome_tokens o)
  /\ map rt_token_hash (refresh_tokens (db w)) = [secret_hash demo_refresh_secret].
Proof.
  vm_compute. repeat split.
  intros [Heq|[]]. discriminate Heq.
Qed.

Lemma SignIn_refresh_record_witness :
  let tok := Jwt.SignedString (hm := demo_hmac) Jwt.SHA256 "secret"
               (Jwt.mkPayload (Some "a11ce000-0000-4000-8000-000000000001") (Some "alice@example.com") (Some "alice") None
                              (Some (1 * Hour)) None (Some 0) (Some "a11ce000-0000-4000-8000-000000000001")) in
  Auth.SignIn (bc := demo_bcrypt) (hm := demo_hmac) demo_auth (demo_env 0)
    "alice@example.com" "secret1234" demo_db
  = (Ok (Auth.clear_password alice, tok), demo_session_db)
  /\ exists user randomBytes bearer,
       entropy (demo_env 0) = Some randomBytes
       /\ Auth.generateRefreshToken (hm := demo_hmac) demo_auth (demo_env 0) user
          = Ok (bearer, hex_EncodeToString randomBytes)
       /\ secret_hash bearer = hex_EncodeToString randomBytes.
Proof.
  intros tok.
  assert (Hs : Auth.SignIn (bc := demo_bcrypt) (hm := demo_hmac) demo_auth (demo_env 0)
                 "alice@example.com" "secret1234" demo_db
               = (Ok (Auth.clear_password alice, tok), demo_session_db)) by reflexivity.
  split; [exact Hs|].
  destruct (SignIn_refresh_record (bc := demo_bcrypt) (hm := demo_hmac) demo_auth (demo_env 0)
              "alice@example.com" "secret1234" demo_db _ _ _ Hs)
    as (user & randomBytes & bearer & H1 & H2 & H3 & _).
  exists user, randomBytes, bearer. auto.
Defined.

(** ** Sign-up, sign-in, session validation *)

Section RoundTrip.
Context {bc : Bcrypt} {hm : Jwt.Hmac}.
Variable j : Auth.JWTAuth.

Lemma filter_none {A} (f : A -> bool) l :
  (forall x, In x l -> f x = false) -> List.filter f l = [].
Proof.
  induction l as [|x l IH]; intros Hall; [reflexivity|].
  cbn. rewrite (Hall x (or_introl eq_refl)). apply IH.
  intros y Hy. apply Hall. right. exact Hy.
Qed.

Lemma filter_last_only {A} (f : A -> bool) l x :
  (forall y, In y l -> f y = false) -> f x = true -> List.filter f (l ++ [x]) = [x].
Proof.
  intros Hall Hx. rewrite List.filter_app, (filter_none f l Hall). cbn. rewrite Hx. reflexivity.
Qed.

Lemma generated_access_token_parses now now' user :
  now' < NewNumericDate (now + Auth.accessTokenTTL j) ->
  exists tok,
    Auth.generateAccessToken j now user = Ok tok
    /\ exists claims, Auth.parseAccessToken j now' tok = Ok claims
                      /\ Auth.c_UserID claims = ID user.
Proof.
  intros Hlt. eexists. split; [reflexivity|].
  unfold Auth.parseAccessToken, Jwt.SignedString, Jwt.ParseWithClaims.
  cbn [Jwt.Alg]. change (Jwt.GetSigningMethod "HS256") with (Some (Jwt.SigningMethodHMAC Jwt.SHA256)).
  cbn [Auth.keyfunc Jwt.Verify]. rewrite String.eqb_refl.
  unfold Jwt.validate_claims, Jwt.verifyExpiresAt, Jwt.verifyNotBefore.
  cbn [Jwt.p_exp Jwt.p_nbf Auth.payload_of_claims Auth.c_ExpiresAt].
    rewrite NewNumericDate_idem.
  apply Z.ltb_lt in Hlt. rewrite Hlt. cbn. eexists. split; reflexivity.
Qed.

(** C9 (amended). For a valid triple whose email no account carries and
    whose user name no account carries, in a run in which the store
    answers and the identifiers and random bytes drawn are fresh:
    [CreateUser] succeeds, a following [SignIn] with the same email and
    password succeeds, and [ValidateSession] accepts the access token it
    returns at every instant before the token's expiry, returning the
    account. *)
Theorem sign_up_sign_in_validate env1 env2 env3 email password username d hash randomBytes :
  valid_triple (salt env1) email password username hash ->
  account_not_found d email ->
  (forall u, In u (users d) -> Username u <> username) ->
  (forall u, In u (users d) -> ID u <> uuid_new env1 0) ->
  pg env1 1 = true ->
  pg env2 0 = true -> pg env2 1 = true ->
  entropy env2 = Some randomBytes ->
  varchar 255 (hex_EncodeToString randomBytes) = true ->
  (forall r, In r (refresh_tokens d) ->
             rt_id r <> uuid_new env2 0
             /\ rt_token_hash r <> hex_EncodeToString randomBytes) ->
  pg env3 0 = true ->
  now env3 < NewNumericDate (now env2 + Auth.accessTokenTTL j) ->
  let user := mkUser (uuid_new env1 0) email username hash true false (now env1) (now env1) in
  exists d1 tok d2,
    Auth.CreateUser j env1 email password username d = (Ok (Auth.clear_password user), d1)
    /\ Auth.SignIn j env2 email password d1 = (Ok (Auth.clear_password user, tok), d2)
    /\ Auth.ValidateSession j env3 tok d2 = Ok (Auth.clear_password user).
Proof.
  intros (Hwe & Hfe & Hwu & Hlu & Htext & Hgen & Hwh & Hcmp).
  intros Hnf Hname Hid Hio1 Hio2 Hio2' Hent Hwr Hfresh Hio3 Hexp user.
  (* sign-up *)
  assert (Hget0 : forall io, exists e, UserRepo.GetUserByEmail io email d = Err e).
  { intros io. destruct (UserRepo.GetUserByEmail io email d) as [u|e] eqn:Hg; [|eauto].
    apply GetUserByEmail_active in Hg as (Hin & He & _). exfalso. exact (Hnf u Hin He). }
  assert (Hins : users_insert_ok user (users d) = true).
  { unfold users_insert_ok. apply andb_true_iff. split.
    - apply List.forallb_forall. intros v Hv.
      rewrite !andb_true_iff, !negb_true_iff, !String.eqb_neq. cbn.
      repeat split; [apply Hid|apply Hnf|apply Hname]; exact Hv.
    - cbn [Email Username HashedPassword user]. rewrite Hwe, Hwu, Hwh, Hlu, Hfe, Htext.
      reflexivity. }
  set (d1 := set_users (fun us => (us ++ [user])%list) d).
  assert (Hcreate : Auth.CreateUser j env1 email password username d
                    = (Ok (Auth.clear_password user), d1)).
  { unfold Auth.CreateUser. destruct (Hget0 (pg env1 0)) as [e ->].
    rewrite Hgen. unfold UserRepo.CreateUser. fold user. rewrite Hio1, Hins. reflexivity. }
  (* sign-in *)
  assert (Hget1 : UserRepo.GetUserByEmail true email d1 = Ok user).
  { unfold UserRepo.GetUserByEmail, d1. cbn [users set_users].
    rewrite filter_last_only; [reflexivity| |cbn; rewrite String.eqb_refl; reflexivity].
    intros y Hy. apply andb_false_iff. left. apply String.eqb_neq. apply Hnf. exact Hy. }
  destruct (generated_access_token_parses (now env2) (now env3) user Hexp)
    as (tok & Htok & claims & Hparse & Hsub).
  set (row := mkRefreshToken (uuid_new env2 0) (ID user) (hex_EncodeToString randomBytes)
                (now env2 + Auth.refreshTokenTTL j) (now env2) None).
  assert (Huser : user_exists (ID user) (users d1) = true).
  { unfold user_exists, d1. cbn [users set_users]. rewrite List.existsb_app. cbn.
    rewrite String.eqb_refl. apply orb_true_iff. right. reflexivity. }
  assert (Hrow : refresh_insert_ok row d1 = true).
  { unfold refresh_insert_ok. apply andb_true_iff. split;
      [|apply andb_true_iff; split; [exact Huser|exact Hwr]].
    apply List.forallb_forall. intros q Hq. destruct (Hfresh q Hq) as [H1 H2].
    rewrite andb_true_iff, !negb_true_iff, !String.eqb_neq. cbn. auto. }
  set (d2 := set_refresh_tokens (fun rs => (rs ++ [row])%list) d1).
  assert (Hsignin : Auth.SignIn j env2 email password d1
                    = (Ok (Auth.clear_password user, tok), d2)).
  { unfold Auth.SignIn. rewrite Hio2, Hget1. cbn [IsActive HashedPassword user negb].
    rewrite Hcmp. cbn [negb]. rewrite Htok.
    unfold Auth.generateRefreshToken. rewrite Hent.
    unfold UserRepo.StoreRefreshToken. fold row. rewrite Hio2', Hrow. reflexivity. }
  (* session validation *)
  assert (Hbyid : UserRepo.GetUserByID true (ID user) d2 = Ok user).
  { unfold UserRepo.GetUserByID, d2, d1. cbn [users set_users set_refresh_tokens].
    rewrite filter_last_only; [reflexivity| |cbn; apply String.eqb_refl].
    intros y Hy. apply String.eqb_neq. apply Hid. exact Hy. }
  exists d1, tok, d2. split; [exact Hcreate|]. split; [exact Hsignin|].
  unfold Auth.ValidateSession. rewrite Hparse, Hsub, Hio3, Hbyid. reflexivity.
Qed.
End RoundTrip.

(** C9, as stated, fails: Carol's triple is valid and no account carries
    her email, yet her sign-up is refused, because the user name she asks
    for is Alice's and the [username] column is UNIQUE. *)
Lemma sign_up_username_taken_counterexample :
  valid_triple (bc := demo_bcrypt) (salt (demo_env 1)) "carol@example.com" "longenough1"
    "alice" "$2a$10$longenough1"
  /\ account_not_found demo_db "carol@example.com"
  /\ exists e, Auth.CreateUser (bc := demo_bcrypt) demo_auth (demo_env 1)
                 "carol@example.com" "longenough1" "alice" demo_db = (Err e, demo_db).
Proof.
  split; [repeat split; vm_compute; reflexivity|]. split.
  - intros u [<-|[<-|[]]]; discriminate.
  - eexists. reflexivity.
Qed.

Lemma sign_up_sign_in_validate_witness :
  let user := mkUser "00000000-0000-4000-8000-0000000000a0" "carol@example.com" "carol" "$2a$10$longenough1" true false 1 1 in
  valid_triple (bc := demo_bcrypt) (salt (demo_env 1)) "carol@example.com" "longenough1"
    "carol" "$2a$10$longenough1"
  /\ account_not_found demo_db "carol@example.com"
  /\ (forall u, In u (users demo_db) -> Username u <> "carol")
  /\ now (demo_env 3) < NewNumericDate (now (demo_env 2) + Auth.accessTokenTTL demo_auth)
  /\ exists d1 tok d2,
       Auth.CreateUser (bc := demo_bcrypt) demo_auth (demo_env 1)
         "carol@example.com" "longenough1" "carol" demo_db
       = (Ok (Auth.clear_password user), d1)
       /\ Auth.SignIn (bc := demo_bcrypt) (hm := demo_hmac) demo_auth (demo_env 2)
            "carol@example.com" "longenough1" d1
          = (Ok (Auth.clear_password user, tok), d2)
       /\ Auth.ValidateSession (hm := demo_hmac) demo_auth (demo_env 3) tok d2
          = Ok (Auth.clear_password user).
Proof.
  intros user.
  assert (Hvalid : valid_triple (bc := demo_bcrypt) (salt (demo_env 1)) "carol@example.com"
                     "longenough1" "carol" "$2a$10$longenough1")
    by (repeat split; vm_compute; reflexivity).
  assert (Hnf : account_not_found demo_db "carol@example.com")
    by (intros u [<-|[<-|[]]]; discriminate).
  assert (Hname : forall u, In u (users demo_db) -> Username u <> "carol")
    by (intros u [<-|[<-|[]]]; discriminate).
  assert (Hid : forall u, In u (users demo_db) -> ID u <> uuid_new (demo_env 1) 0)
    by (intros u [<-|[<-|[]]]; discriminate).
  assert (Hexp : now (demo_env 3) < NewNumericDate (now (demo_env 2) + Auth.accessTokenTTL demo_auth))
    by reflexivity.
  split; [exact Hvalid|]. split; [exact Hnf|]. split; [exact Hname|]. split; [exact Hexp|].
  apply (sign_up_sign_in_validate (bc := demo_bcrypt) (hm := demo_hmac) demo_auth
           (demo_env 1) (demo_env 2) (demo_env 3)
           "carol@example.com" "longenough1" "carol" demo_db
           "$2a$10$longenough1" "0123456789abcdef0123456789abcdef"
           Hvalid Hnf Hname Hid eq_refl eq_refl eq_refl eq_refl eq_refl).
  - intros r [].
  - reflexivity.
  - exact Hexp.
Defined.

(** * Further properties of the code *)

(** ** The table constraints are kept *)

Section SchemaInvariant.

Lemma map_sql_update_key {A B} (f : A -> B) cond set (rows : list A) :
  (forall r, f (set r) = f r) -> map f (sql_update cond set rows) = map f rows.
Proof.
  intros Hk. unfold sql_update. rewrite List.map_map. apply List.map_ext.
  intros r. destruct (cond r); [apply Hk|reflexivity].
Qed.

Lemma NoDup_map_snoc {A B} (f : A -> B) rows x :
  NoDup (map f rows) -> (forall r, In r rows -> f r <> f x) ->
  NoDup (map f (rows ++ [x])).
Proof.
  intros Hnd Hfresh. rewrite List.map_app. cbn.
  apply NoDup_ListNoDup. apply List.NoDup_app.
  - apply NoDup_ListNoDup. exact Hnd.
  - constructor; [intros []|constructor].
  - intros y Hy [<-|[]]. apply List.in_map_iff in Hy as (r & Hfr & Hr).
    exact (Hfresh r Hr Hfr).
Qed.

Lemma user_exists_In id us :
  user_exists id us = true <-> exists v, In v us /\ ID v = id.
Proof.
  unfold user_exists. rewrite List.existsb_exists. split.
  - intros (v & Hv & He). apply String.eqb_eq in He. eauto.
  - intros (v & Hv & He). exists v. split; [exact Hv|]. apply String.eqb_eq. exact He.
Qed.

Lemma user_exists_snoc id us u :
  user_exists id us = true -> user_exists id (us ++ [u]) = true.
Proof.
  unfold user_exists. rewrite List.existsb_app. intros ->. reflexivity.
Qed.

(** An UPDATE of the email (or the user name) of the row with a given
    identifier keeps the column free of duplicates when no other row
    holds the new value. *)
Lemma NoDup_update_column (f : User -> string) cond set us new :
  (forall v, cond v = String.eqb (ID v) new.1) ->
  (forall v, ID (set v) = ID v) ->
  (forall v, f (set v) = new.2) ->
  NoDup (map ID us) -> NoDup (map f us) ->
  (forall v, In v us -> ID v = new.1 \/ f v <> new.2) ->
  NoDup (map f (sql_update cond set us)).
Proof.
  destruct new as [id x]. cbn [fst snd]. intros Hcond Hid Hset.
  induction us as [|v us IH]; intros Hids Hf Hother; [constructor|].
  cbn [map] in Hids, Hf. apply NoDup_cons in Hids as [Hv Hids].
  apply NoDup_cons in Hf as [Hfv Hf].
  assert (Hrest : forall y, In y (map f (sql_update cond set us)) ->
                            (exists w, In w us /\ ID w <> id /\ y = f w)
                            \/ (y = x /\ exists w, In w us /\ ID w = id)).
  { intros y Hy. apply List.in_map_iff in Hy as (w' & <- & Hw').
    apply sql_update_In in Hw' as (w & Hw & ->). rewrite Hcond.
    destruct (String.eqb (ID w) id) eqn:E.
    - right. apply String.eqb_eq in E. rewrite Hset. eauto.
    - left. apply String.eqb_neq in E. eauto. }
  unfold sql_update. cbn [map]. fold (sql_update cond set us).
  apply NoDup_cons. split.
  - rewrite list_elem_of_In. intros Hin.
    apply Hrest in Hin as [(w & Hw & Hne & Heq)|[Heq (w & Hw & Hwid)]].
    + rewrite Hcond in Heq.
      destruct (String.eqb (ID v) id) eqn:E.
      * rewrite Hset in Heq. destruct (Hother w (or_intror Hw)) as [?|Hx]; congruence.
      * apply Hfv. rewrite list_elem_of_In. apply List.in_map_iff. exists w. auto.
    + rewrite Hcond in Heq. destruct (String.eqb (ID v) id) eqn:E.
      * apply String.eqb_eq in E. apply Hv. rewrite list_elem_of_In.
        apply List.in_map_iff. exists w. split; [congruence|exact Hw].
      * apply String.eqb_neq in E. destruct (Hother v (or_introl eq_refl)); congruence.
  - apply IH; [exact Hids|exact Hf|]. intros w Hw. apply Hother. right. exact Hw.
Qed.
Lemma fk_sql_update {A} (uid : A -> UUID) cond set (rows : list A) us :
  (forall r, uid (set r) = uid r) ->
  (forall r, In r rows -> user_exists (uid r) us = true) ->
  forall r, In r (sql_update cond set rows) -> user_exists (uid r) us = true.
Proof.
  intros Hk Hfk r Hin. apply sql_update_In in Hin as (r0 & Hr0 & ->).
  destruct (cond r0); [rewrite Hk|]; apply Hfk; exact Hr0.
Qed.

Lemma db_wf_users_updated d cond set :
  (forall v, ID (set v) = ID v) ->
  (forall v, Email (set v) = Email v) ->
  (forall v, Username (set v) = Username v) ->
  db_wf d -> db_wf (set_users (sql_update cond set) d).
Proof.
  intros Hid He Hn [].
  constructor; cbn [users refresh_tokens email_verifications password_resets set_users];
    rewrite ?map_sql_update_key by assumption; try assumption;
    intros r Hr; rewrite user_exists_sql_update by assumption; auto.
Qed.

Lemma db_wf_single_use_snoc row us rows :
  single_use_insert_ok row us rows = true ->
  NoDup (map su_token rows) ->
  (forall r, In r rows -> user_exists (su_user_id r) us = true) ->
  NoDup (map su_token (rows ++ [row]))
  /\ forall r, In r (rows ++ [row]) -> user_exists (su_user_id r) us = true.
Proof.
  unfold single_use_insert_ok. intros Hok Hnd Hfk.
  apply andb_prop in Hok as [Hf Hu]. apply andb_prop in Hu as [Hu _].
  rewrite List.forallb_forall in Hf. split.
  - apply NoDup_map_snoc; [exact Hnd|]. intros r Hr.
    specialize (Hf r Hr). apply negb_true_iff, String.eqb_neq in Hf. exact Hf.
  - intros r Hr. apply List.in_app_or in Hr as [Hr|[<-|[]]]; auto.
Qed.

Lemma db_wf_verifications_updated d cond now :
  db_wf d ->
  db_wf (set_email_verifications (sql_update cond (VerificationRepo.mark_used now)) d).
Proof.
  intros [].
  constructor; cbn [users refresh_tokens email_verifications password_resets
                    set_email_verifications];
    rewrite ?map_sql_update_key by reflexivity; try assumption.
  apply fk_sql_update; [reflexivity|assumption].
Qed.

Lemma db_wf_resets_updated d cond now :
  db_wf d ->
  db_wf (set_password_resets (sql_update cond (VerificationRepo.mark_used now)) d).
Proof.
  intros [].
  constructor; cbn [users refresh_tokens email_verifications password_resets
                    set_password_resets];
    rewrite ?map_sql_update_key by reflexivity; try assumption.
  apply fk_sql_update; [reflexivity|assumption].
Qed.

Lemma repo_step_wf d d' :
  db_wf d -> repo_step d d' -> db_wf d'.
Proof.
  intros Hwf Hstep. destruct Hstep.
  - (* CreateUser *)
    unfold UserRepo.CreateUser. destruct io; cbn [andb]; [|exact Hwf].
    destruct (users_insert_ok user (users d)) eqn:Hok; [|exact Hwf].
    unfold users_insert_ok in Hok. apply andb_prop in Hok as [Hf _].
    rewrite List.forallb_forall in Hf.
    assert (Hfresh : forall v, In v (users d) ->
              ID v <> ID user /\ Email v <> Email user /\ Username v <> Username user).
    { intros v Hv. specialize (Hf v Hv).
      rewrite !andb_true_iff, !negb_true_iff, !String.eqb_neq in Hf. tauto. }
    destruct Hwf.
    constructor; cbn [snd users refresh_tokens email_verifications password_resets set_users];
      try assumption;
      try (apply NoDup_map_snoc; [assumption|intros v Hv; apply (Hfresh v Hv)]);
      intros r Hr; apply user_exists_snoc; auto.
  - (* UpdateUser *)
    unfold UserRepo.UpdateUser. destruct io; cbn [andb]; [|exact Hwf].
    destruct (UserRepo.users_update_ok user (users d)) eqn:Hok; [|exact Hwf].
    cbn [snd]. unfold UserRepo.users_update_ok in Hok.
    destruct (user_exists (ID user) (users d)) eqn:Hex; cbn [negb orb] in Hok.
    + do 4 (apply andb_prop in Hok as [Hok _]). apply andb_prop in Hok as [Hf _].
      rewrite List.forallb_forall in Hf.
      assert (Hother : forall v, In v (users d) ->
                ID v = ID user \/ (Email v <> Email user /\ Username v <> Username user)).
      { intros v Hv. specialize (Hf v Hv). apply orb_prop in Hf as [Hf|Hf].
        - left. apply String.eqb_eq. exact Hf.
        - right. rewrite andb_true_iff, !negb_true_iff, !String.eqb_neq in Hf. exact Hf. }
      destruct Hwf.
      constructor; cbn [users refresh_tokens email_verifications password_resets set_users];
        try assumption.
      * rewrite map_sql_update_key by reflexivity. assumption.
      * apply (NoDup_update_column Email _ _ _ (ID user, Email user));
          [reflexivity|reflexivity|reflexivity|assumption|assumption|].
        intros v Hv. destruct (Hother v Hv) as [?|[? _]]; auto.
      * apply (NoDup_update_column Username _ _ _ (ID user, Username user));
          [reflexivity|reflexivity|reflexivity|assumption|assumption|].
        intros v Hv. destruct (Hother v Hv) as [?|[_ ?]]; auto.
      * intros r Hr. rewrite user_exists_sql_update by reflexivity. auto.
      * intros r Hr. rewrite user_exists_sql_update by reflexivity. auto.
      * intros r Hr. rewrite user_exists_sql_update by reflexivity. auto.
    + unfold set_users. rewrite sql_update_id; [destruct d; exact Hwf|].
      intros v Hv. destruct (String.eqb (ID v) (ID user)) eqn:E; [|reflexivity].
      apply String.eqb_eq in E.
      assert (user_exists (ID user) (users d) = true) by (apply user_exists_In; eauto).
      congruence.
  - (* UpdatePassword *)
    unfold UserRepo.UpdatePassword.
    match goal with |- context [if ?b then _ else _] => destruct b end; [|exact Hwf].
    cbn [snd]. apply db_wf_users_updated; auto.
  - (* StoreRefreshToken *)
    unfold UserRepo.StoreRefreshToken. destruct io; cbn [andb]; [|exact Hwf].
    destruct (refresh_insert_ok _ d) eqn:Hok; [|exact Hwf].
    unfold refresh_insert_ok in Hok. apply andb_prop in Hok as [Hf Hu].
    apply andb_prop in Hu as [Hu _]. rewrite List.forallb_forall in Hf.
    destruct Hwf.
    constructor; cbn [snd users refresh_tokens email_verifications password_resets
                      set_refresh_tokens]; try assumption.
    + apply NoDup_map_snoc; [assumption|]. intros r Hr. specialize (Hf r Hr).
      rewrite andb_true_iff, !negb_true_iff, !String.eqb_neq in Hf. tauto.
    + apply NoDup_map_snoc; [assumption|]. intros r Hr. specialize (Hf r Hr).
      rewrite andb_true_iff, !negb_true_iff, !String.eqb_neq in Hf. tauto.
    + intros r Hr. apply List.in_app_or in Hr as [Hr|[<-|[]]]; auto.
  - (* RevokeRefreshToken *)
    unfold UserRepo.RevokeRefreshToken. destruct io; [|exact Hwf].
    destruct Hwf.
    constructor; cbn [snd users refresh_tokens email_verifications password_resets
                      set_refresh_tokens];
      rewrite ?map_sql_update_key by reflexivity; try assumption.
    apply fk_sql_update; [reflexivity|assumption].
  - (* UpdateLastLogin *)
    unfold UserRepo.UpdateLastLogin. destruct io; exact Hwf.
  - (* StoreVerificationToken *)
    unfold VerificationRepo.StoreVerificationToken. destruct io; cbn [andb]; [|exact Hwf].
    destruct (single_use_insert_ok _ _ _) eqn:Hok; [|exact Hwf].
    destruct Hwf.
    destruct (db_wf_single_use_snoc _ _ _ Hok wf_verification_tokens0 wf_verification_fk0).
    constructor; cbn [snd users refresh_tokens email_verifications password_resets
                      set_email_verifications]; assumption.
  - (* MarkEmailVerified *)
    match goal with |- context [VerificationRepo.MarkEmailVerified ?i ?n ?u ?x] =>
      destruct (MarkEmailVerified_cases i n u x) as [[_ ->] | [_ [e ->]]] end; [|exact Hwf].
    cbn [snd]. unfold VerificationRepo.updateTokenQuery, VerificationRepo.updateUserQuery.
    apply db_wf_verifications_updated. apply db_wf_users_updated; auto.
  - (* StorePasswordResetToken *)
    unfold VerificationRepo.StorePasswordResetToken. destruct io; cbn [andb]; [|exact Hwf].
    destruct (single_use_insert_ok _ _ _) eqn:Hok; [|exact Hwf].
    destruct Hwf.
    destruct (db_wf_single_use_snoc _ _ _ Hok wf_reset_tokens0 wf_reset_fk0).
    constructor; cbn [snd users refresh_tokens email_verifications password_resets
                      set_password_resets]; assumption.
  - (* RevokePasswordResetToken *)
    unfold VerificationRepo.RevokePasswordResetToken. destruct io; [|exact Hwf].
    cbn [snd]. apply db_wf_resets_updated. exact Hwf.
Qed.

Lemma repo_steps_wf d d' :
  db_wf d -> repo_steps d d' -> db_wf d'.
Proof.
  intros Hwf Hsteps. induction Hsteps as [|d1 d2 _ IH Hstep]; [exact Hwf|].
  eapply repo_step_wf; eassumption.
Qed.

Lemma empty_db_wf : db_wf empty_db.
Proof. constructor; cbn; try constructor; intros r []. Qed.

(** X1. The constraints of the schema hold of the empty tables and are
    kept by every sequence of repository calls, succeeding or refused:
    identifiers, emails, user names, refresh hashes and single-use tokens
    stay pairwise distinct and every token row references an account. *)
Theorem schema_constraints_kept d d' :
  db_wf empty_db /\ (db_wf d -> repo_steps d d' -> db_wf d').
Proof.
  split.
  - constructor; cbn; try constructor; intros r [].
  - intros Hwf Hsteps. induction Hsteps as [|d1 d2 _ IH Hstep]; [exact Hwf|].
    apply (repo_step_wf d1 d2 IH Hstep).
Qed.
End SchemaInvariant.

Lemma demo_db_wf : db_wf demo_db.
Proof.
  constructor; cbn;
    try (apply NoDup_ListNoDup; repeat constructor; cbn; intuition discriminate).
  - intros r [].
  - intros r [<-|[]]. reflexivity.
  - intros r [<-|[]]. reflexivity.
Qed.

Lemma schema_constraints_kept_witness :
  let d' := snd (UserRepo.CreateUser true
                   (mkUser "da7e0000-0000-4000-8000-000000000009" "dave@example.com" "dave" "$2a$10$x" true false 1 1) demo_db) in
  db_wf demo_db /\ repo_steps demo_db d' /\ db_wf d'.
Proof.
  intros d'.
  assert (Hs : repo_steps demo_db d')
    by (eapply steps_then; [apply steps_refl|apply step_CreateUser]).
  split; [exact demo_db_wf|]. split; [exact Hs|].
  exact (proj2 (schema_constraints_kept demo_db d') demo_db_wf Hs).
Defined.

(** ** Accounts: insertion, lookup, what the service hands out *)

Section Accounts.
Context {bc : Bcrypt} {hm : Jwt.Hmac}.
Variable j : Auth.JWTAuth.

Lemma insert_ok_fresh user us :
  users_insert_ok user us = true ->
  forall v, In v us ->
    ID v <> ID user /\ Email v <> Email user /\ Username v <> Username user.
Proof.
  unfold users_insert_ok. intros Hok v Hv.
  apply andb_prop in Hok as [Hf _]. rewrite List.forallb_forall in Hf.
  specialize (Hf v Hv). rewrite !andb_true_iff, !negb_true_iff, !String.eqb_neq in Hf. tauto.
Qed.


(** X3. No account the service returns carries the password hash:
    sign-up, sign-in, refresh and session validation all blank it. *)
Theorem service_never_returns_password_hash env d :
  (forall email password username u d',
      Auth.CreateUser j env email password username d = (Ok u, d') -> HashedPassword u = "")
  /\ (forall email password u tok d',
        Auth.SignIn j env email password d = (Ok (u, tok), d') -> HashedPassword u = "")
  /\ (forall secret u tok d',
        Auth.RefreshSession j env secret d = (Ok (u, tok), d') -> HashedPassword u = "")
  /\ (forall tok u, Auth.ValidateSession j env tok d = Ok u -> HashedPassword u = "").
Proof.
  repeat split; intros *.
  - unfold Auth.CreateUser.
    destruct (UserRepo.GetUserByEmail _ _ _); [discriminate|].
    destruct (GenerateFromPassword _ _); [|discriminate].
    destruct (UserRepo.CreateUser _ _ _) as [[?|?] ?]; [|discriminate].
    intros [= <- _]. reflexivity.
  - unfold Auth.SignIn.
    destruct (UserRepo.GetUserByEmail _ _ _) as [user|]; [|discriminate].
    destruct (negb (IsActive user)); [discriminate|].
    destruct (negb (CompareHashAndPassword _ _)); [discriminate|].
    cbn [Auth.generateAccessToken].
    destruct (Auth.generateRefreshToken j env user) as [[? ?]|]; [|discriminate].
    destruct (UserRepo.StoreRefreshToken _ _ _ _ _ _ _) as [[?|?] ?]; [|discriminate].
    intros [= <- _ _]. reflexivity.
  - unfold Auth.RefreshSession.
    destruct (Auth.parseRefreshToken _ _ _); [|discriminate].
    destruct (UserRepo.ValidateRefreshToken _ _ _ _); [|discriminate].
    cbn [Auth.generateAccessToken]. intros [= <- _ _]. reflexivity.
  - unfold Auth.ValidateSession.
    destruct (Auth.parseAccessToken _ _ _); [|discriminate].
    destruct (UserRepo.GetUserByID _ _ _) as [user|]; [|discriminate].
    destruct (negb (IsActive user)); [discriminate|].
    intros [= <-]. reflexivity.
Qed.

(** X4. A sign-in only succeeds on credentials that match: the tables
    then hold an active account with that email whose stored hash
    verifies the password, it is the account returned, and both store
    calls completed. *)
Theorem SignIn_sound env email password d u tok d' :
  Auth.SignIn j env email password d = (Ok (u, tok), d') ->
  exists user,
    In user (users d) /\ Email user = email /\ IsActive user = true
    /\ CompareHashAndPassword (HashedPassword user) password = true
    /\ u = Auth.clear_password user
    /\ pg env 0 = true /\ pg env 1 = true.
Proof.
  unfold Auth.SignIn.
  destruct (UserRepo.GetUserByEmail (pg env 0) email d) as [user|] eqn:Hget; [|discriminate].
  assert (Hio : pg env 0 = true).
  { revert Hget. unfold UserRepo.GetUserByEmail, QueryRow. destruct (pg env 0); [auto|discriminate]. }
  apply GetUserByEmail_active in Hget as (Hin & He & Ha). rewrite Ha. cbn [negb].
  destruct (CompareHashAndPassword (HashedPassword user) password) eqn:Hc; [|discriminate].
  cbn [negb Auth.generateAccessToken].
  destruct (Auth.generateRefreshToken j env user) as [[? ?]|]; [|discriminate].
  unfold UserRepo.StoreRefreshToken. destruct (pg env 1); [|discriminate].
  cbn [andb]. destruct (refresh_insert_ok _ d); [|discriminate].
  intros [= <- _ _]. exists user. auto 10.
Qed.

(** X5. A sign-up for an email an active account carries is refused with
    [ErrUserExists]; for an email only an inactive account carries, the
    lookup misses it, the INSERT is refused by the UNIQUE email column and
    the sign-up fails with an internal error instead. Either way the
    tables are unchanged. *)
Theorem CreateUser_email_taken env email password username d v :
  In v (users d) -> Email v = email ->
  (IsActive v = true -> pg env 0 = true ->
   Auth.CreateUser j env email password username d = (Err ErrUserExists, d))
  /\ ((forall w, In w (users d) -> Email w = email -> IsActive w = false) ->
      exists e, Auth.CreateUser j env email password username d = (Err e, d)
                /\ error_class e = InternalFailure).
Proof.
  intros Hv He. split.
  - intros Ha Hio. unfold Auth.CreateUser, UserRepo.GetUserByEmail, QueryRow. rewrite Hio.
    destruct (List.filter _ (users d)) as [|x rest] eqn:Hf; [|reflexivity].
    exfalso.
    assert (Hin : In v (List.filter (fun u => String.eqb (Email u) email && IsActive u)
                          (users d))).
    { apply List.filter_In. split; [exact Hv|]. rewrite He, String.eqb_refl, Ha. reflexivity. }
    rewrite Hf in Hin. destruct Hin.
  - intros Hall. unfold Auth.CreateUser.
    destruct (UserRepo.GetUserByEmail (pg env 0) email d) as [u|e0] eqn:Hget.
    + apply GetUserByEmail_active in Hget as (Hin & Hue & Hua).
      rewrite (Hall u Hin Hue) in Hua. discriminate.
    + destruct (GenerateFromPassword password (salt env)); [|eexists; split; reflexivity].
      unfold UserRepo.CreateUser.
      match goal with |- context [users_insert_ok ?u ?us] =>
        assert (Hno : users_insert_ok u us = false) end.
      { destruct (users_insert_ok _ _) eqn:Hok; [|reflexivity]. exfalso.
        destruct (insert_ok_fresh _ _ Hok v Hv) as (_ & Hne & _). apply Hne. exact He. }
      rewrite Hno, andb_false_r. eexists. split; [reflexivity|].
      destruct (pg env 1); reflexivity.
Qed.
End Accounts.


Lemma service_never_returns_password_hash_witness :
  exists u tok d',
    Auth.SignIn (bc := demo_bcrypt) (hm := demo_hmac) demo_auth (demo_env 0)
      "alice@example.com" "secret1234" demo_db = (Ok (u, tok), d')
    /\ HashedPassword u = "".
Proof.
  eexists _, _, _.
  assert (Hs : Auth.SignIn (bc := demo_bcrypt) (hm := demo_hmac) demo_auth (demo_env 0)
                 "alice@example.com" "secret1234" demo_db
               = (Ok (Auth.clear_password alice,
                      Jwt.SignedString (hm := demo_hmac) Jwt.SHA256 "secret"
                        (Auth.payload_of_claims
                           (Auth.mkClaims "a11ce000-0000-4000-8000-000000000001" "alice@example.com" "alice"
                              (Some (1 * Hour)) (Some 0) "a11ce000-0000-4000-8000-000000000001"))),
                  demo_session_db)) by reflexivity.
  split; [exact Hs|].
  exact (proj1 (proj2 (service_never_returns_password_hash (bc := demo_bcrypt)
                         (hm := demo_hmac) demo_auth (demo_env 0) demo_db))
               _ _ _ _ _ Hs).
Defined.

Lemma SignIn_sound_witness :
  exists u tok d' user,
    Auth.SignIn (bc := demo_bcrypt) (hm := demo_hmac) demo_auth (demo_env 0)
      "alice@example.com" "secret1234" demo_db = (Ok (u, tok), d')
    /\ In user (users demo_db) /\ Email user = "alice@example.com".
Proof.
  assert (Hs : Auth.SignIn (bc := demo_bcrypt) (hm := demo_hmac) demo_auth (demo_env 0)
                 "alice@example.com" "secret1234" demo_db
               = (Ok (Auth.clear_password alice,
                      Jwt.SignedString (hm := demo_hmac) Jwt.SHA256 "secret"
                        (Auth.payload_of_claims
                           (Auth.mkClaims "a11ce000-0000-4000-8000-000000000001" "alice@example.com" "alice"
                              (Some (1 * Hour)) (Some 0) "a11ce000-0000-4000-8000-000000000001"))),
                  demo_session_db)) by reflexivity.
  destruct (SignIn_sound (bc := demo_bcrypt) (hm := demo_hmac) demo_auth (demo_env 0)
              "alice@example.com" "secret1234" demo_db _ _ _ Hs)
    as (user & Hin & He & _).
  eexists _, _, _, user. split; [exact Hs|]. auto.
Defined.

Lemma CreateUser_email_taken_witness :
  In alice (users demo_db) /\ Email alice = "alice@example.com"
  /\ Auth.CreateUser (bc := demo_bcrypt) demo_auth (demo_env 1)
       "alice@example.com" "another-pass" "alice2" demo_db = (Err ErrUserExists, demo_db).
Proof.
  assert (Hin : In alice (users demo_db)) by (left; reflexivity).
  split; [exact Hin|]. split; [reflexivity|].
  exact (proj1 (CreateUser_email_taken (bc := demo_bcrypt) demo_auth (demo_env 1)
                  "alice@example.com" "another-pass" "alice2" demo_db alice Hin eq_refl)
               eq_refl eq_refl).
Defined.

(** ** Deactivation and the lifetime of tokens *)

Section Sessions.
Context {bc : Bcrypt} {hm : Jwt.Hmac}.
Variable j : Auth.JWTAuth.

Lemma NoDup_map_eq {A B} (f : A -> B) l a b :
  NoDup (map f l) -> In a l -> In b l -> f a = f b -> a = b.
Proof.
  induction l as [|x l IH]; intros Hnd Ha Hb Hf; [destruct Ha|].
  cbn [map] in Hnd. apply NoDup_cons in Hnd as [Hx Hnd].
  rewrite list_elem_of_In in Hx.
  destruct Ha as [<-|Ha]; destruct Hb as [<-|Hb]; auto.
  - exfalso. apply Hx. rewrite Hf. apply List.in_map. exact Hb.
  - exfalso. apply Hx. rewrite <- Hf. apply List.in_map. exact Ha.
Qed.

Lemma GetUserByID_Ok io id d u :
  UserRepo.GetUserByID io id d = Ok u -> In u (users d) /\ ID u = id /\ io = true.
Proof.
  unfold UserRepo.GetUserByID.
  destruct (QueryRow io _) as [v|e] eqn:Hq; [|destruct e; discriminate].
  intros [= ->]. apply QueryRow_Ok in Hq as [Hio Hin].
  apply List.filter_In in Hin as [Hin He]. apply String.eqb_eq in He. auto.
Qed.

Lemma ValidateRefreshToken_Ok io now h d u :
  UserRepo.ValidateRefreshToken io now h d = Ok u ->
  exists r, In r (refresh_tokens d) /\ rt_token_hash r = h /\ now < rt_expires_at r
            /\ rt_revoked_at r = None
            /\ In u (users d) /\ ID u = rt_user_id r /\ IsActive u = true.
Proof.
  unfold UserRepo.ValidateRefreshToken.
  destruct (QueryRow io _) as [v|e] eqn:Hq; [|destruct e; discriminate].
  intros [= ->]. apply QueryRow_Ok in Hq as [_ Hin].
  apply join_users_In in Hin as (r & Hr & Hc & Hu & Hid & Ha).
  apply andb_prop in Hc as [Hc Hn]. apply andb_prop in Hc as [Hh He].
  apply String.eqb_eq in Hh. apply Z.ltb_lt in He.
  destruct (rt_revoked_at r) eqn:Hrev; [discriminate|].
  exists r. auto 10.
Qed.

(** X6. Once [DeleteUser] has returned [nil] for an account, the account
    is inactive and its sessions are over at once: a sign-in with its email
    is refused with [ErrInvalidCredentials], no access token naming it
    passes [ValidateSession], and no refresh record of it is validated. *)
Theorem DeleteUser_ends_sessions env id d d' :
  db_wf d ->
  Auth.DeleteUser j env id d = (Ok tt, d') ->
  (forall u, In u (users d') -> ID u = id -> IsActive u = false)
  /\ (forall env' u password,
        In u (users d) -> ID u = id ->
        Auth.SignIn j env' (Email u) password d' = (Err ErrInvalidCredentials, d'))
  /\ (forall env' tok claims,
        Auth.parseAccessToken j (now env') tok = Ok claims -> Auth.c_UserID claims = id ->
        is_ok (Auth.ValidateSession j env' tok d') = false)
  /\ (forall io now' r,
        In r (refresh_tokens d) -> rt_user_id r = id ->
        is_ok (UserRepo.ValidateRefreshToken io now' (rt_token_hash r) d') = false).
Proof.
  intros Hwf. unfold Auth.DeleteUser.
  destruct (UserRepo.GetUserByID (pg env 0) id d) as [user0|] eqn:Hget; [|discriminate].
  apply GetUserByID_Ok in Hget as (Hin0 & Hid0 & _).
  unfold UserRepo.UpdateUser. cbn [ID Email Username IsActive IsVerified].
  destruct (pg env 1 && _); [|discriminate].
  intros [= <-].
  assert (Hinactive : forall u, In u (users (set_users
             (sql_update (fun v => String.eqb (ID v) (ID user0))
                (fun v => mkUser (ID v) (Email user0) (Username user0) (HashedPassword v)
                                 false (IsVerified user0) (CreatedAt v) (now env))) d)) ->
             (ID u = id /\ IsActive u = false) \/ (In u (users d) /\ ID u <> id)).
  { cbn [users set_users]. intros u Hu. apply sql_update_In in Hu as (u0 & Hu0 & ->).
    destruct (String.eqb (ID u0) (ID user0)) eqn:E.
    - left. apply String.eqb_eq in E. cbn. split; congruence.
    - right. apply String.eqb_neq in E. split; [exact Hu0|congruence]. }
  split; [|split; [|split]].
  - intros u Hu Hid. destruct (Hinactive u Hu) as [[_ ?]|[_ ?]]; [assumption|contradiction].
  - intros env' u password Hu Hid. apply SignIn_refused. intros v Hv Hev. left.
    destruct (Hinactive v Hv) as [[_ ?]|[Hvd Hne]]; [assumption|].
    exfalso. apply Hne. rewrite <- Hid. f_equal.
    apply (NoDup_map_eq Email (users d)); [apply Hwf|assumption|assumption|exact Hev].
  - intros env' tok claims Hp Hc. unfold Auth.ValidateSession. rewrite Hp, Hc.
    destruct (UserRepo.GetUserByID (pg env' 0) id _) as [v|] eqn:Hg; [|reflexivity].
    apply GetUserByID_Ok in Hg as (Hv & Hvid & _).
    destruct (Hinactive v Hv) as [[_ Ha]|[_ Hne]]; [rewrite Ha; reflexivity|contradiction].
  - intros io now' r Hr Hrid.
    destruct (UserRepo.ValidateRefreshToken io now' (rt_token_hash r) _) as [v|] eqn:Hv;
      [|reflexivity].
    exfalso. apply ValidateRefreshToken_Ok in Hv as (r' & Hr' & Hh & _ & _ & Hvin & Hvid & Hva).
    cbn [refresh_tokens set_users] in Hr'.
    assert (r' = r) as -> by (apply (NoDup_map_eq rt_token_hash (refresh_tokens d));
                               [apply Hwf|assumption|assumption|exact Hh]).
    destruct (Hinactive v Hvin) as [[_ Ha]|[_ Hne]]; congruence.
Qed.

(** X7. An access token issued at [now] is accepted by [parseAccessToken]
    exactly at the instants before its expiry, the issue instant plus the
    lifetime truncated to the second: it is accepted up to one second
    short of the configured lifetime and refused from the lifetime on. *)
Theorem access_token_lifetime now now' user :
  exists tok,
    Auth.generateAccessToken j now user = Ok tok
    /\ is_ok (Auth.parseAccessToken j now' tok)
       = (now' <? NewNumericDate (now + Auth.accessTokenTTL j))
    /\ (now' <= now + Auth.accessTokenTTL j - Second ->
        is_ok (Auth.parseAccessToken j now' tok) = true)
    /\ (now + Auth.accessTokenTTL j <= now' ->
        is_ok (Auth.parseAccessToken j now' tok) = false).
Proof.
  eexists. split; [reflexivity|].
  assert (Hok : is_ok (Auth.parseAccessToken j now'
                         (Jwt.SignedString Jwt.SHA256 (Auth.secretKey j)
                            (Auth.payload_of_claims
                               (Auth.mkClaims (ID user) (Email user) (Username user)
                                  (Some (NewNumericDate (now + Auth.accessTokenTTL j)))
                                  (Some (NewNumericDate now)) (ID user)))))
                = (now' <? NewNumericDate (now + Auth.accessTokenTTL j))).
  { unfold Auth.parseAccessToken, Jwt.SignedString, Jwt.ParseWithClaims.
    cbn [Jwt.Alg].
    change (Jwt.GetSigningMethod "HS256") with (Some (Jwt.SigningMethodHMAC Jwt.SHA256)).
    cbn [Auth.keyfunc Jwt.Verify]. rewrite String.eqb_refl.
    unfold Jwt.validate_claims, Jwt.verifyExpiresAt, Jwt.verifyNotBefore.
    cbn [Jwt.p_exp Jwt.p_nbf Auth.payload_of_claims Auth.c_ExpiresAt].
    rewrite NewNumericDate_idem.
    destruct (now' <? NewNumericDate (now + Auth.accessTokenTTL j)); reflexivity. }
  pose proof (NewNumericDate_bounds (now + Auth.accessTokenTTL j)) as Hb.
  split; [exact Hok|]. split; intros Hle; rewrite Hok.
  - apply Z.ltb_lt. lia.
  - apply Z.ltb_ge. lia.
Qed.

(** X8. The two kinds of token are not told apart: the refresh bearer
    generated at a sign-in parses as an access token naming the same
    account until the refresh expiry, and an access token parses as a
    refresh token whose hash is empty. *)
Theorem token_kinds_interchangeable env user bearer tokenHash tok now' :
  Auth.generateRefreshToken j env user = Ok (bearer, tokenHash) ->
  Auth.generateAccessToken j (now env) user = Ok tok ->
  (now' < NewNumericDate (now env + Auth.refreshTokenTTL j) ->
   exists claims, Auth.parseAccessToken j now' bearer = Ok claims
                  /\ Auth.c_UserID claims = ID user)
  /\ (now' < NewNumericDate (now env + Auth.accessTokenTTL j) ->
      exists claims, Auth.parseRefreshToken j now' tok = Ok claims
                     /\ Auth.r_UserID claims = ID user /\ Auth.r_TokenHash claims = "").
Proof.
  unfold Auth.generateRefreshToken. destruct (entropy env); [|discriminate].
  intros [= <- _]. cbn [Auth.generateAccessToken]. intros [= <-].
  split; intros Hlt; apply Z.ltb_lt in Hlt.
  - unfold Auth.parseAccessToken, Jwt.SignedString, Jwt.ParseWithClaims. cbn [Jwt.Alg].
    change (Jwt.GetSigningMethod "HS256") with (Some (Jwt.SigningMethodHMAC Jwt.SHA256)).
    cbn [Auth.keyfunc Jwt.Verify]. rewrite String.eqb_refl.
    unfold Jwt.validate_claims, Jwt.verifyExpiresAt, Jwt.verifyNotBefore.
    cbn [Jwt.p_exp Jwt.p_nbf Auth.payload_of_refresh_claims Auth.r_ExpiresAt].
    rewrite NewNumericDate_idem.
    rewrite Hlt. cbn. eexists. split; reflexivity.
  - unfold Auth.parseRefreshToken, Jwt.SignedString, Jwt.ParseWithClaims. cbn [Jwt.Alg].
    change (Jwt.GetSigningMethod "HS256") with (Some (Jwt.SigningMethodHMAC Jwt.SHA256)).
    cbn [Auth.keyfunc Jwt.Verify]. rewrite String.eqb_refl.
    unfold Jwt.validate_claims, Jwt.verifyExpiresAt, Jwt.verifyNotBefore.
    cbn [Jwt.p_exp Jwt.p_nbf Auth.payload_of_claims Auth.c_ExpiresAt].
    rewrite NewNumericDate_idem.
    rewrite Hlt. cbn. eexists. repeat split; reflexivity.
Qed.
End Sessions.

Lemma DeleteUser_ends_sessions_witness :
  let d' := snd (Auth.DeleteUser demo_auth (demo_env 5) "a11ce000-0000-4000-8000-000000000001" demo_db) in
  db_wf demo_db
  /\ Auth.DeleteUser demo_auth (demo_env 5) "a11ce000-0000-4000-8000-000000000001" demo_db = (Ok tt, d')
  /\ Auth.SignIn (bc := demo_bcrypt) (hm := demo_hmac) demo_auth (demo_env 6)
       "alice@example.com" "secret1234" d' = (Err ErrInvalidCredentials, d').
Proof.
  intros d'.
  assert (Hd : Auth.DeleteUser demo_auth (demo_env 5) "a11ce000-0000-4000-8000-000000000001" demo_db = (Ok tt, d'))
    by reflexivity.
  split; [exact demo_db_wf|]. split; [exact Hd|].
  exact (proj1 (proj2 (DeleteUser_ends_sessions (bc := demo_bcrypt) (hm := demo_hmac)
                         demo_auth (demo_env 5) "a11ce000-0000-4000-8000-000000000001" demo_db d' demo_db_wf Hd))
               (demo_env 6) alice "secret1234" (or_introl eq_refl) eq_refl).
Defined.

Lemma token_kinds_interchangeable_witness :
  exists bearer tokenHash claims,
    Auth.generateRefreshToken (hm := demo_hmac) demo_auth (demo_env 0) alice
    = Ok (bearer, tokenHash)
    /\ Auth.parseAccessToken (hm := demo_hmac) demo_auth (2 * Hour) bearer = Ok claims
    /\ Auth.c_UserID claims = "a11ce000-0000-4000-8000-000000000001".
Proof.
  assert (Hg : Auth.generateRefreshToken (hm := demo_hmac) demo_auth (demo_env 0) alice
               = Ok (demo_refresh_secret,
                     hex_EncodeToString "0123456789abcdef0123456789abcdef")) by reflexivity.
  destruct (proj1 (token_kinds_interchangeable (hm := demo_hmac) demo_auth (demo_env 0)
                     alice _ _ _ (2 * Hour) Hg eq_refl) eq_refl) as (claims & Hp & Hu).
  eexists _, _, claims. split; [exact Hg|]. split; [exact Hp|exact Hu].
Defined.

(** ** Flows across several calls *)

Section Flows.
Context {bc : Bcrypt} {hm : Jwt.Hmac}.
Variable j : Auth.JWTAuth.

Lemma QueryRow_unique {A} (l : list A) u :
  In u l -> (forall v, In v l -> v = u) -> QueryRow true l = Ok u.
Proof.
  destruct l as [|x l]; [intros []|]. intros _ Hall. cbn. f_equal.
  apply Hall. left. reflexivity.
Qed.

Lemma join_users_intro {A} (uid : A -> UUID) cond ucond us (rows : list A) r u :
  In r rows -> cond r = true -> In u us -> ID u = uid r -> ucond u = true ->
  In u (join_users uid cond ucond us rows).
Proof.
  intros Hr Hc Hu Hid Huc. unfold join_users. apply List.in_flat_map. exists r.
  split; [exact Hr|]. rewrite Hc. apply List.filter_In. split; [exact Hu|].
  rewrite Hid, String.eqb_refl. exact Huc.
Qed.

(** The join on a row whose key is unique in its table and whose account
    identifier is unique among the accounts has at most that one result. *)
Lemma join_unique_row {A B} (uid : A -> UUID) (key : A -> B) cond ucond us (rows : list A) r u :
  NoDup (map ID us) -> NoDup (map key rows) ->
  (forall x, In x rows -> cond x = true -> key x = key r) ->
  In r rows -> In u us -> ID u = uid r ->
  QueryRow true (join_users uid cond ucond us rows)
  = if cond r && ucond u then Ok u else Err PgErrNoRows.
Proof.
  intros Hids Hkeys Hkey Hr Hu Hid.
  assert (Hall : forall v, In v (join_users uid cond ucond us rows) ->
                           v = u /\ cond r = true /\ ucond u = true).
  { intros v Hv. apply join_users_In in Hv as (r' & Hr' & Hc & Hv & Hvid & Huc).
    assert (r' = r) as -> by (apply (NoDup_map_eq key rows); auto).
    assert (v = u) as -> by (apply (NoDup_map_eq ID us); auto; congruence).
    auto. }
  destruct (cond r && ucond u) eqn:E.
  - apply andb_prop in E as [Hc Huc]. apply QueryRow_unique.
    + eapply join_users_intro; eauto.
    + intros v Hv. apply Hall, Hv.
  - destruct (join_users uid cond ucond us rows) as [|v rest]; [reflexivity|].
    destruct (Hall v (or_introl eq_refl)) as (_ & Hc & Huc).
    rewrite Hc, Huc in E. discriminate.
Qed.

Lemma GetUserByID_row d u :
  db_wf d -> In u (users d) -> UserRepo.GetUserByID true (ID u) d = Ok u.
Proof.
  intros Hwf Hu. unfold UserRepo.GetUserByID. rewrite (QueryRow_unique _ u); [reflexivity| |].
  - apply List.filter_In. split; [exact Hu|apply String.eqb_refl].
  - intros v Hv. apply List.filter_In in Hv as [Hv He]. apply String.eqb_eq in He.
    apply (NoDup_map_eq ID (users d)); [apply Hwf|assumption|assumption|exact He].
Qed.

Lemma ValidateRefreshToken_row now' d r u :
  db_wf d -> In r (refresh_tokens d) -> In u (users d) -> ID u = rt_user_id r ->
  UserRepo.ValidateRefreshToken true now' (rt_token_hash r) d
  = if (now' <? rt_expires_at r) && is_null (rt_revoked_at r) && IsActive u
    then Ok u else Err ErrInvalidToken.
Proof.
  intros Hwf Hr Hu Hid. unfold UserRepo.ValidateRefreshToken.
  rewrite (join_unique_row rt_user_id rt_token_hash _ _ _ _ r u);
    [|apply Hwf|apply Hwf| |exact Hr|exact Hu|exact Hid].
  - rewrite String.eqb_refl. cbn [andb].
    destruct ((now' <? rt_expires_at r) && is_null (rt_revoked_at r) && IsActive u);
      reflexivity.
  - intros x _ Hc. apply andb_prop in Hc as [Hc _]. apply andb_prop in Hc as [Hc _].
    apply String.eqb_eq in Hc. exact Hc.
Qed.

Lemma ValidateVerificationToken_row now' d r u :
  db_wf d -> In r (email_verifications d) -> In u (users d) -> ID u = su_user_id r ->
  VerificationRepo.ValidateVerificationToken true now' (su_token r) d
  = if (now' <? su_expires_at r) && is_null (su_used_at r)
    then Ok u else Err ErrInvalidToken.
Proof.
  intros Hwf Hr Hu Hid. unfold VerificationRepo.ValidateVerificationToken.
  rewrite (join_unique_row su_user_id su_token _ _ _ _ r u);
    [|apply Hwf|apply Hwf| |exact Hr|exact Hu|exact Hid].
  - unfold VerificationRepo.token_live. rewrite String.eqb_refl, andb_true_r. cbn [andb].
    destruct ((now' <? su_expires_at r) && is_null (su_used_at r)); reflexivity.
  - intros x _ Hc. apply token_live_true in Hc as [Hc _]. exact Hc.
Qed.


Lemma generated_refresh_token_parses env user now' bytes :
  entropy env = Some bytes ->
  now' < NewNumericDate (now env + Auth.refreshTokenTTL j) ->
  exists bearer claims,
    Auth.generateRefreshToken j env user = Ok (bearer, hex_EncodeToString bytes)
    /\ Auth.parseRefreshToken j now' bearer = Ok claims
    /\ Auth.r_TokenHash claims = hex_EncodeToString bytes
    /\ Auth.r_UserID claims = ID user.
Proof.
  intros He Hlt. unfold Auth.generateRefreshToken. rewrite He.
  eexists _, _. split; [reflexivity|].
  unfold Auth.parseRefreshToken, Jwt.SignedString, Jwt.ParseWithClaims. cbn [Jwt.Alg].
  change (Jwt.GetSigningMethod "HS256") with (Some (Jwt.SigningMethodHMAC Jwt.SHA256)).
  cbn [Auth.keyfunc Jwt.Verify]. rewrite String.eqb_refl.
  unfold Jwt.validate_claims, Jwt.verifyExpiresAt, Jwt.verifyNotBefore.
  cbn [Jwt.p_exp Jwt.p_nbf Auth.payload_of_refresh_claims Auth.r_ExpiresAt].
    rewrite NewNumericDate_idem.
  apply Z.ltb_lt in Hlt. rewrite Hlt. cbn. repeat split; reflexivity.
Qed.

Lemma service_call_wf env d :
  db_wf d ->
  (forall email password, db_wf (snd (Auth.SignIn j env email password d)))
  /\ (forall email, db_wf (snd (fst (Auth.SendVerificationEmail j env email d))))
  /\ (forall email, db_wf (snd (fst (Auth.RequestPasswordReset j env email d))))
  /\ (forall token newPassword, db_wf (snd (Auth.ResetPassword j env token newPassword d))).
Proof.
  intros Hwf.
  destruct (service_calls_are_repo_steps j env d) as (_ & H1 & _ & _ & _ & _ & H2 & H3 & H4).
  split; [|split; [|split]]; intros; eapply repo_steps_wf; eauto.
Qed.

(** X9. The session a sign-in opens can be refreshed: with the tables
    satisfying the schema, at every instant before the expiry of the
    bearer generated at the sign-in, [RefreshSession] on that bearer returns
    the account and a new access token, writes nothing (the bearer is not
    rotated), and [ValidateSession] accepts the new token until its own
    expiry. *)
Theorem SignIn_then_RefreshSession env env' email password d u tok d1 :
  db_wf d ->
  Auth.SignIn j env email password d = (Ok (u, tok), d1) ->
  pg env' 0 = true ->
  now env' < NewNumericDate (now env + Auth.refreshTokenTTL j) ->
  exists user bearer tokenHash tok',
    In user (users d) /\ u = Auth.clear_password user
    /\ Auth.generateRefreshToken j env user = Ok (bearer, tokenHash)
    /\ Auth.RefreshSession j env' bearer d1 = (Ok (u, tok'), d1)
    /\ forall env'',
         pg env'' 0 = true ->
         now env'' < NewNumericDate (now env' + Auth.accessTokenTTL j) ->
         Auth.ValidateSession j env'' tok' d1 = Ok u.
Proof.
  intros Hwf Hsi Hpg Hlt.
  assert (Hwf1 : db_wf d1).
  { pose proof (proj1 (service_call_wf env d Hwf) email password) as H.
    rewrite Hsi in H. exact H. }
  revert Hsi. unfold Auth.SignIn.
  destruct (UserRepo.GetUserByEmail (pg env 0) email d) as [user|] eqn:Hget; [|discriminate].
  apply GetUserByEmail_active in Hget as (Hin & Hem & Hact). rewrite Hact. cbn [negb].
  destruct (CompareHashAndPassword _ _); cbn [negb]; [|discriminate].
  cbn [Auth.generateAccessToken].
  destruct (entropy env) as [bytes|] eqn:Hent;
    [|unfold Auth.generateRefreshToken; rewrite Hent; discriminate].
  destruct (generated_refresh_token_parses env user (now env') bytes Hent Hlt)
    as (bearer & claims & Hgen & Hparse & Hhash & _).
  rewrite Hgen. unfold UserRepo.StoreRefreshToken.
  destruct (pg env 1 && _); [|discriminate].
  intros [= <- _ <-].
  set (row := mkRefreshToken (uuid_new env 0) (ID user) (hex_EncodeToString bytes)
                (now env + Auth.refreshTokenTTL j) (now env) None) in *.
  assert (Hrow : In row (refresh_tokens (set_refresh_tokens (fun rs => (rs ++ [row])%list) d)))
    by (cbn; apply List.in_or_app; right; left; reflexivity).
  assert (Hval : UserRepo.ValidateRefreshToken true (now env') (hex_EncodeToString bytes)
                   (set_refresh_tokens (fun rs => (rs ++ [row])%list) d) = Ok user).
  { change (hex_EncodeToString bytes) with (rt_token_hash row).
    rewrite (ValidateRefreshToken_row (now env') _ row user Hwf1 Hrow Hin eq_refl).
    cbn [rt_expires_at rt_revoked_at row is_null]. rewrite Hact.
    pose proof (NewNumericDate_bounds (now env + Auth.refreshTokenTTL j)).
    replace (now env' <? now env + Auth.refreshTokenTTL j) with true
      by (symmetry; apply Z.ltb_lt; lia).
    reflexivity. }
  exists user, bearer, (hex_EncodeToString bytes). eexists.
  split; [exact Hin|]. split; [reflexivity|]. split; [exact Hgen|].
  split.
  - unfold Auth.RefreshSession. rewrite Hparse, Hhash, Hpg, Hval.
    cbn [Auth.generateAccessToken]. reflexivity.
  - intros env'' Hpg'' Hlt''.
    destruct (generated_access_token_parses j (now env') (now env'') user Hlt'')
      as (tok' & Htok & claims' & Hp' & Hid').
    cbn [Auth.generateAccessToken] in Htok. injection Htok as <-.
    unfold Auth.ValidateSession. rewrite Hp', Hid', Hpg''.
    rewrite (GetUserByID_row _ user Hwf1 Hin), Hact. reflexivity.
Qed.

Lemma join_users_map {A} (uid : A -> UUID) cond ucond (g : User -> User) us (rows : list A) :
  (forall v, ID (g v) = ID v) -> (forall v, ucond (g v) = ucond v) ->
  join_users uid cond ucond (map g us) rows = map g (join_users uid cond ucond us rows).
Proof.
  intros Hid Huc. unfold join_users.
  induction rows as [|r rows IH]; [reflexivity|].
  cbn [flat_map]. rewrite List.map_app, IH. f_equal.
  destruct (cond r); [|reflexivity].
  clear IH. induction us as [|v us IHus]; [reflexivity|].
  cbn [map List.filter]. rewrite Hid, Huc, IHus.
  destruct (String.eqb (ID v) (uid r) && ucond v); reflexivity.
Qed.

Lemma QueryRow_map {A} (g : A -> A) io (l : list A) :
  QueryRow io (map g l)
  = match QueryRow io l with Ok r => Ok (g r) | Err e => Err e end.
Proof. destruct io, l; reflexivity. Qed.

Lemma ValidateRefreshToken_users_updated io now' h d c set :
  (forall v, ID (set v) = ID v) -> (forall v, IsActive (set v) = IsActive v) ->
  UserRepo.ValidateRefreshToken io now' h (set_users (sql_update c set) d)
  = match UserRepo.ValidateRefreshToken io now' h d with
    | Ok u => Ok (if c u then set u else u)
    | Err e => Err e
    end.
Proof.
  intros Hid Hact. unfold UserRepo.ValidateRefreshToken, sql_update.
  cbn [users refresh_tokens set_users].
  rewrite join_users_map, QueryRow_map.
  - destruct (QueryRow io _) as [u|[]]; reflexivity.
  - intros v. destruct (c v); [apply Hid|reflexivity].
  - intros v. destruct (c v); [apply Hact|reflexivity].
Qed.

Lemma ValidatePasswordResetToken_users_updated io now' token d c set :
  (forall v, ID (set v) = ID v) ->
  VerificationRepo.ValidatePasswordResetToken io now' token (set_users (sql_update c set) d)
  = match VerificationRepo.ValidatePasswordResetToken io now' token d with
    | Ok u => Ok (if c u then set u else u)
    | Err e => Err e
    end.
Proof.
  intros Hid. unfold VerificationRepo.ValidatePasswordResetToken, sql_update.
  cbn [users password_resets set_users].
  rewrite join_users_map, QueryRow_map.
  - destruct (QueryRow io _) as [u|[]]; reflexivity.
  - intros v. destruct (c v); [apply Hid|reflexivity].
  - reflexivity.
Qed.

(** X10. A password reset does not end the account's sessions: whatever
    [ResetPassword] returns, the refresh records are the ones before the
    call, every refresh hash is validated afterwards exactly when it was
    before, and [RefreshSession] succeeds on the same bearers as before. *)
Theorem ResetPassword_keeps_sessions env token newPassword d :
  let d' := snd (Auth.ResetPassword j env token newPassword d) in
  refresh_tokens d' = refresh_tokens d
  /\ (forall io now' h,
        is_ok (UserRepo.ValidateRefreshToken io now' h d')
        = is_ok (UserRepo.ValidateRefreshToken io now' h d))
  /\ (forall env' bearer,
        is_ok (fst (Auth.RefreshSession j env' bearer d'))
        = is_ok (fst (Auth.RefreshSession j env' bearer d))).
Proof.
  intros d'.
  assert (Hd : d' = d
               \/ exists hash,
                    d' = set_users
                           (sql_update (fun v => String.eqb (ID v)
                               (ID (match VerificationRepo.ValidatePasswordResetToken (pg env 0)
                                            (now env) token d with Ok u => u | Err _ => alice end)))
                              (fun v => mkUser (ID v) (Email v) (Username v) hash
                                               (IsActive v) (IsVerified v) (CreatedAt v) (now env))) d
                    \/ d' = set_password_resets
                              (sql_update (fun r => String.eqb (su_token r) token
                                                    && is_null (su_used_at r))
                                 (VerificationRepo.mark_used (now env)))
                              (set_users
                                 (sql_update (fun v => String.eqb (ID v)
                                     (ID (match VerificationRepo.ValidatePasswordResetToken (pg env 0)
                                            (now env) token d with Ok u => u | Err _ => alice end)))
                                    (fun v => mkUser (ID v) (Email v) (Username v) hash
                                                (IsActive v) (IsVerified v) (CreatedAt v) (now env)))
                                 d)).
  { subst d'. unfold Auth.ResetPassword.
    destruct (VerificationRepo.ValidatePasswordResetToken _ _ _ _) as [user|]; [|left; reflexivity].
    destruct (GenerateFromPassword _ _) as [hash|]; [|left; reflexivity].
    unfold UserRepo.UpdatePassword. destruct (pg env 1 && _); [|left; reflexivity].
    unfold VerificationRepo.RevokePasswordResetToken.
    destruct (pg env 2); right; exists hash; [right|left]; reflexivity. }
  assert (Hv : forall io now' h,
             is_ok (UserRepo.ValidateRefreshToken io now' h d')
             = is_ok (UserRepo.ValidateRefreshToken io now' h d)).
  { intros io now' h. destruct Hd as [->|(hash & [->| ->])]; [reflexivity| |].
    - rewrite ValidateRefreshToken_users_updated by reflexivity.
      destruct (UserRepo.ValidateRefreshToken io now' h d); reflexivity.
    - change (UserRepo.ValidateRefreshToken io now' h (set_password_resets ?f ?x))
        with (UserRepo.ValidateRefreshToken io now' h x).
      rewrite ValidateRefreshToken_users_updated by reflexivity.
      destruct (UserRepo.ValidateRefreshToken io now' h d); reflexivity. }
  split; [|split].
  - destruct Hd as [->|(hash & [->| ->])]; reflexivity.
  - exact Hv.
  - intros env' bearer. unfold Auth.RefreshSession.
    destruct (Auth.parseRefreshToken j (now env') bearer) as [claims|]; [|reflexivity].
    specialize (Hv (pg env' 0) (now env') (Auth.r_TokenHash claims)).
    destruct (UserRepo.ValidateRefreshToken _ _ _ d'),
             (UserRepo.ValidateRefreshToken _ _ _ d); cbn in Hv |- *; congruence.
Qed.

(** X11. [ResetPassword] is not all or nothing: when the password update
    completes and the revocation of the token then fails, the call returns
    an error although the new hash is stored, and the reset token is still
    validated, so it can be used again. *)
Theorem ResetPassword_not_atomic env token newPassword d user hash :
  VerificationRepo.ValidatePasswordResetToken (pg env 0) (now env) token d = Ok user ->
  GenerateFromPassword newPassword (salt env) = Some hash ->
  varchar 255 hash = true ->
  pg env 1 = true -> pg env 2 = false ->
  exists d' user',
    Auth.ResetPassword j env token newPassword d
    = (Err (ErrorfW "failed to revoke password reset token"
              (ErrorfW "failed to revoke password reset token" (PgError "connection"))), d')
    /\ VerificationRepo.ValidatePasswordResetToken (pg env 0) (now env) token d' = Ok user'
    /\ In user' (users d') /\ ID user' = ID user /\ HashedPassword user' = hash
    /\ password_resets d' = password_resets d.
Proof.
  intros Hval Hgen Hvc Hpg1 Hpg2. unfold Auth.ResetPassword.
  rewrite Hval, Hgen. unfold UserRepo.UpdatePassword. rewrite Hpg1, Hvc, orb_true_r.
  cbn [andb]. unfold VerificationRepo.RevokePasswordResetToken. rewrite Hpg2.
  eexists _, _. split; [reflexivity|].
  rewrite ValidatePasswordResetToken_users_updated by reflexivity. rewrite Hval.
  rewrite String.eqb_refl. split; [reflexivity|].
  apply ValidatePasswordResetToken_Ok in Hval as (r & _ & _ & Hu & _).
  split; [|repeat split].
  cbn [users set_users]. unfold sql_update. apply List.in_map_iff. exists user.
  rewrite String.eqb_refl. auto.
Qed.

Lemma GetUserByEmail_row d u :
  db_wf d -> In u (users d) -> IsActive u = true ->
  UserRepo.GetUserByEmail true (Email u) d = Ok u.
Proof.
  intros Hwf Hu Hact. unfold UserRepo.GetUserByEmail.
  rewrite (QueryRow_unique _ u); [reflexivity| |].
  - apply List.filter_In. split; [exact Hu|]. rewrite String.eqb_refl. exact Hact.
  - intros v Hv. apply List.filter_In in Hv as [Hv He]. apply andb_prop in He as [He _].
    apply String.eqb_eq in He.
    apply (NoDup_map_eq Email (users d)); [apply Hwf|assumption|assumption|exact He].
Qed.


(** X13. An account that is already verified is refused by both entry
    points with [ErrEmailAlreadyVerified]: [VerifyEmail] on a live
    verification token of the account leaves the tables as they are, so the
    token stays unused, and [SendVerificationEmail] stores no token and
    sends no message. *)
Theorem verified_account_refused env d u :
  db_wf d -> In u (users d) -> IsVerified u = true -> pg env 0 = true ->
  (forall r, In r (email_verifications d) -> su_user_id r = ID u ->
             now env < su_expires_at r -> su_used_at r = None ->
             Auth.VerifyEmail j env (su_token r) d = (Err ErrEmailAlreadyVerified, d))
  /\ (IsActive u = true ->
      Auth.SendVerificationEmail j env (Email u) d = (Err ErrEmailAlreadyVerified, d, [])).
Proof.
  intros Hwf Hu Hver Hpg. split.
  - intros r Hr Hid Hlt Hused. unfold Auth.VerifyEmail. rewrite Hpg.
    rewrite (ValidateVerificationToken_row (now env) d r u Hwf Hr Hu (eq_sym Hid)).
    apply Z.ltb_lt in Hlt. rewrite Hlt, Hused. cbn [is_null andb]. rewrite Hver. reflexivity.
  - intros Hact. unfold Auth.SendVerificationEmail. rewrite Hpg.
    rewrite (GetUserByEmail_row d u Hwf Hu Hact), Hver. reflexivity.
Qed.

End Flows.

Lemma SignIn_then_RefreshSession_witness :
  exists u tok bearer tok',
    db_wf demo_db
    /\ Auth.SignIn (bc := demo_bcrypt) (hm := demo_hmac) demo_auth (demo_env 0)
         "alice@example.com" "secret1234" demo_db = (Ok (u, tok), demo_session_db)
    /\ Auth.RefreshSession (hm := demo_hmac) demo_auth (demo_env (2 * Hour)) bearer
         demo_session_db = (Ok (u, tok'), demo_session_db).
Proof.
  assert (Hs : Auth.SignIn (bc := demo_bcrypt) (hm := demo_hmac) demo_auth (demo_env 0)
                 "alice@example.com" "secret1234" demo_db
               = (Ok (Auth.clear_password alice,
                      Jwt.SignedString (hm := demo_hmac) Jwt.SHA256 "secret"
                        (Auth.payload_of_claims
                           (Auth.mkClaims "a11ce000-0000-4000-8000-000000000001" "alice@example.com" "alice"
                              (Some (1 * Hour)) (Some 0) "a11ce000-0000-4000-8000-000000000001"))),
                  demo_session_db)) by reflexivity.
  destruct (SignIn_then_RefreshSession (bc := demo_bcrypt) (hm := demo_hmac) demo_auth
              (demo_env 0) (demo_env (2 * Hour)) _ _ demo_db _ _ _ demo_db_wf Hs
              eq_refl eq_refl)
    as (user & bearer & h & tok' & _ & _ & _ & Href & _).
  eexists _, _, bearer, tok'. split; [exact demo_db_wf|]. split; [exact Hs|exact Href].
Defined.

Lemma ResetPassword_not_atomic_witness :
  exists d' user',
    VerificationRepo.ValidatePasswordResetToken true 5 "reset-me" demo_db = Ok alice
    /\ is_ok (fst (Auth.ResetPassword (bc := demo_bcrypt) demo_auth
                     (demo_env_third_call_fails 5) "reset-me" "newpass99" demo_db)) = false
    /\ snd (Auth.ResetPassword (bc := demo_bcrypt) demo_auth
              (demo_env_third_call_fails 5) "reset-me" "newpass99" demo_db) = d'
    /\ VerificationRepo.ValidatePasswordResetToken true 5 "reset-me" d' = Ok user'
    /\ HashedPassword user' = "$2a$10$newpass99".
Proof.
  destruct (ResetPassword_not_atomic (bc := demo_bcrypt) demo_auth
              (demo_env_third_call_fails 5) "reset-me" "newpass99" demo_db alice
              "$2a$10$newpass99" eq_refl eq_refl eq_refl eq_refl eq_refl)
    as (d' & user' & Hr & Hv & _ & _ & Hh & _).
  exists d', user'. split; [reflexivity|]. rewrite Hr. auto.
Defined.


Lemma demo_verified_db_wf : db_wf demo_verified_db.
Proof.
  constructor; cbn;
    try (apply NoDup_ListNoDup; repeat constructor; cbn; intuition discriminate).
  - intros r [].
  - intros r [<-|[]]. reflexivity.
  - intros r [].
Qed.

Lemma verified_account_refused_witness :
  db_wf demo_verified_db
  /\ In carol_verified (users demo_verified_db)
  /\ Auth.VerifyEmail demo_auth (demo_env 5) "verify-carol" demo_verified_db
     = (Err ErrEmailAlreadyVerified, demo_verified_db)
  /\ Auth.SendVerificationEmail demo_auth (demo_env 5) "carol@example.com" demo_verified_db
     = (Err ErrEmailAlreadyVerified, demo_verified_db, []).
Proof.
  assert (Hin : In carol_verified (users demo_verified_db)) by (left; reflexivity).
  destruct (verified_account_refused demo_auth
              (demo_env 5) demo_verified_db carol_verified demo_verified_db_wf Hin
              eq_refl eq_refl) as [Hv Hs].
  split; [exact demo_verified_db_wf|]. split; [exact Hin|]. split.
  - exact (Hv (mkSingleUseToken "ca201000-0000-4000-8000-000000000003" "verify-carol" (24 * Hour) None 0)
              (or_introl eq_refl) eq_refl eq_refl eq_refl).
  - exact (Hs eq_refl).
Defined.


(** ** The middlewares *)

Section Middlewares.
Context {bc : Bcrypt} {hm : Jwt.Hmac}.
Import Middleware.

Lemma redis_Incr_other t key (m : gmap string RedisEntry) k :
  k <> key -> snd (redis_Incr t key m) !! k = m !! k.
Proof.
  intros Hne. unfold redis_Incr.
  destruct (m !! key) as [e|]; [destruct (redis_live t e)|]; cbn [snd];
    rewrite lookup_insert_ne by congruence; reflexivity.
Qed.

Lemma redis_Expire_other t key ttl (m : gmap string RedisEntry) k :
  k <> key -> redis_Expire t key ttl m !! k = m !! k.
Proof.
  intros Hne. unfold redis_Expire.
  destruct (m !! key) as [e|]; [|reflexivity].
  destruct (redis_live t e); [|reflexivity].
  destruct (formatSec ttl <=? 0).
  - rewrite lookup_delete_ne by congruence. reflexivity.
  - rewrite lookup_insert_ne by congruence. reflexivity.
Qed.

(** The limiter hands over only below the threshold, all three commands
    having completed. *)
Lemma Middleware_Next_inv config env c w c' w' :
  Middleware config env c w = (Next c', w') ->
  redis_ok env 0 = true /\ redis_ok env 1 = true /\ redis_ok env 2 = true
  /\ default 0 (redis_Get (now env) (rate_limit_key (IP (request c))) (redis w))
     < MaxRequests config.
Proof.
  unfold Middleware. destruct (redis_ok env 0); cbn [negb]; [|discriminate].
  destruct (MaxRequests config <=? _) eqn:Hc; [discriminate|]. apply Z.leb_gt in Hc.
  destruct (redis_ok env 1); [destruct (redis_Incr _ _ _)|];
    destruct (redis_ok env 2); cbn [andb negb]; try discriminate.
  auto.
Qed.

(** X15. The rate limiter fails closed and keeps to its own counter: it
    hands a request over only when all three Redis commands completed and
    the count was below the threshold; otherwise it answers 429 (leaving
    everything as it was) or 500; and whatever it answers, the tables, the
    outbox, the log and the counters of every other key are untouched. *)
Theorem limiter_fails_closed config env c w :
  let key := rate_limit_key (IP (request c)) in
  let count := default 0 (redis_Get (now env) key (redis w)) in
  let r := Middleware config env c w in
  db (snd r) = db w /\ outbox (snd r) = outbox w /\ logs (snd r) = logs w
  /\ (forall k, k <> key -> redis (snd r) !! k = redis w !! k)
  /\ match fst r with
     | Next c' =>
         redis_ok env 0 = true /\ redis_ok env 1 = true /\ redis_ok env 2 = true
         /\ count < MaxRequests config
         /\ request c' = request c /\ locals_user c' = locals_user c
     | Respond resp =>
         (status resp = 429 /\ snd r = w /\ MaxRequests config <= count)
         \/ (status resp = 500
             /\ (redis_ok env 0 = false \/ redis_ok env 1 = false \/ redis_ok env 2 = false))
     end.
Proof.
  intros key count r. subst r. unfold Middleware. fold key. fold count.
  destruct (redis_ok env 0) eqn:H0; cbn [negb].
  2:{ cbn. repeat split; auto. }
  destruct (MaxRequests config <=? count) eqn:Hc.
  { apply Z.leb_le in Hc. cbn. repeat split; auto. }
  apply Z.leb_gt in Hc.
  pose proof (redis_Incr_other (now env) key (redis w)) as Hi.
  destruct (redis_ok env 1) eqn:H1;
    [destruct (redis_Incr (now env) key (redis w)) as [incr m1]; cbn [snd] in Hi|];
    destruct (redis_ok env 2) eqn:H2; cbn [andb negb fst snd db outbox logs redis set_redis];
    (split; [reflexivity|]); (split; [reflexivity|]); (split; [reflexivity|]);
    (split; [intros k Hk; rewrite ?redis_Expire_other by exact Hk; auto|]);
    cbn [status ErrorResponse request locals_user]; auto 10.
Qed.

(** X16. What the limiter records for a request it hands over, with a
    positive window: the live count of the client's key goes up by one and
    stays within the threshold, the key's time to live is re-armed to the
    window in whole seconds (a fraction cut, one second for a shorter
    window) from now on the millisecond clock of Redis, and the three
    headers announce the threshold, what is left of it (never negative)
    and the second in which the uncut window ends. *)
Theorem limiter_accounting config env c w c' w' :
  0 < Window config ->
  Middleware config env c w = (Next c', w') ->
  let key := rate_limit_key (IP (request c)) in
  let count := default 0 (redis_Get (now env) key (redis w)) in
  redis w' !! key
  = Some (mkRedisEntry (count + 1) (Some (redis_time (now env) + key_ttl config)))
  /\ redis_Get (now env) key (redis w') = Some (count + 1)
  /\ count + 1 <= MaxRequests config
  /\ headers c'
     = (headers c ++
          [("X-RateLimit-Limit", JInt (MaxRequests config));
           ("X-RateLimit-Remaining", JInt (MaxRequests config - (count + 1)));
           ("X-RateLimit-Reset", JInt ((now env + Window config) / Second))])%list.
Proof.
  intros HW Hmw key count.
  destruct (Middleware_Next_inv config env c w c' w' Hmw) as (H0 & H1 & H2 & Hlt).
  fold key in Hlt. fold count in Hlt.
  revert Hmw. unfold Middleware. fold key. fold count.
  rewrite H0, H1, H2. cbn [negb andb].
  apply Z.leb_gt in Hlt. rewrite Hlt.
  destruct (Incr_Expire_lookup config (now env) key (redis w) HW) as [Hincr Hl].
  fold count in Hincr, Hl.
  destruct (redis_Incr (now env) key (redis w)) as [incr m1]. cbn [fst snd] in Hincr, Hl.
  intros [= <- <-]. cbn [redis set_redis headers]. subst incr.
  split; [exact Hl|]. split.
  - unfold redis_Get. rewrite Hl. unfold redis_live. cbn [expire_at value].
    replace (redis_time (now env) <=? redis_time (now env) + key_ttl config) with true
      by (symmetry; apply Z.leb_le; unfold key_ttl;
          pose proof (formatSec_pos _ HW); lia).
    reflexivity.
  - split; [apply Z.leb_gt in Hlt; lia|reflexivity].
Qed.

Lemma ValidateSession_Ok j env tok d u' :
  Auth.ValidateSession j env tok d = Ok u' ->
  exists claims u,
    Auth.parseAccessToken j (now env) tok = Ok claims
    /\ In u (users d) /\ ID u = Auth.c_UserID claims /\ IsActive u = true
    /\ u' = Auth.clear_password u.
Proof.
  unfold Auth.ValidateSession.
  destruct (Auth.parseAccessToken j (now env) tok) as [claims|]; [|discriminate].
  destruct (UserRepo.GetUserByID _ _ _) as [u|] eqn:Hg; [|discriminate].
  apply GetUserByID_Ok in Hg as (Hin & Hid & _).
  destruct (IsActive u) eqn:Ha; cbn [negb]; [|discriminate].
  intros [= <-]. eauto 10.
Qed.

(** X17. Outside its public paths the bearer middleware hands over only
    requests that carry a token [parseAccessToken] accepts and that names
    an active account of the tables, which it puts, without the password
    hash, in the context; every other request is answered 401; in no case
    does it change anything. *)
Theorem gate_passes_only_live_sessions j env c w :
  existsb (String.eqb (path (request c))) Gate.public_paths = false ->
  snd (Gate.Middleware j env c w) = w
  /\ match fst (Gate.Middleware j env c w) with
     | Next c' =>
         exists tok claims u,
           authorization (request c) = Bearer tok
           /\ Auth.parseAccessToken j (now env) tok = Ok claims
           /\ In u (users (db w)) /\ ID u = Auth.c_UserID claims /\ IsActive u = true
           /\ c' = mkCtx (request c) (Some (Auth.clear_password u)) (headers c)
     | Respond r => status r = 401 /\ exists msg, json r = [("error", JStr msg)]
     end.
Proof.
  intros Hpriv. unfold Gate.Middleware. rewrite Hpriv.
  destruct (authorization (request c)) as [|tok|raw]; cbn; eauto.
  destruct (Auth.ValidateSession j env tok (db w)) as [u'|] eqn:Hv; cbn; eauto.
  apply ValidateSession_Ok in Hv as (claims & u & Hp & Hin & Hid & Ha & ->).
  split; [reflexivity|]. exists tok, claims, u. auto 10.
Qed.
End Middlewares.

Lemma limiter_accounting_witness :
  let config := Middleware.mkRateLimiterConfig 5 Minute in
  let c := Middleware.request_from "10.0.0.7" in
  exists c' w',
    Middleware.Middleware config (Middleware.healthy 0) c (demo_world demo_db) = (Next c', w')
    /\ Middleware.redis_Get 0 (Middleware.rate_limit_key "10.0.0.7") (redis w') = Some 1.
Proof.
  intros config c.
  destruct (Middleware.Middleware config (Middleware.healthy 0) c (demo_world demo_db))
    as [[resp|c'] w'] eqn:Hm; [vm_compute in Hm; discriminate|].
  exists c', w'. split; [reflexivity|].
  exact (proj1 (proj2 (limiter_accounting config (Middleware.healthy 0) c
                         (demo_world demo_db) c' w' eq_refl Hm))).
Defined.

Lemma gate_passes_only_live_sessions_witness :
  let c := mkCtx (mkRequest "GET" "/api/auth/me" "10.0.0.7" NoAuthHeader None) None [] in
  existsb (String.eqb (path (request c))) Gate.public_paths = false
  /\ snd (Gate.Middleware (hm := demo_hmac) demo_auth (demo_env 0) c (demo_world demo_db))
     = demo_world demo_db.
Proof.
  intros c. split; [reflexivity|].
  exact (proj1 (gate_passes_only_live_sessions (hm := demo_hmac) demo_auth (demo_env 0) c
                  (demo_world demo_db) eq_refl)).
Defined.

(** ** Requests through the route table *)

Section RouteTable.
Context {bc : Bcrypt} {hm : Jwt.Hmac}.

(** X18. GET /api/auth/me stands behind the bearer middleware and nothing
    else: without a header, with another scheme or with a token
    [ValidateSession] refuses the answer is 401; with a token it accepts
    the answer is 200 with the identifier, email and user name of the
    account the token names; the request changes nothing. *)
Theorem me_route cfg env ip auth body w :
  Routes.serve cfg env (mkRequest "GET" "/api/auth/me" ip auth body) w
  = (match auth with
     | NoAuthHeader => mkResponse 401 [("error", JStr "Authorization header required")]
     | OtherScheme _ => mkResponse 401 [("error", JStr "Invalid authorization format")]
     | Bearer tok =>
         match Auth.ValidateSession (Routes.AuthService cfg) env tok (db w) with
         | Err _ => mkResponse 401 [("error", JStr "Invalid token")]
         | Ok u => mkResponse 200 [("user", JUserResponse (ID u) (Email u) (Username u))]
         end
     end, w).
Proof.
  unfold Routes.serve, Routes.SetupRoutes. cbn [app].
  rewrite dispatch_hit by reflexivity.
  cbn [Routes.run_chain Routes.r_handlers Routes.recover_New].
  rewrite dispatch_hit by reflexivity.
  cbn [Routes.run_chain Routes.r_handlers]. unfold Routes.cors_New at 1.
  cbn [request method]. change (String.eqb "GET" "OPTIONS") with false. cbn iota.
  do 9 (rewrite dispatch_skip by reflexivity).
  rewrite dispatch_hit by reflexivity.
  cbn [Routes.run_chain Routes.r_handlers]. unfold Gate.Middleware at 1.
  cbn [request path authorization].
  change (existsb (String.eqb "/api/auth/me") Gate.public_paths) with false. cbn iota.
  destruct auth as [|tok|raw]; [reflexivity| |reflexivity].
  destruct (Auth.ValidateSession (Routes.AuthService cfg) env tok (db w)) as [u|e];
    [|reflexivity].
  rewrite dispatch_hit by reflexivity. reflexivity.
Qed.

Lemma serve_signin cfg env req w :
  method req = "POST" -> path req = "/api/auth/signin" ->
  exists rest,
    Routes.serve cfg env req w
    = match Middleware.Middleware (Routes.RateLimiter cfg) env (mkCtx req None []) w with
      | (Respond r, w1) => (r, w1)
      | (Next c1, w1) =>
          match AuthHandler.Signin (Routes.AuthService cfg) env c1 w1 with
          | (Respond r, w2) => (r, w2)
          | (Next c2, w2) => Routes.dispatch rest env c2 w2
          end
      end.
Proof.
  destruct req as [m p ip auth b]. cbn [method path]. intros -> ->.
  eexists. unfold Routes.serve, Routes.SetupRoutes. cbn [app].
  rewrite dispatch_hit by reflexivity.
  cbn [Routes.run_chain Routes.r_handlers Routes.recover_New].
  rewrite dispatch_hit by reflexivity.
  cbn [Routes.run_chain Routes.r_handlers]. unfold Routes.cors_New at 1.
  cbn [request method]. change (String.eqb "POST" "OPTIONS") with false. cbn iota.
  do 4 (rewrite dispatch_skip by reflexivity).
  rewrite dispatch_hit by reflexivity.
  cbn [Routes.run_chain Routes.r_handlers].
  destruct (Middleware.Middleware _ _ _ _) as [[r|c1] w1]; [reflexivity|].
  destruct (AuthHandler.Signin _ _ _ _) as [[r|c2] w2]; reflexivity.
Qed.

Lemma Middleware_reject_any config env c w :
  redis_ok env 0 = true ->
  Middleware.MaxRequests config
  <= default 0 (Middleware.redis_Get (now env) (Middleware.rate_limit_key (IP (request c)))
                  (redis w)) ->
  Middleware.Middleware config env c w
  = (Respond (mkResponse 429 [("error", JStr "Too many requests");
                             ("retry_after", JSeconds (Middleware.Window config))]), w).
Proof.
  intros H0 Hle. unfold Middleware.Middleware. rewrite H0. cbn [negb].
  apply Z.leb_le in Hle. rewrite Hle. reflexivity.
Qed.

Lemma Middleware_next config env c w :
  redis_ok env 0 = true -> redis_ok env 1 = true -> redis_ok env 2 = true ->
  default 0 (Middleware.redis_Get (now env) (Middleware.rate_limit_key (IP (request c)))
               (redis w))
  < Middleware.MaxRequests config ->
  exists c1 w1,
    Middleware.Middleware config env c w = (Next c1, w1)
    /\ db w1 = db w /\ request c1 = request c.
Proof.
  intros H0 H1 H2 Hlt. unfold Middleware.Middleware. rewrite H0, H1, H2. cbn [negb andb].
  apply Z.leb_gt in Hlt. rewrite Hlt.
  destruct (Middleware.redis_Incr _ _ _) as [incr m1].
  eexists _, _. split; [reflexivity|]. split; reflexivity.
Qed.

(** X19. POST /api/auth/signin behind the limiter: once the client's count
    has reached the threshold the answer is 429 and no sign-in is tried
    (nothing changes); below it, for credentials that name no account, an
    inactive account or a wrong password, the answer is 401 with the one
    message "Invalid email or password" and the tables are unchanged. *)
Theorem signin_route_throttled cfg env ip auth obj w :
  let req := mkRequest "POST" "/api/auth/signin" ip auth (Some obj) in
  let count := default 0 (Middleware.redis_Get (now env) (Middleware.rate_limit_key ip)
                            (redis w)) in
  let limit := Middleware.MaxRequests (Routes.RateLimiter cfg) in
  redis_ok env 0 = true ->
  (limit <= count ->
   exists resp, status resp = 429 /\ Routes.serve cfg env req w = (resp, w))
  /\ (count < limit ->
      redis_ok env 1 = true -> redis_ok env 2 = true ->
      field "email" obj <> "" -> field "password" obj <> "" ->
      (forall u, In u (users (db w)) -> Email u = field "email" obj ->
                 IsActive u = false
                 \/ CompareHashAndPassword (HashedPassword u) (field "password" obj) = false) ->
      exists w',
        Routes.serve cfg env req w
        = (mkResponse 401 [("error", JStr "Invalid email or password")], w')
        /\ db w' = db w).
Proof.
  intros req count limit H0.
  destruct (serve_signin cfg env req w eq_refl eq_refl) as [rest Hs].
  split.
  - intros Hle. rewrite Hs.
    rewrite (Middleware_reject_any (Routes.RateLimiter cfg) env (mkCtx req None []) w H0 Hle).
    eexists. split; [|reflexivity]. reflexivity.
  - intros Hlt H1 H2 He Hp Hbad. rewrite Hs.
    destruct (Middleware_next (Routes.RateLimiter cfg) env (mkCtx req None []) w H0 H1 H2 Hlt)
      as (c1 & w1 & -> & Hdb & Hreq).
    unfold AuthHandler.Signin. rewrite Hreq. cbn [request body req].
    apply String.eqb_neq in He, Hp. rewrite He, Hp. cbn [orb].
    rewrite SignIn_refused by (rewrite Hdb; exact Hbad).
    eexists. split; [reflexivity|]. cbn. exact Hdb.
Qed.

(** X20. POST /graphql reaches its handler directly: no limiter and no
    bearer check stand before it, so the handler is run on the bare
    request, with no account in the context and the world as it was, and
    its answer is the answer of the server. *)
Theorem graphql_route_unguarded cfg env ip auth body w h resp w' :
  Routes.GQLHandler cfg = Some h ->
  let req := mkRequest "POST" "/graphql" ip auth body in
  h env (mkCtx req None []) w = (Respond resp, w') ->
  Routes.serve cfg env req w = (resp, w').
Proof.
  intros Hg req Hh. unfold Routes.serve, Routes.SetupRoutes. rewrite Hg. cbn [app].
  rewrite dispatch_hit by reflexivity.
  cbn [Routes.run_chain Routes.r_handlers Routes.recover_New].
  rewrite dispatch_hit by reflexivity.
  cbn [Routes.run_chain Routes.r_handlers]. unfold Routes.cors_New at 1.
  cbn [request method req]. change (String.eqb "POST" "OPTIONS") with false. cbn iota.
  do 11 (rewrite dispatch_skip by reflexivity).
  destruct (Routes.PostHandlers cfg) as [ph|]; cbn [app].
  - do 6 (rewrite dispatch_skip by reflexivity).
    rewrite dispatch_hit by reflexivity.
    cbn [Routes.run_chain Routes.r_handlers]. fold req. rewrite Hh. reflexivity.
  - rewrite dispatch_hit by reflexivity.
    cbn [Routes.run_chain Routes.r_handlers]. fold req. rewrite Hh. reflexivity.
Qed.
End RouteTable.

Lemma signin_route_throttled_witness :
  let req := mkRequest "POST" "/api/auth/signin" "10.0.0.7" NoAuthHeader
               (Some [("email", "alice@example.com"); ("password", "wrong-pass")]) in
  exists w',
    Routes.serve (bc := demo_bcrypt) (hm := demo_hmac) demo_config (demo_env 0) req
      (demo_world demo_db)
    = (mkResponse 401 [("error", JStr "Invalid email or password")], w')
    /\ db w' = demo_db.
Proof.
  intros req.
  refine (proj2 (signin_route_throttled (bc := demo_bcrypt) (hm := demo_hmac) demo_config
                   (demo_env 0) "10.0.0.7" NoAuthHeader
                   [("email", "alice@example.com"); ("password", "wrong-pass")]
                   (demo_world demo_db) eq_refl)
                _ eq_refl eq_refl _ _ _).
  - reflexivity.
  - discriminate.
  - discriminate.
  - intros u [<-|[<-|[]]] _; [right|left]; reflexivity.
Defined.

Lemma graphql_route_unguarded_witness :
  let req := mkRequest "POST" "/graphql" "10.0.0.7" NoAuthHeader None in
  Routes.GQLHandler demo_config = Some (fun _ _ w => (Respond (mkResponse 200 []), w))
  /\ Routes.serve (bc := demo_bcrypt) (hm := demo_hmac) demo_config (demo_env 0) req
       (demo_world demo_db)
     = (mkResponse 200 [], demo_world demo_db).
Proof.
  intros req. split; [reflexivity|].
  exact (graphql_route_unguarded (bc := demo_bcrypt) (hm := demo_hmac) demo_config
           (demo_env 0) "10.0.0.7" NoAuthHeader None (demo_world demo_db) _ _ _
           eq_refl eq_refl).
Defined.

(** ** The post routes *)

Section PostRoutes.
Context {bc : Bcrypt} {hm : Jwt.Hmac}.










End PostRoutes.


(** ** The change of password by its owner *)

Section ChangePassword.
Context {bc : Bcrypt} {hm : Jwt.Hmac}.
Variable j : Auth.JWTAuth.

(** X22. [UpdatePassword] changes a hash only for the holder of the old
    password: when it returns [nil] the account exists, its stored hash
    verified the old password, and afterwards the account carries the
    hash of the new one while the other accounts and the refresh records
    are as before; when the stored hash does not verify the old password
    the call fails and the tables are unchanged. *)
Theorem UpdatePassword_needs_old_password env id oldPassword newPassword d :
  (forall d',
      Auth.UpdatePassword j env id oldPassword newPassword d = (Ok tt, d') ->
      exists u hash,
        In u (users d) /\ ID u = id
        /\ CompareHashAndPassword (HashedPassword u) oldPassword = true
        /\ GenerateFromPassword newPassword (salt env) = Some hash
        /\ (forall v, In v (users d') -> ID v = id -> HashedPassword v = hash)
        /\ (forall v, In v (users d) -> ID v <> id -> In v (users d'))
        /\ refresh_tokens d' = refresh_tokens d)
  /\ ((forall u, In u (users d) -> ID u = id ->
                 CompareHashAndPassword (HashedPassword u) oldPassword = false) ->
      exists e, Auth.UpdatePassword j env id oldPassword newPassword d = (Err e, d)).
Proof.
  split.
  - intros d'. unfold Auth.UpdatePassword.
    destruct (UserRepo.GetUserByID (pg env 0) id d) as [u|] eqn:Hg; [|discriminate].
    apply GetUserByID_Ok in Hg as (Hin & Hid & _).
    destruct (CompareHashAndPassword (HashedPassword u) oldPassword) eqn:Hc; cbn [negb];
      [|discriminate].
    destruct (GenerateFromPassword newPassword (salt env)) as [hash|]; [|discriminate].
    unfold UserRepo.UpdatePassword. destruct (pg env 1 && _); [|discriminate].
    intros [= <-]. exists u, hash. cbn [users refresh_tokens set_users].
    split; [exact Hin|]. split; [exact Hid|]. split; [exact Hc|]. split; [reflexivity|].
    split; [|split; [|reflexivity]].
    + intros v Hv Hvid. apply sql_update_In in Hv as (v0 & _ & ->).
      destruct (String.eqb (ID v0) id) eqn:E; [reflexivity|].
      apply String.eqb_neq in E. contradiction.
    + intros v Hv Hne. unfold sql_update. apply List.in_map_iff. exists v.
      apply String.eqb_neq in Hne. rewrite Hne. auto.
  - intros Hbad. unfold Auth.UpdatePassword.
    destruct (UserRepo.GetUserByID (pg env 0) id d) as [u|] eqn:Hg; [|eauto].
    apply GetUserByID_Ok in Hg as (Hin & Hid & _).
    rewrite (Hbad u Hin Hid). cbn [negb]. eauto.
Qed.
End ChangePassword.

Lemma UpdatePassword_needs_old_password_witness :
  (exists d', Auth.UpdatePassword (bc := demo_bcrypt) demo_auth (demo_env 5) "a11ce000-0000-4000-8000-000000000001"
                "secret1234" "newpass99" demo_db = (Ok tt, d'))
  /\ exists e, Auth.UpdatePassword (bc := demo_bcrypt) demo_auth (demo_env 5) "a11ce000-0000-4000-8000-000000000001"
                 "guess" "newpass99" demo_db = (Err e, demo_db).
Proof.
  split; [eexists; reflexivity|].
  refine (proj2 (UpdatePassword_needs_old_password (bc := demo_bcrypt) demo_auth (demo_env 5)
                   "a11ce000-0000-4000-8000-000000000001" "guess" "newpass99" demo_db) _).
  intros u [<-|[<-|[]]] Hid; [reflexivity|discriminate Hid].
Defined.

(** ** The GraphQL resolver *)

Section GraphQL.
Context {bc : Bcrypt} {hm : Jwt.Hmac} {st : Resolver.Strings}.
Variable j : Auth.JWTAuth.
Import Resolver.

Lemma Contains_cons c s substr :
  Contains s substr = true -> Contains (String c s) substr = true.
Proof. intros H. cbn [Contains]. rewrite H. apply orb_true_r. Qed.

Lemma prefix_append p : forall s, String.prefix p s = true -> exists r, s = p +:+ r.
Proof.
  induction p as [|a p IH]; intros s; [exists s; reflexivity|].
  destruct s as [|b s]; cbn [String.prefix]; [discriminate|].
  destruct (Ascii.ascii_dec a b) as [->|]; [|discriminate].
  intros H. destruct (IH s H) as [r ->]. exists r. reflexivity.
Qed.

(** A text that contains "name" contains "me". *)
Lemma Contains_name_me s : Contains s "name" = true -> Contains s "me" = true.
Proof.
  induction s as [|c s IH]; [discriminate|].
  intros H. cbn [Contains] in H. apply orb_prop in H as [H|H].
  - apply prefix_append in H as [r ->]. destruct r; reflexivity.
  - apply Contains_cons, IH, H.
Qed.

(** X23. No request to the resolver ends a session: whatever the query
    and its variables, every refresh record on file before the request is
    on file after it exactly as it was, so a sign-out over GraphQL, whose
    answer is "Successfully signed out", revokes nothing. *)
Theorem graphql_never_revokes env ctx_user req w :
  forall r, In r (refresh_tokens (db w)) ->
            In r (refresh_tokens (db (snd (handleGraphQL j env ctx_user req w)))).
Proof.
  intros r Hr. unfold handleGraphQL.
  destruct (Contains _ "signUp").
  { unfold handleSignUp. destruct (_ || _); [exact Hr|].
    unfold Auth.CreateUser.
    destruct (UserRepo.GetUserByEmail _ _ _); [exact Hr|].
    destruct (GenerateFromPassword _ _); [|exact Hr].
    unfold UserRepo.CreateUser. destruct (pg env 1 && _); exact Hr. }
  destruct (Contains _ "signIn").
  { unfold handleSignIn. destruct (_ || _); [exact Hr|].
    unfold Auth.SignIn.
    destruct (UserRepo.GetUserByEmail _ _ _) as [user|]; [|exact Hr].
    destruct (negb (IsActive user)); [exact Hr|].
    destruct (negb (CompareHashAndPassword _ _)); [exact Hr|].
    cbn [Auth.generateAccessToken].
    destruct (Auth.generateRefreshToken j env user) as [[bearer h]|]; [|exact Hr].
    unfold UserRepo.StoreRefreshToken. destruct (pg env 1 && _); [|exact Hr].
    cbn. apply List.in_or_app. left. exact Hr. }
  destruct (Contains _ "signOut"); [exact Hr|].
  destruct (Contains _ "refreshToken").
  { unfold handleRefreshToken.
    assert (Hgo : In r (refresh_tokens (db (snd
                    match Auth.RefreshSession j env (RefreshTokenVariable req) (db w) with
                    | (Err err, d) =>
                        (Errors (error_message err),
                         log_Error "Failed to refresh token" err (set_db d w))
                    | (Ok (user, newToken), d) =>
                        (Data "refreshToken"
                           (AuthResponse (ID user) (Email user) "" newToken
                              "new-refresh-placeholder"), set_db d w)
                    end)))).
    { unfold Auth.RefreshSession.
      destruct (Auth.parseRefreshToken _ _ _); [|exact Hr].
      destruct (UserRepo.ValidateRefreshToken _ _ _ _) as [user|]; exact Hr. }
    destruct (RefreshTokenVariable req) as [[|c raw]|alg claims sig]; [exact Hr|exact Hgo..]. }
  destruct (Contains _ "me").
  { unfold handleMe. destruct (Auth.GetUserFromContext j ctx_user); exact Hr. }
  destruct (_ || _); exact Hr.
Qed.

(** X24. The resolver picks the operation by the words the query text
    contains, in a fixed order, so a query is taken for the current-user
    query as soon as it contains "me" and none of the four mutation names:
    an introspection query that selects [name] is answered "Not
    authenticated" when no account is in the context, and the schema is
    returned to queries without "me" only. *)
Theorem graphql_me_shadows_introspection env ctx_user req w :
  let query := TrimSpace (Query req) in
  Contains query "signUp" = false -> Contains query "signIn" = false ->
  Contains query "signOut" = false -> Contains query "refreshToken" = false ->
  (Contains query "name" = true ->
   handleGraphQL j env None req w = (Errors "Not authenticated", w))
  /\ (forall types,
        fst (handleGraphQL j env ctx_user req w) = Data "__schema" (SchemaResponse types) ->
        Contains query "me" = false
        /\ (Contains query "__schema" = true \/ Contains query "__type" = true)).
Proof.
  intros query H1 H2 H3 H4. unfold handleGraphQL. fold query. rewrite H1, H2, H3, H4.
  split.
  - intros Hn. rewrite (Contains_name_me query Hn). reflexivity.
  - intros types. destruct (Contains query "me").
    + unfold handleMe. destruct (Auth.GetUserFromContext j ctx_user); discriminate.
    + destruct (Contains query "__schema"); [auto|].
      destruct (Contains query "__type"); [auto|discriminate].
Qed.

(** X25. A sign-in over GraphQL that names no account, an inactive
    account or a wrong password is answered with status 200 and the one
    error "Invalid email or password"; the tables and the Redis counters
    are as before, no limiter having counted the attempt. *)
Theorem graphql_signIn_refused env ctx_user req w :
  let query := TrimSpace (Query req) in
  let email := variable "email" (Variables req) in
  let password := variable "password" (Variables req) in
  Contains query "signUp" = false -> Contains query "signIn" = true ->
  email <> "" -> password <> "" ->
  (forall u, In u (users (db w)) -> Email u = email ->
             IsActive u = false
             \/ CompareHashAndPassword (HashedPassword u) password = false) ->
  exists w',
    NewServer j env ctx_user "POST" (Some req) w
    = (200, Errors "Invalid email or password", w')
    /\ db w' = db w /\ redis w' = redis w /\ outbox w' = outbox w.
Proof.
  intros query email password H1 H2 He Hp Hbad.
  unfold NewServer, handleGraphQL. cbn [String.eqb negb]. fold query. rewrite H1, H2.
  unfold handleSignIn. fold email. fold password.
  apply String.eqb_neq in He, Hp. rewrite He, Hp. cbn [orb].
  rewrite SignIn_refused by exact Hbad.
  eexists. split; [reflexivity|]. cbn. auto.
Qed.
End GraphQL.

Lemma graphql_me_shadows_introspection_witness :
  let req := demo_introspection in
  Resolver.handleGraphQL (bc := demo_bcrypt) (hm := demo_hmac) (st := demo_strings)
    demo_auth (demo_env 0) None req (demo_world demo_db)
  = (Resolver.Errors "Not authenticated", demo_world demo_db).
Proof.
  intros req.
  exact (proj1 (graphql_me_shadows_introspection (bc := demo_bcrypt) (hm := demo_hmac)
                  (st := demo_strings) demo_auth (demo_env 0) None req (demo_world demo_db)
                  eq_refl eq_refl eq_refl eq_refl) eq_refl).
Defined.

Lemma graphql_signIn_refused_witness :
  let req := Resolver.mkGraphQLRequest "mutation { signIn { accessToken } }"
               (<["email" := "alice@example.com"]> (<["password" := "guess"]> ∅))
               (Jwt.Garbage "") in
  exists w',
    Resolver.NewServer (bc := demo_bcrypt) (hm := demo_hmac) (st := demo_strings)
      demo_auth (demo_env 0) None "POST" (Some req) (demo_world demo_db)
    = (200, Resolver.Errors "Invalid email or password", w')
    /\ db w' = demo_db.
Proof.
  intros req.
  destruct (graphql_signIn_refused (bc := demo_bcrypt) (hm := demo_hmac) (st := demo_strings)
              demo_auth (demo_env 0) None req (demo_world demo_db) eq_refl eq_refl)
    as (w' & Hs & Hdb & _).
  - discriminate.
  - discriminate.
  - intros u [<-|[<-|[]]] _; [right|left]; reflexivity.
  - exists w'. split; [exact Hs|exact Hdb].
Defined.

Lemma graphql_never_revokes_witness :
  let row := mkRefreshToken "00000000-0000-4000-8000-0000000000a0" "a11ce000-0000-4000-8000-000000000001"
               (hex_EncodeToString "0123456789abcdef0123456789abcdef")
               (0 + 24 * 30 * Hour) 0 None in
  let req := Resolver.mkGraphQLRequest "mutation { signOut { success } }" ∅
               demo_refresh_secret in
  In row (refresh_tokens (db (demo_world demo_session_db)))
  /\ In row (refresh_tokens (db (snd (Resolver.handleGraphQL (bc := demo_bcrypt)
                                        (hm := demo_hmac) (st := demo_strings) demo_auth
                                        (demo_env 5) None req (demo_world demo_session_db))))).
Proof.
  intros row req.
  assert (Hin : In row (refresh_tokens (db (demo_world demo_session_db))))
    by (left; reflexivity).
  split; [exact Hin|].
  exact (graphql_never_revokes (bc := demo_bcrypt) (hm := demo_hmac) (st := demo_strings)
           demo_auth (demo_env 5) None req (demo_world demo_session_db) row Hin).
Defined.

(** ** The encodings of the random bytes *)

Section Encodings.

Lemma hex_digit_inj m n :
  (m < 16)%N -> (n < 16)%N -> hex_digit m = hex_digit n -> m = n.
Proof.
  intros Hm Hn. rewrite <- (N2Nat.id m), <- (N2Nat.id n).
  assert (Ha : (N.to_nat m < 16)%nat) by lia.
  assert (Hb : (N.to_nat n < 16)%nat) by lia.
  generalize dependent (N.to_nat n). generalize dependent (N.to_nat m).
  intros a Ha b Hb H.
  do 16 (destruct a as [|a];
         [do 16 (destruct b as [|b];
                 [vm_compute in H; first [reflexivity | discriminate H]|]); lia|]).
  lia.
Qed.

Lemma hex_EncodeToString_inj s : forall t,
  hex_EncodeToString s = hex_EncodeToString t -> s = t.
Proof.
  induction s as [|c s IH]; intros [|c' t]; cbn [hex_EncodeToString];
    [reflexivity|discriminate|discriminate|].
  intros [= H1 H2 H3].
  pose proof (Ascii.N_ascii_bounded c) as Hc.
  pose proof (Ascii.N_ascii_bounded c') as Hc'.
  apply hex_digit_inj in H1;
    [|apply N.Div0.div_lt_upper_bound; lia|apply N.Div0.div_lt_upper_bound; lia].
  apply hex_digit_inj in H2; [|apply N.mod_lt; lia|apply N.mod_lt; lia].
  assert (Hn : Ascii.N_of_ascii c = Ascii.N_of_ascii c').
  { rewrite (N.div_mod (Ascii.N_of_ascii c) 16), (N.div_mod (Ascii.N_of_ascii c') 16) by lia.
    rewrite H1, H2. reflexivity. }
  f_equal; [|apply IH; exact H3].
  rewrite <- (Ascii.ascii_N_embedding c), <- (Ascii.ascii_N_embedding c'), Hn. reflexivity.
Qed.

Lemma hex_EncodeToString_length s :
  String.length (hex_EncodeToString s) = (2 * String.length s)%nat.
Proof.
  induction s as [|c s IH]; [reflexivity|].
  cbn [hex_EncodeToString String.length]. rewrite IH. lia.
Qed.

(** X26. The hexadecimal encoding loses nothing: two byte strings have
    the same encoding exactly when they are equal, so the stored refresh
    identifiers of two sign-ins coincide only when the same bytes were
    drawn; and the encoding is twice as long as the bytes. *)
Theorem hex_EncodeToString_faithful s t :
  String.eqb (hex_EncodeToString s) (hex_EncodeToString t) = String.eqb s t
  /\ String.length (hex_EncodeToString s) = (2 * String.length s)%nat.
Proof.
  split; [|apply hex_EncodeToString_length].
  destruct (String.eqb s t) eqn:E.
  - apply String.eqb_eq in E as ->. apply String.eqb_refl.
  - apply String.eqb_neq. intros H. apply hex_EncodeToString_inj in H.
    apply String.eqb_neq in E. contradiction.
Qed.

Lemma utf8_chars_le s : (utf8_chars s <= String.length s)%nat.
Proof.
  induction s as [|c s IH]; [reflexivity|].
  cbn [utf8_chars String.length]. destruct (_ =? _)%N; lia.
Qed.

Lemma base64_groups_length n : forall l,
  (length l <= n)%nat ->
  String.length (base64_groups l) = (4 * ((length l + 2) / 3))%nat.
Proof.
  induction n as [n IH] using lt_wf_ind. intros l Hl.
  destruct l as [|a [|b [|c rest]]]; [reflexivity..|].
  cbn [base64_groups String.length length].
  rewrite (IH (length rest)); [|cbn [length] in Hl; lia|lia].
  replace (S (S (S (length rest))) + 2)%nat with ((length rest + 2) + 1 * 3)%nat by lia.
  rewrite Nat.div_add by lia. lia.
Qed.

Lemma list_ascii_length s : length (String.list_ascii_of_string s) = String.length s.
Proof. induction s as [|c s IH]; [reflexivity|]. cbn. rewrite IH. reflexivity. Qed.

Lemma base64_URLEncoding_length bytes :
  String.length (base64_URLEncoding bytes) = (4 * ((String.length bytes + 2) / 3))%nat.
Proof.
  unfold base64_URLEncoding.
  rewrite (base64_groups_length _ _ (Nat.le_refl _)), length_map, list_ascii_length.
  reflexivity.
Qed.

(** X27. The tokens the service generates fit their columns: the
    URL-safe base64 encoding of [n] bytes has four characters for every
    three bytes begun, so the 32 random bytes of a verification or reset
    token make 44 characters and those of a refresh identifier, in
    hexadecimal, 64, both within the VARCHAR(255) of their columns. *)
Theorem generated_tokens_fit_columns bytes :
  String.length (base64_URLEncoding bytes) = (4 * ((String.length bytes + 2) / 3))%nat
  /\ (String.length bytes = 32%nat ->
      String.length (base64_URLEncoding bytes) = 44%nat
      /\ String.length (hex_EncodeToString bytes) = 64%nat
      /\ varchar 255 (base64_URLEncoding bytes) = true
      /\ varchar 255 (hex_EncodeToString bytes) = true).
Proof.
  pose proof (base64_URLEncoding_length bytes) as Hb.
  split; [exact Hb|]. intros H32.
  assert (H44 : String.length (base64_URLEncoding bytes) = 44%nat)
    by (rewrite Hb, H32; reflexivity).
  assert (H64 : String.length (hex_EncodeToString bytes) = 64%nat)
    by (rewrite hex_EncodeToString_length, H32; reflexivity).
  split; [exact H44|]. split; [exact H64|].
  unfold varchar. split; apply Nat.leb_le.
  - pose proof (utf8_chars_le (base64_URLEncoding bytes)). lia.
  - pose proof (utf8_chars_le (hex_EncodeToString bytes)). lia.
Qed.
End Encodings.

(** ** What the handlers report, and what a failed delivery leaves *)

Section Reporting.
Context {bc : Bcrypt} {hm : Jwt.Hmac}.
Variable j : Auth.JWTAuth.

(** X28. The handlers always answer, and a failure is always reported as
    the client's: the status is 200, 400 or 401 as listed, never a 5xx,
    whatever the store does. In particular a sign-in during a store
    outage is answered 401 "Invalid email or password", like a wrong
    password. *)
Theorem handlers_report_client_errors env c w :
  let status_in (h : Handler) (codes : list Z) :=
    exists r, fst (h env c w) = Respond r /\ In (status r) codes in
  status_in (AuthHandler.Signup j) [200; 400]
  /\ status_in (AuthHandler.Signin j) [200; 400; 401]
  /\ status_in (AuthHandler.Signout j) [200]
  /\ status_in (AuthHandler.Me j) [200; 401]
  /\ status_in (AuthHandler.VerifyEmail j) [200; 400]
  /\ status_in (AuthHandler.RequestPasswordReset j) [200; 400]
  /\ status_in (AuthHandler.ResetPassword j) [200; 400]
  /\ (forall obj,
        pg env 0 = false -> body (request c) = Some obj ->
        field "email" obj <> "" -> field "password" obj <> "" ->
        fst (AuthHandler.Signin j env c w) = ErrorResponse 401 "Invalid email or password").
Proof.
  intros status_in. subst status_in. cbn beta.
  repeat match goal with |- _ /\ _ => split end.
  - unfold AuthHandler.Signup. destruct (body (request c)) as [req|]; [|cbn; eauto 6].
    destruct (_ || _); [cbn; eauto 6|].
    destruct (Auth.CreateUser _ _ _ _ _ _) as [[?|?] ?]; cbn; eauto 6.
  - unfold AuthHandler.Signin. destruct (body (request c)) as [req|]; [|cbn; eauto 6].
    destruct (_ || _); [cbn; eauto 6|].
    destruct (Auth.SignIn _ _ _ _ _) as [[[? ?]|?] ?]; cbn; eauto 7.
  - cbn. eauto.
  - unfold AuthHandler.Me. destruct (locals_user c); cbn; eauto 6.
  - unfold AuthHandler.VerifyEmail. destruct (body (request c)) as [req|]; [|cbn; eauto 6].
    destruct (Auth.VerifyEmail _ _ _ _) as [[?|?] ?]; cbn; eauto 6.
  - unfold AuthHandler.RequestPasswordReset.
    destruct (body (request c)) as [req|]; [|cbn; eauto 6].
    destruct (Auth.RequestPasswordReset _ _ _ _) as [[[?|?] ?] ?]; cbn; eauto 6.
  - unfold AuthHandler.ResetPassword. destruct (body (request c)) as [req|]; [|cbn; eauto 6].
    destruct (Auth.ResetPassword _ _ _ _ _) as [[?|?] ?]; cbn; eauto 6.
  - intros obj Hpg Hb He Hp. unfold AuthHandler.Signin. rewrite Hb.
    apply String.eqb_neq in He, Hp. rewrite He, Hp. cbn [orb].
    unfold Auth.SignIn, UserRepo.GetUserByEmail, QueryRow. rewrite Hpg. reflexivity.
Qed.


End Reporting.


(** ** Accounts are kept *)

Section Kept.

Lemma kept_sql_update cond set (us : list User) :
  (forall v, ID (set v) = ID v /\ CreatedAt (set v) = CreatedAt v) ->
  (forall u, In u us ->
             exists u', In u' (sql_update cond set us)
                        /\ ID u' = ID u /\ CreatedAt u' = CreatedAt u)
  /\ length (sql_update cond set us) = length us.
Proof.
  intros Hset. split; [|apply length_map].
  intros u Hu. exists (if cond u then set u else u). split.
  - unfold sql_update. apply List.in_map_iff. eauto.
  - destruct (cond u); [apply Hset|auto].
Qed.

Lemma kept_step d d' :
  repo_step d d' ->
  (forall u, In u (users d) ->
             exists u', In u' (users d') /\ ID u' = ID u /\ CreatedAt u' = CreatedAt u)
  /\ (length (users d) <= length (users d'))%nat.
Proof.
  assert (Hsame : (forall u, In u (users d) ->
                     exists u', In u' (users d) /\ ID u' = ID u /\ CreatedAt u' = CreatedAt u)
                  /\ (length (users d) <= length (users d))%nat)
    by (split; [eauto|lia]).
  assert (Hupd : forall cond set,
             (forall v, ID (set v) = ID v /\ CreatedAt (set v) = CreatedAt v) ->
             (forall u, In u (users d) ->
                exists u', In u' (sql_update cond set (users d))
                           /\ ID u' = ID u /\ CreatedAt u' = CreatedAt u)
             /\ (length (users d) <= length (sql_update cond set (users d)))%nat).
  { intros cond set Hset. destruct (kept_sql_update cond set (users d) Hset) as [H1 H2].
    split; [exact H1|lia]. }
  intros Hstep. destruct Hstep.
  - unfold UserRepo.CreateUser. destruct (io && _); [|exact Hsame].
    cbn [snd users set_users]. split.
    + intros u Hu. exists u. split; [apply List.in_or_app; left; exact Hu|auto].
    + rewrite length_app. lia.
  - unfold UserRepo.UpdateUser. destruct (io && _); [|exact Hsame].
    apply Hupd. intros v. split; reflexivity.
  - unfold UserRepo.UpdatePassword. destruct (io && _); [|exact Hsame].
    apply Hupd. intros v. split; reflexivity.
  - unfold UserRepo.StoreRefreshToken. destruct (io && _); exact Hsame.
  - unfold UserRepo.RevokeRefreshToken. destruct io; exact Hsame.
  - unfold UserRepo.UpdateLastLogin. destruct io; exact Hsame.
  - unfold VerificationRepo.StoreVerificationToken. destruct (io && _); exact Hsame.
  - match goal with
    | |- context [VerificationRepo.MarkEmailVerified ?i ?n ?u d] =>
        destruct (MarkEmailVerified_cases i n u d) as [[_ ->]|[_ [e ->]]]
    end; [|exact Hsame].
    apply Hupd. intros v. split; reflexivity.
  - unfold VerificationRepo.StorePasswordResetToken. destruct (io && _); exact Hsame.
  - unfold VerificationRepo.RevokePasswordResetToken. destruct io; exact Hsame.
Qed.

(** X30. No account is ever removed: after any sequence of repository
    calls every account of the tables is still there under its
    identifier, with the creation instant it had, and the accounts are at
    least as many; deletion only clears the active flag. *)
Theorem accounts_never_removed d d' :
  repo_steps d d' ->
  (forall u, In u (users d) ->
             exists u', In u' (users d') /\ ID u' = ID u /\ CreatedAt u' = CreatedAt u)
  /\ (length (users d) <= length (users d'))%nat.
Proof.
  intros Hsteps. induction Hsteps as [|d1 d2 _ [IH1 IH2] Hstep].
  - split; [eauto|lia].
  - destruct (kept_step d1 d2 Hstep) as [H1 H2]. split; [|lia].
    intros u Hu. destruct (IH1 u Hu) as (u1 & Hu1 & Hid1 & Hc1).
    destruct (H1 u1 Hu1) as (u2 & Hu2 & Hid2 & Hc2).
    exists u2. split; [exact Hu2|]. split; congruence.
Qed.
End Kept.

Lemma accounts_never_removed_witness :
  let d' := snd (Auth.DeleteUser demo_auth (demo_env 5) "a11ce000-0000-4000-8000-000000000001" demo_db) in
  repo_steps demo_db d'
  /\ exists u', In u' (users d') /\ ID u' = "a11ce000-0000-4000-8000-000000000001" /\ CreatedAt u' = 0.
Proof.
  intros d'.
  assert (Hs : repo_steps demo_db d').
  { eapply steps_then; [apply steps_refl|].
    exact (step_UpdateUser demo_db true 5
             (mkUser "a11ce000-0000-4000-8000-000000000001" "alice@example.com" "alice" "$2a$10$secret1234"
                     false false 0 5)). }
  split; [exact Hs|].
  exact (proj1 (accounts_never_removed demo_db d' Hs) alice (or_introl eq_refl)).
Defined.
